(** * great_expectations: the Databricks batch-kwargs generator and the
      basic suite-builder profiler, as a shallow embedding.

    Two source files are embedded:
    - [datasource/batch_kwargs_generator/databricks_batch_kwargs_generator.py]
      (module [Databricks]);
    - [profile/basic_suite_builder_profiler.py] (module [Profiler]).

    Conventions of the embedding:
    - dictionaries with string keys are [gmap string _], Python sets are
      [gset], exceptions are values of [exn] on the left of a sum;
    - the dataset and the Spark session are external: what their methods
      return is a field of a record ([Dataset], [SparkSession]). The calls
      by which the profiler changes the dataset or measures a column (the
      [expect_...] methods, [remove_expectation], the two setters, the
      type and cardinality helpers) are recorded in order; the read-only
      queries ([get_table_columns], [list_available_expectation_types],
      [get_expectation_suite]) are read from the record and leave no
      trace;
    - an exception does not undo the calls already made, so the profiler's
      computations return the state next to the exception;
    - the statistics a dataset observes (min, max, mean, quantiles,
      percentages) are only compared and shifted by constants: they are
      exact rationals, with a separate value for [nan]; where the program
      multiplies, in the row-count expectation, its floats are IEEE 754
      binary64 numbers with their rounding, as CPython's are;
    - debug logging is left out; the warning and the error the Databricks
      generator logs are kept. *)

From Stdlib Require Import ZArith QArith Qpower Lqa List SpecFloat.
From stdpp Require Import gmap strings list pretty.

Set Default Proof Using "Type".
Local Open Scope Z_scope.

(** ** Python values and exceptions *)

Module Py.

(** The exceptions the two files raise or let through. *)
Inductive exn : Type :=
| Exception (msg : string)        (* raise Exception(msg) *)
| ProfilerError (msg : string)    (* great_expectations.exceptions.ProfilerError *)
| TypeError
| OverflowError
| ValueError
| AssertionError (msg : string).

(** The outcome of a call: an exception or a value. *)
Definition result (A : Type) : Type := exn + A.

(** The character [chr(34)], the double quote. *)
Definition dquote : string := String (Ascii.ascii_of_nat 34) EmptyString.

(** Keyword-argument values: [None], booleans, integers and strings. *)
Inductive pyval : Type :=
| PNone
| PBool (b : bool)
| PInt (z : Z)
| PStr (s : string).

(** Python truthiness: [bool(v)]. *)
Definition truthy (v : pyval) : bool :=
  match v with
  | PNone => false
  | PBool b => b
  | PInt z => negb (z =? 0)
  | PStr s => negb (String.eqb s EmptyString)
  end.

(** [str(v)], which is what ['{}'.format(v)] inserts. *)
Definition py_str (v : pyval) : string :=
  match v with
  | PNone => "None"
  | PBool true => "True"
  | PBool false => "False"
  | PInt z => pretty z
  | PStr s => s
  end.

(** [kwargs.get(key)]: the value, or [None] when the key is absent. *)
Definition dict_get (kwargs : gmap string pyval) (key : string) : pyval :=
  default PNone (kwargs !! key).

(** A [string] is a sequence of characters with code points below 256,
    the character [c] standing for the code point [nat_of_ascii c].

    [s.lower()]: below 256 the cased letters are [A] to [Z] (65 to 90) and
    the capital letters with diacritics (192 to 222, the multiplication
    sign 215 apart); each is lowered by adding 32. *)
Definition lower_char (c : Ascii.ascii) : Ascii.ascii :=
  let n := Ascii.nat_of_ascii c in
  if ((65 <=? n)%nat && (n <=? 90)%nat)
     || ((192 <=? n)%nat && (n <=? 222)%nat && negb (n =? 215)%nat)
  then Ascii.ascii_of_nat (n + 32) else c.

Fixpoint lower (s : string) : string :=
  match s with
  | EmptyString => EmptyString
  | String c s' => String (lower_char c) (lower s')
  end.

(** The characters [str.strip()] removes, those [str.isspace()] accepts:
    below 256 the code points 9 to 13, 28 to 32, 133 (next line) and 160
    (no-break space). *)
Definition is_space (c : Ascii.ascii) : bool :=
  let n := Ascii.nat_of_ascii c in
  ((9 <=? n)%nat && (n <=? 13)%nat) || ((28 <=? n)%nat && (n <=? 32)%nat)
  || (n =? 133)%nat || (n =? 160)%nat.

Fixpoint lstrip (s : string) : string :=
  match s with
  | EmptyString => EmptyString
  | String c s' => if is_space c then lstrip s' else s
  end.

(** [s.strip()]. *)
Definition strip (s : string) : string :=
  String.rev (lstrip (String.rev (lstrip s))).

(** [s.find(sub) > -1]: [sub] occurs in [s]. *)
Fixpoint contains (sub s : string) : bool :=
  String.prefix sub s ||
  match s with
  | EmptyString => false
  | String _ s' => contains sub s'
  end.

End Py.

(** ** Python floats in arithmetic: IEEE 754 binary64

    Where the program computes with floats, they are the binary64 numbers
    of the Standard Library's specification of floating-point arithmetic
    ([SpecFloat], precision 53, exponent bound 1024, rounding to nearest
    with ties to even), as CPython's are. *)

Module Binary64.
Import Py.

Definition prec : Z := 53.
Definition emax : Z := 1024.
Definition float : Type := spec_float.

Definition add : float -> float -> float := SFadd prec emax.
Definition sub : float -> float -> float := SFsub prec emax.
Definition mul : float -> float -> float := SFmul prec emax.

(** [0.0], [1.0], and the floats the literals [0.1], [0.9] and [1.1]
    denote: [0x1.999999999999ap-4], [0x1.ccccccccccccdp-1] and
    [0x1.199999999999ap+0]. *)
Definition zero : float := S754_zero false.
Definition one : float := S754_finite false 4503599627370496 (-52).
Definition tenth : float := S754_finite false 7205759403792794 (-56).

(** [x >= 0]: false on [nan]. *)
Definition ge_zero (x : float) : bool := SFleb zero x.

(** [float(n)], the conversion an [int] undergoes in [n * x]: the nearest
    float, and [OverflowError] when that is not finite. *)
Definition of_int (n : Z) : result float :=
  match binary_normalize prec emax n 0 false with
  | S754_infinity _ => inl OverflowError
  | x => inr x
  end.

(** [int(x)]: truncation toward zero; [ValueError] on [nan],
    [OverflowError] on an infinity. *)
Definition to_int (x : float) : result Z :=
  match x with
  | S754_nan => inl ValueError
  | S754_infinity _ => inl OverflowError
  | S754_zero _ => inr 0
  | S754_finite s m e => inr (cond_Zopp s (Z.shiftl (Zpos m) e))
  end.

(** [int(n * x)] for an [int] [n] and a float [x]. *)
Definition int_of_product (n : Z) (x : float) : result Z :=
  match of_int n with
  | inl e => inl e
  | inr v => to_int (mul v x)
  end.

(** The rational value of the finite float with mantissa [m] and exponent
    [e], and [2^-52], a bound on the relative error of one rounding. *)
Definition F2Q (m : Z) (e : Z) : Q := (inject_Z m * 2 ^ e)%Q.

End Binary64.

(** ** databricks_batch_kwargs_generator.py *)

Module Databricks.
Import Py.

(** A row of [show tables]: the code reads [row.tableName]. *)
Record Row : Type := { tableName : string }.

(** The Spark session: [spark.sql(query).collect()], which may raise. *)
Record SparkSession : Type := { sql_collect : string -> result (list Row) }.

(** The fields of [DatabricksTableBatchKwargsGenerator] the methods read. *)
Record DatabricksTableBatchKwargsGenerator : Type := {
  name : string;
  database : string;
  spark : option SparkSession
}.

(** Records of the module logger, by level. *)
Inductive log_record : Type :=
| LogWarning (msg : string)
| LogError (msg : string).

(** [__init__]: [SparkSession.builder.getOrCreate()] either returns a session
    or raises; on any exception the error is logged and [spark] is [None]. *)
Definition init (name database : string) (getOrCreate : result SparkSession)
  : list log_record * DatabricksTableBatchKwargsGenerator :=
  match getOrCreate with
  | inr session =>
      ([], {| name := name; database := database; spark := Some session |})
  | inl _ =>
      ([LogError "Unable to load spark context; install optional spark dependency for support."],
       {| name := name; database := database; spark := None |})
  end.

(** [get_available_data_asset_names]: the dict [{"names": [...]}] with one
    pair [(tableName, "table")] per row, and the records logged. *)
Definition get_available_data_asset_names
  (self : DatabricksTableBatchKwargsGenerator)
  : list log_record * result (gmap string (list (string * string))) :=
  match spark self with
  | None =>
      ([LogWarning "No sparkSession available to query for tables."],
       inr {[ "names" := [] ]})
  | Some session =>
      match sql_collect session ("show tables in " +:+ database self) with
      | inl e => ([], inl e)
      | inr tables =>
          ([], inr {[ "names" := (λ row, (tableName row, "table")) <$> tables ]})
      end
  end.

(** [_get_iterator]: the list behind [iter([...])], one dict with the key
    ["query"]. *)
Definition _get_iterator
  (self : DatabricksTableBatchKwargsGenerator) (generator_asset : string)
  (kwargs : gmap string pyval) : result (list (gmap string string)) :=
  let query := "select * from " +:+ database self +:+ "." +:+ generator_asset in
  if truthy (dict_get kwargs "partition") then
    if negb (truthy (dict_get kwargs "date_field")) then
      inl (Exception "Must specify date_field when using partition.")
    else
      let query :=
        query +:+ " where " +:+ py_str (dict_get kwargs "date_field")
              +:+ " = " +:+ dquote +:+ py_str (dict_get kwargs "partition")
              +:+ dquote in
      inr [ {[ "query" := query ]} ]
  else
    inr [ {[ "query" := query ]} ].

End Databricks.

(** ** basic_suite_builder_profiler.py: data model *)

Module Profiler.
Import Py.

(** [ProfilerCardinality] and [ProfilerDataType] are declared in
    [profile/base.py]; the members below are the ones the profiler names,
    and [OTHER_CARDINALITY] / [OTHER_TYPE] stand for the remaining members
    ([NONE], [ONE], [BOOLEAN]), on which the profiler never branches. *)
Inductive ProfilerCardinality : Type :=
| TWO | VERY_FEW | FEW | MANY | VERY_MANY | UNIQUE | OTHER_CARDINALITY.

Inductive ProfilerDataType : Type :=
| INT | FLOAT | STRING | DATETIME | UNKNOWN | OTHER_TYPE.

Global Instance ProfilerCardinality_eq_dec : EqDecision ProfilerCardinality.
Proof. solve_decision. Defined.
Global Instance ProfilerDataType_eq_dec : EqDecision ProfilerDataType.
Proof. solve_decision. Defined.

(** Values the dataset reports as observed statistics. Python floats are
    kept as exact rationals, with [VNaN] for the float [nan]; a [datetime]
    is the number of microseconds since [datetime.min]. *)
Inductive value : Type :=
| VNone
| VNaN
| VNum (q : Q)
| VDatetime (t : Z)
| VStr (s : string).

(** [{"values": [...], "weights": [...]}], what
    [build_categorical_partition_object] returns. *)
Record PartitionObject : Type := {
  partition_values : list value;
  partition_weights : list Q
}.

(** Keyword arguments of the dataset's expectation methods. *)
Inductive arg : Type :=
| AVal (v : value)
| ABool (b : bool)
| AInt (z : Z)
| AValues (l : list value)
| AStrings (l : list string)
| AQuantileRanges (quantiles : list value) (value_ranges : list (value * value))
| APartition (p : PartitionObject).

(** An expectation configuration stored in a suite. *)
Record Expectation : Type := {
  expectation_type : string;
  kwargs : gmap string arg
}.

(** The entries of [suite.meta] the profiler writes, and any other entry. *)
Inductive metaval : Type :=
| MetaColumns (columns : gmap string (gmap string string))
| MetaNotesSet (notes : gset string)
| MetaNotes (format : string) (content : list string)
| MetaOther (v : string).

Record ExpectationSuite : Type := {
  expectations : list Expectation;
  meta : gmap string metaval
}.

(** The calls the profiler makes on the dataset, in the order made. *)
Inductive Event : Type :=
| Expect (expectation_type : string) (kwargs : gmap string arg)
| RemoveExpectation (expectation_type : string) (column : arg)
    (expectation_kwargs : option (gmap string arg))
    (remove_multiple_matches : bool)
| SetConfigValue (key : string) (v : bool)
| SetDefaultExpectationArgument (key : string) (v : bool)
| ExternalCall (function : string) (column : string).

(** [exception_info] of a validation result obtained with
    [catch_exceptions=True]. *)
Record ExceptionInfo : Type := {
  exception_traceback : pyval;
  exception_message : pyval
}.

(** The result of the first [expect_column_quantile_values_to_be_between]
    call: [exception_info] ([None] when falsy) and
    [result["observed_value"]]. *)
Record QuantileResult : Type := {
  exception_info : option ExceptionInfo;
  observed_quantiles : list value;
  observed_values : list value
}.

(** The dataset as the profiler sees it: what each method returns. The
    methods are those of the external dataset abstraction and of the base
    profiler; they are taken to return, and only [remove_expectation] is
    given a way to raise ([ValueError], which the profiler catches in
    places). [get_expectation_suite] depends on the calls made so far. *)
Record Dataset : Type := {
  get_table_columns : list string;
  list_available_expectation_types : list string;
  observed_row_count : Z;
  not_null_success : string -> bool;
  unexpected_percent : string -> Q;
  observed_distinct_values : string -> list value;
  observed_min : string -> value;
  observed_max : string -> value;
  observed_mean : string -> value;
  observed_median : string -> value;
  quantile_result : string -> QuantileResult;
  _get_column_cardinality : string -> ProfilerCardinality;
  _get_column_type : string -> ProfilerDataType;
  build_categorical_partition_object : string -> PartitionObject;
  get_expectation_suite : list Event -> bool -> ExpectationSuite;
  get_table_expectations : ExpectationSuite -> list Expectation;
  get_column_expectations : ExpectationSuite -> list Expectation;
  remove_expectation_raises : list Event -> Event -> bool;
  dateutil_parse : string -> result Z
}.

(** One entry of [column_cache]: the dict with the optional keys ["type"]
    and ["cardinality"]. *)
Record CacheEntry : Type := {
  cached_type : option ProfilerDataType;
  cached_cardinality : option ProfilerCardinality
}.

Definition empty_entry : CacheEntry :=
  {| cached_type := None; cached_cardinality := None |}.

(** [not column_cache_entry]: the entry is missing or the empty dict. *)
Definition entry_falsy (e : option CacheEntry) : bool :=
  match e with
  | None => true
  | Some {| cached_type := None; cached_cardinality := None |} => true
  | Some _ => false
  end.

(** The mutable state a profiling run threads: the calls made on the
    dataset and the column cache. *)
Record State : Type := {
  events : list Event;
  column_cache : gmap string CacheEntry
}.

(** ** A state monad whose exceptions keep the state

    A raised exception does not undo the calls already made on the dataset,
    so a computation returns its state in both cases. *)

Definition M (A : Type) : Type := State -> result A * State.

Definition ret {A} (a : A) : M A := λ s, (inr a, s).
Definition raise {A} (e : exn) : M A := λ s, (inl e, s).
Definition bind {A B} (m : M A) (k : A -> M B) : M B :=
  λ s, match m s with
       | (inl e, s') => (inl e, s')
       | (inr a, s') => k a s'
       end.

Declare Scope py_scope.
Delimit Scope py_scope with py.
Notation "x <- m ;; k" := (bind m (λ x, k))
  (at level 100, m at next level, right associativity) : py_scope.
Notation "m ;;; k" := (bind m (λ _, k))
  (at level 100, right associativity) : py_scope.
Local Open Scope py_scope.

(** [try: m  except ValueError: pass]. *)
Definition except_ValueError_pass (m : M unit) : M unit :=
  λ s, match m s with
       | (inl ValueError, s') => (inr tt, s')
       | r => r
       end.

(** [for x in l: body x]. *)
Fixpoint for_each {A} (l : list A) (body : A -> M unit) : M unit :=
  match l with
  | [] => ret tt
  | x :: l' => body x ;;; for_each l' body
  end.

Definition emit (e : Event) : M unit :=
  λ s, (inr tt, {| events := events s ++ [e]; column_cache := column_cache s |}).

Definition get_events : M (list Event) := λ s, (inr (events s), s).
Definition get_cache : M (gmap string CacheEntry) := λ s, (inr (column_cache s), s).
Definition set_cache (c : gmap string CacheEntry) : M unit :=
  λ s, (inr tt, {| events := events s; column_cache := c |}).

(** *** The configuration argument

    A value under a configuration key is [None], a bool, an int or a list
    of names: the values [_profile] tests for, and the truthy values that
    are no list ([True], a non-zero number), which no [for] loop accepts. *)
Inductive cfgval : Type :=
| CNone
| CFalse
| CTrue
| CInt (n : Z)
| CList (l : list string).

(** [configuration]: [None] (the default), the string ["demo"], or a dict. *)
Inductive Configuration : Type :=
| NoConfiguration
| Demo
| Mapping (d : gmap string cfgval).

(** [bool(v)] *)
Definition cfg_truthy (v : cfgval) : bool :=
  match v with
  | CList (_ :: _) | CTrue => true
  | CInt n => negb (n =? 0)
  | CList [] | CNone | CFalse => false
  end.

(** [for x in v] and [set(v)] accept [v]: it is a list. On any other
    value they raise [TypeError]. *)
Definition iterable (v : cfgval) : bool :=
  match v with
  | CList _ => true
  | CNone | CFalse | CTrue | CInt _ => false
  end.

(** The items a [for] loop visits; only used on an iterable value. *)
Definition cfg_items (v : cfgval) : list string :=
  match v with
  | CList l => l
  | CNone | CFalse | CTrue | CInt _ => []
  end.

(** [v in [False, None, []]]: the test is [==], and [0 == False]. *)
Definition in_False_None_empty (v : cfgval) : bool :=
  match v with
  | CFalse | CNone | CList [] => true
  | CInt n => n =? 0
  | CList (_ :: _) | CTrue => false
  end.

(** [v is None] *)
Definition cfg_is_None (v : cfgval) : bool :=
  match v with CNone => true | _ => false end.

(** [key in configuration] and [configuration[key]]. *)
Definition has_key (d : gmap string cfgval) (key : string) : bool :=
  bool_decide (is_Some (d !! key)).

Definition item (d : gmap string cfgval) (key : string) : cfgval :=
  default CNone (d !! key).

(** [if configuration:] *)
Definition configuration_truthy (c : Configuration) : bool :=
  match c with
  | NoConfiguration => false
  | Demo => true
  | Mapping d => negb (bool_decide (size d = 0%nat))
  end.

(** [profiled_columns], the dict of [_demo_profile] with its four lists. *)
Record ProfiledColumns : Type := {
  profiled_numeric : list string;
  profiled_low_card : list string;
  profiled_string : list string;
  profiled_datetime : list string
}.

(** *** The dataset's methods *)

Section WithDataset.
Variable dataset : Dataset.

Definition kw (l : list (string * arg)) : gmap string arg := list_to_map l.

(** A call of one of the dataset's [expect_...] methods: the call is
    recorded; what the code reads from its result is a field of
    [dataset]. *)
Definition expect (expectation_type : string) (kwargs : list (string * arg))
  : M unit :=
  emit (Expect expectation_type (kw kwargs)).

(** [dataset.remove_expectation(...)]; the keyword defaults are
    [column=None], [expectation_kwargs=None],
    [remove_multiple_matches=False]. *)
Definition remove_expectation (expectation_type : string) (column : arg)
  (expectation_kwargs : option (gmap string arg))
  (remove_multiple_matches : bool) : M unit :=
  λ s,
    let e := RemoveExpectation expectation_type column expectation_kwargs
                               remove_multiple_matches in
    let s' := {| events := events s ++ [e]; column_cache := column_cache s |} in
    if remove_expectation_raises dataset (events s) e
    then (inl ValueError, s') else (inr tt, s').

Definition set_config_value (key : string) (v : bool) : M unit :=
  emit (SetConfigValue key v).

Definition set_default_expectation_argument (key : string) (v : bool) : M unit :=
  emit (SetDefaultExpectationArgument key v).

Definition column_arg (column : string) : arg := AVal (VStr column).
Definition none_arg : arg := AVal VNone.
Definition SUMMARY : arg := AVal (VStr "SUMMARY").

(** [x in l] on a Python list. *)
Definition py_in {A} `{EqDecision A} (x : A) (l : list A) : bool :=
  bool_decide (x ∈ l).

(** An exception or value of a pure computation, inside [M]. *)
Definition lift {A} (r : result A) : M A := λ s, (r, s).

(** *** Column type and cardinality, cached per column *)

Definition _get_column_type_with_caching (column_name : string)
  : M ProfilerDataType :=
  cache <- get_cache;;
  let found := cache !! column_name in
  (if entry_falsy found
   then set_cache (<[column_name := empty_entry]> cache) else ret tt);;;
  let column_cache_entry :=
    if entry_falsy found then empty_entry else default empty_entry found in
  match cached_type column_cache_entry with
  | Some column_type => ret column_type
  | None =>
      emit (ExternalCall "_get_column_type" column_name);;;
      let column_type := _get_column_type dataset column_name in
      cache <- get_cache;;
      set_cache (<[column_name :=
                   {| cached_type := Some column_type;
                      cached_cardinality := cached_cardinality column_cache_entry |}]>
                 cache);;;
      remove_expectation "expect_column_values_to_be_in_type_list"
                         none_arg None false;;;
      set_config_value "interactive_evaluation" true;;;
      ret column_type
  end.

Definition _get_column_cardinality_with_caching (column_name : string)
  : M ProfilerCardinality :=
  cache <- get_cache;;
  let found := cache !! column_name in
  (if entry_falsy found
   then set_cache (<[column_name := empty_entry]> cache) else ret tt);;;
  let column_cache_entry :=
    if entry_falsy found then empty_entry else default empty_entry found in
  match cached_cardinality column_cache_entry with
  | Some column_cardinality => ret column_cardinality
  | None =>
      emit (ExternalCall "_get_column_cardinality" column_name);;;
      let column_cardinality := _get_column_cardinality dataset column_name in
      cache <- get_cache;;
      set_cache (<[column_name :=
                   {| cached_type := cached_type column_cache_entry;
                      cached_cardinality := Some column_cardinality |}]>
                 cache);;;
      remove_expectation "expect_column_unique_value_count_to_be_between"
                         none_arg None false;;;
      remove_expectation "expect_column_proportion_of_unique_values_to_be_between"
                         none_arg None false;;;
      set_config_value "interactive_evaluation" true;;;
      ret column_cardinality
  end.

(** *** Expectations per kind of column *)

(** Python's [max(a, b)] on floats: [b] when [b > a], else [a]. *)
Definition py_max (a b : Q) : Q := if Qle_bool b a then a else b.

Definition _create_non_nullity_expectations (column : string) : M unit :=
  expect "expect_column_values_to_not_be_null" [("column", column_arg column)];;;
  if negb (not_null_success dataset column) then
    let unexpected_percent := unexpected_percent dataset column in
    let mostly_value :=
      py_max (1 # 1000) ((100 - unexpected_percent - 10) / 100)%Q in
    expect "expect_column_values_to_not_be_null"
           [("column", column_arg column); ("mostly", AVal (VNum mostly_value))]
  else ret tt.

Definition _create_expectations_for_low_card_column (column : string) : M unit :=
  _create_non_nullity_expectations column;;;
  expect "expect_column_distinct_values_to_be_in_set"
         [("column", column_arg column); ("value_set", none_arg);
          ("result_format", SUMMARY)];;;
  let value_set := observed_distinct_values dataset column in
  expect "expect_column_distinct_values_to_be_in_set"
         [("column", column_arg column); ("value_set", AValues value_set);
          ("result_format", SUMMARY)];;;
  cardinality <- _get_column_cardinality_with_caching column;;
  if py_in cardinality [TWO; VERY_FEW] then
    emit (ExternalCall "build_categorical_partition_object" column);;;
    let partition_object := build_categorical_partition_object dataset column in
    expect "expect_column_kl_divergence_to_be_less_than"
           [("column", column_arg column);
            ("partition_object", APartition partition_object);
            ("threshold", AVal (VNum (6 # 10)));
            ("catch_exceptions", ABool true)]
  else ret tt.

(** [np.isnan(value)]: [None] stands for the [TypeError] numpy raises on a
    value that is not a number. *)
Definition np_isnan (v : value) : option bool :=
  match v with
  | VNaN => Some true
  | VNum _ => Some false
  | VNone | VDatetime _ | VStr _ => None
  end.

(** [_is_nan]: [np.isnan], and [False] on [TypeError]. *)
Definition _is_nan (v : value) : bool := default false (np_isnan v).

(** [v + k] and [v - k] for a number [k]; [nan] propagates, anything that
    is not a number raises [TypeError]. *)
Definition value_add (v : value) (k : Q) : result value :=
  match v with
  | VNum q => inr (VNum (q + k)%Q)
  | VNaN => inr VNaN
  | VNone | VDatetime _ | VStr _ => inl TypeError
  end.

Definition value_sub (v : value) (k : Q) : result value :=
  match v with
  | VNum q => inr (VNum (q - k)%Q)
  | VNaN => inr VNaN
  | VNone | VDatetime _ | VStr _ => inl TypeError
  end.

(** The four aggregate checks share one shape: ask for the observed value
    with no bounds, then, unless it is [nan], state the bounds
    [observed - 1] and [observed + 1]. *)
Definition between_observed (expectation_type : string) (column : string)
  (observed : value) : M unit :=
  expect expectation_type
         [("column", column_arg column); ("min_value", none_arg);
          ("max_value", none_arg); ("result_format", SUMMARY)];;;
  if negb (_is_nan observed) then
    min_value <- lift (value_sub observed 1);;
    max_value <- lift (value_add observed 1);;
    expect expectation_type
           [("column", column_arg column); ("min_value", AVal min_value);
            ("max_value", AVal max_value)]
  else ret tt.

(** [[v - 1, v + 1] for v in values]. *)
Fixpoint loose_value_ranges (values : list value) : result (list (value * value)) :=
  match values with
  | [] => inr []
  | v :: values' =>
      match value_sub v 1 with
      | inl e => inl e
      | inr lo =>
          match value_add v 1 with
          | inl e => inl e
          | inr hi =>
              match loose_value_ranges values' with
              | inl e => inl e
              | inr ranges => inr ((lo, hi) :: ranges)
              end
          end
      end
  end.

Definition probe_quantiles : list value :=
  [VNum (5 # 100); VNum (25 # 100); VNum (5 # 10); VNum (75 # 100); VNum (95 # 100)].

Definition probe_value_ranges : list (value * value) :=
  [(VNone, VNone); (VNone, VNone); (VNone, VNone); (VNone, VNone); (VNone, VNone)].

(** [exception_info and (exception_traceback or exception_message)]. *)
Definition quantile_exception (r : QuantileResult) : bool :=
  match exception_info r with
  | None => false
  | Some info =>
      truthy (exception_traceback info) || truthy (exception_message info)
  end.

Definition _create_expectations_for_numeric_column (column : string) : M unit :=
  _create_non_nullity_expectations column;;;
  between_observed "expect_column_min_to_be_between" column
                   (observed_min dataset column);;;
  between_observed "expect_column_max_to_be_between" column
                   (observed_max dataset column);;;
  between_observed "expect_column_mean_to_be_between" column
                   (observed_mean dataset column);;;
  between_observed "expect_column_median_to_be_between" column
                   (observed_median dataset column);;;
  expect "expect_column_quantile_values_to_be_between"
         [("column", column_arg column);
          ("quantile_ranges", AQuantileRanges probe_quantiles probe_value_ranges);
          ("result_format", SUMMARY); ("catch_exceptions", ABool true)];;;
  let quantile_result := quantile_result dataset column in
  if quantile_exception quantile_result then ret tt
  else
    set_config_value "interactive_evaluation" false;;;
    value_ranges <- lift (loose_value_ranges (observed_values quantile_result));;
    expect "expect_column_quantile_values_to_be_between"
           [("column", column_arg column);
            ("quantile_ranges",
             AQuantileRanges (observed_quantiles quantile_result) value_ranges);
            ("catch_exceptions", ABool true)];;;
    set_config_value "interactive_evaluation" true.

Definition _create_expectations_for_string_column (column : string) : M unit :=
  _create_non_nullity_expectations column;;;
  expect "expect_column_value_lengths_to_be_between"
         [("column", column_arg column); ("min_value", AInt 1)].

(** *** Datetime columns *)

Definition microseconds_per_day : Z := 86400000000.

(** [datetime.max], counted from [datetime.min = 0]: the last microsecond
    of 9999-12-31, day 3652059 of the proleptic calendar. *)
Definition datetime_min : Z := 0.
Definition datetime_max : Z := 3652059 * microseconds_per_day - 1.

(** [t + datetime.timedelta(days=days)]. *)
Definition datetime_add_days (t days : Z) : result Z :=
  let t' := t + days * microseconds_per_day in
  if (t' <? datetime_min) || (datetime_max <? t') then inl OverflowError
  else inr t'.

(** [v + datetime.timedelta(days=days)] on an observed value. *)
Definition value_add_days (v : value) (days : Z) : result value :=
  match v with
  | VDatetime t =>
      match datetime_add_days t days with
      | inl e => inl e
      | inr t' => inr (VDatetime t')
      end
  | VNone | VNaN | VNum _ | VStr _ => inl TypeError
  end.

(** [parse(v)]: dateutil reads strings and raises [TypeError] on a value
    that is neither a string nor a stream. *)
Definition parse (v : value) : result Z :=
  match v with
  | VStr s => dateutil_parse dataset s
  | VNone | VNaN | VNum _ | VDatetime _ => inl TypeError
  end.

(** The [try] block of the datetime bounds:
    [v + timedelta(days)], [clamp] on [OverflowError], and
    [parse(v) + timedelta(days)] on [TypeError]. *)
Definition shift_days (v : value) (days clamp : Z) : result value :=
  match value_add_days v days with
  | inl OverflowError => inr (VDatetime clamp)
  | inl TypeError =>
      match parse v with
      | inl e => inl e
      | inr t =>
          match datetime_add_days t days with
          | inl e => inl e
          | inr t' => inr (VDatetime t')
          end
      end
  | r => r
  end.

Definition is_None (v : value) : bool :=
  match v with VNone => true | _ => false end.

Definition _create_expectations_for_datetime_column (column : string) : M unit :=
  _create_non_nullity_expectations column;;;
  expect "expect_column_min_to_be_between"
         [("column", column_arg column); ("min_value", none_arg);
          ("max_value", none_arg); ("result_format", SUMMARY)];;;
  let min_value := observed_min dataset column in
  min_value <-
    (if negb (is_None min_value) then
       remove_expectation "expect_column_min_to_be_between" (column_arg column)
                          None false;;;
       lift (shift_days min_value (-365) datetime_min)
     else ret min_value);;
  expect "expect_column_max_to_be_between"
         [("column", column_arg column); ("min_value", none_arg);
          ("max_value", none_arg); ("result_format", SUMMARY)];;;
  let max_value := observed_max dataset column in
  max_value <-
    (if negb (is_None max_value) then
       remove_expectation "expect_column_max_to_be_between" (column_arg column)
                          None false;;;
       lift (shift_days max_value 365 datetime_max)
     else ret max_value);;
  if negb (is_None min_value) || negb (is_None max_value) then
    expect "expect_column_values_to_be_between"
           [("column", column_arg column); ("min_value", AVal min_value);
            ("max_value", AVal max_value);
            ("parse_strings_as_datetimes", ABool true)]
  else ret tt.

(** *** Table-level expectations and suite metadata *)

(** [tolerance] is a float; [value], the observed row count, is an [int]
    converted to a float by each product. *)
Definition _build_table_row_count_expectation (tolerance : Binary64.float)
  : M Dataset :=
  if negb (Binary64.ge_zero tolerance) then
    raise (AssertionError "Tolerance must be greater than zero")
  else
    expect "expect_table_row_count_to_be_between"
           [("min_value", AInt 0); ("max_value", none_arg)];;;
    let value := observed_row_count dataset in
    min_value <-
      lift (Binary64.int_of_product value (Binary64.sub Binary64.one tolerance));;
    let min_value := Z.max 0 min_value in
    max_value <-
      lift (Binary64.int_of_product value (Binary64.add Binary64.one tolerance));;
    expect "expect_table_row_count_to_be_between"
           [("min_value", AInt min_value); ("max_value", AInt max_value)];;;
    ret dataset.

(** The default [tolerance=0.1]. *)
Definition default_tolerance : Binary64.float := Binary64.tenth.

Definition _build_table_column_expectations : M Dataset :=
  let columns := get_table_columns dataset in
  expect "expect_table_column_count_to_equal"
         [("value", AInt (Z.of_nat (length columns)))];;;
  expect "expect_table_columns_to_match_ordered_list"
         [("column_list", AStrings columns)];;;
  ret dataset.

(** [{column: {"description": ""} for column in columns}], filled left to
    right as the loop does. *)
Definition meta_columns (columns : list string) : gmap string (gmap string string) :=
  foldl (λ m column, <[column := {[ "description" := "" ]}]> m) ∅ columns.

Definition _build_column_description_metadata : M ExpectationSuite :=
  let columns := get_table_columns dataset in
  made <- get_events;;
  let expectation_suite := get_expectation_suite dataset made false in
  if bool_decide (size (meta expectation_suite) = 0%nat) then
    ret {| expectations := expectations expectation_suite;
           meta := <["notes" := MetaNotesSet {[ "" ]}]>
                   {[ "columns" := MetaColumns (meta_columns columns) ]} |}
  else
    ret {| expectations := expectations expectation_suite;
           meta := <["columns" := MetaColumns (meta_columns columns)]>
                   (meta expectation_suite) |}.

(** *** Choosing a column per kind, for the demo suite *)

Fixpoint _find_next_low_card_column (columns : list string)
  (profiled_columns : ProfiledColumns) : M (option string) :=
  match columns with
  | [] => ret None
  | column :: columns' =>
      if py_in column (profiled_low_card profiled_columns) then
        _find_next_low_card_column columns' profiled_columns
      else
        cardinality <- _get_column_cardinality_with_caching column;;
        if py_in cardinality [TWO; VERY_FEW; FEW] then ret (Some column)
        else _find_next_low_card_column columns' profiled_columns
  end.

(** [column.lower().strip() == "id" or column.lower().strip().find("_id") > -1] *)
Definition looks_like_id (column : string) : bool :=
  String.eqb (strip (lower column)) "id" || contains "_id" (strip (lower column)).

Fixpoint _find_next_numeric_column (columns : list string)
  (profiled_columns : ProfiledColumns) : M (option string) :=
  match columns with
  | [] => ret None
  | column :: columns' =>
      if py_in column (profiled_numeric profiled_columns) then
        _find_next_numeric_column columns' profiled_columns
      else if looks_like_id column then
        _find_next_numeric_column columns' profiled_columns
      else
        cardinality <- _get_column_cardinality_with_caching column;;
        type <- _get_column_type_with_caching column;;
        if py_in cardinality [MANY; VERY_MANY; UNIQUE] && py_in type [INT; FLOAT]
        then ret (Some column)
        else _find_next_numeric_column columns' profiled_columns
  end.

Fixpoint _find_next_string_column (columns : list string)
  (profiled_columns : ProfiledColumns) : M (option string) :=
  match columns with
  | [] => ret None
  | column :: columns' =>
      if py_in column (profiled_string profiled_columns) then
        _find_next_string_column columns' profiled_columns
      else
        cardinality <- _get_column_cardinality_with_caching column;;
        type <- _get_column_type_with_caching column;;
        if py_in cardinality [MANY; VERY_MANY; UNIQUE] && py_in type [STRING; UNKNOWN]
        then ret (Some column)
        else _find_next_string_column columns' profiled_columns
  end.

Fixpoint _find_next_datetime_column (columns : list string)
  (profiled_columns : ProfiledColumns) : M (option string) :=
  match columns with
  | [] => ret None
  | column :: columns' =>
      if py_in column (profiled_datetime profiled_columns) then
        _find_next_datetime_column columns' profiled_columns
      else
        cardinality <- _get_column_cardinality_with_caching column;;
        type <- _get_column_type_with_caching column;;
        if py_in cardinality [MANY; VERY_MANY; UNIQUE] && py_in type [DATETIME]
        then ret (Some column)
        else _find_next_datetime_column columns' profiled_columns
  end.

(** *** Module-level helpers *)

(** The loop of [_check_that_expectations_are_available]. *)
Fixpoint check_expectations (expectations : list string) : result unit :=
  match expectations with
  | [] => inr tt
  | expectation :: expectations' =>
      if negb (py_in expectation (list_available_expectation_types dataset))
      then inl (ProfilerError
                  ("Expectation " +:+ expectation +:+ " is not available."))
      else check_expectations expectations'
  end.

Definition _check_that_expectations_are_available (expectations : cfgval)
  : result unit :=
  if cfg_truthy expectations then
    if iterable expectations then check_expectations (cfg_items expectations)
    else inl TypeError
  else inr tt.

(** The loop of [_check_that_columns_exist]. *)
Fixpoint check_columns (columns : list string) : result unit :=
  match columns with
  | [] => inr tt
  | column :: columns' =>
      if negb (py_in column (get_table_columns dataset))
      then inl (ProfilerError ("Column " +:+ column +:+ " does not exist."))
      else check_columns columns'
  end.

Definition _check_that_columns_exist (columns : cfgval) : result unit :=
  if cfg_truthy columns then
    if iterable columns then check_columns (cfg_items columns)
    else inl TypeError
  else inr tt.

(** [[e.expectation_type for e in es if e.expectation_type in types]] *)
Definition removals (es : list Expectation) (all_types_to_remove : list string)
  : list string :=
  expectation_type <$>
    filter (λ e, py_in (expectation_type e) all_types_to_remove = true) es.

Definition _remove_table_expectations (all_types_to_remove : list string)
  : M Dataset :=
  made <- get_events;;
  let suite := get_expectation_suite dataset made false in
  let table_expectations := get_table_expectations dataset suite in
  for_each (removals table_expectations all_types_to_remove)
    (λ expectation,
       except_ValueError_pass
         (remove_expectation expectation none_arg None false));;;
  ret dataset.

Definition _remove_column_expectations (all_types_to_remove : list string)
  : M Dataset :=
  made <- get_events;;
  let suite := get_expectation_suite dataset made false in
  let column_expectations := get_column_expectations dataset suite in
  let removals := removals column_expectations all_types_to_remove in
  for_each (get_table_columns dataset)
    (λ column,
       for_each removals
         (λ exp,
            except_ValueError_pass
              (remove_expectation exp (column_arg column) None false)));;;
  ret dataset.

(** *** [_demo_profile] *)

Definition newline : string := String (Ascii.ascii_of_nat 10) EmptyString.

Definition demo_notes : list string :=
  [ "#### This is an _example_ suite" +:+ newline +:+ newline +:+
    "- This suite was made by quickly glancing at 1000 rows of your data."
      +:+ newline +:+
    "- This is **not a production suite**. It is meant to show examples of expectations."
      +:+ newline +:+
    "- Because this suite was auto-generated using a very basic profiler that does not know your data like you do, many of the expectations may not be meaningful."
      +:+ newline ].

(** [if column:] on the result of a [_find_next_..._column]: a column was
    found and its name is not the empty string. *)
Definition found_column (column : option string) : option string :=
  match column with
  | Some c => if String.eqb c EmptyString then None else Some c
  | None => None
  end.

Definition _demo_profile : M ExpectationSuite :=
  set_default_expectation_argument "catch_exceptions" false;;;
  _build_table_row_count_expectation default_tolerance;;;
  set_config_value "interactive_evaluation" true;;;
  _build_table_column_expectations;;;
  let columns := get_table_columns dataset in
  set_cache ∅;;;
  let profiled_columns :=
    {| profiled_numeric := []; profiled_low_card := [];
       profiled_string := []; profiled_datetime := [] |} in
  column <- _find_next_low_card_column columns profiled_columns;;
  profiled_columns <-
    match found_column column with
    | Some column =>
        _create_expectations_for_low_card_column column;;;
        ret {| profiled_numeric := profiled_numeric profiled_columns;
               profiled_low_card := profiled_low_card profiled_columns ++ [column];
               profiled_string := profiled_string profiled_columns;
               profiled_datetime := profiled_datetime profiled_columns |}
    | None => ret profiled_columns
    end;;
  column <- _find_next_numeric_column columns profiled_columns;;
  profiled_columns <-
    match found_column column with
    | Some column =>
        _create_expectations_for_numeric_column column;;;
        ret {| profiled_numeric := profiled_numeric profiled_columns ++ [column];
               profiled_low_card := profiled_low_card profiled_columns;
               profiled_string := profiled_string profiled_columns;
               profiled_datetime := profiled_datetime profiled_columns |}
    | None => ret profiled_columns
    end;;
  column <- _find_next_string_column columns profiled_columns;;
  profiled_columns <-
    match found_column column with
    | Some column =>
        _create_expectations_for_string_column column;;;
        ret {| profiled_numeric := profiled_numeric profiled_columns;
               profiled_low_card := profiled_low_card profiled_columns;
               profiled_string := profiled_string profiled_columns ++ [column];
               profiled_datetime := profiled_datetime profiled_columns |}
    | None => ret profiled_columns
    end;;
  column <- _find_next_datetime_column columns profiled_columns;;
  match found_column column with
  | Some column => _create_expectations_for_datetime_column column
  | None => ret tt
  end;;;
  expectation_suite <- _build_column_description_metadata;;
  ret {| expectations := expectations expectation_suite;
         meta := <["notes" := MetaNotes "markdown" demo_notes]>
                 (meta expectation_suite) |}.

(** *** [_profile] *)

(** Lines 394 to 408: the two expectation keys. The result is the pair
    [(included_expectations, excluded_expectations)]. *)
Definition read_expectation_keys (d : gmap string cfgval) : M (cfgval * cfgval) :=
  if has_key d "included_expectations" && has_key d "excluded_expectations" then
    raise (ProfilerError
      "Please specify either `included_expectations` or `excluded_expectations`.")
  else
    included_expectations <-
      (if has_key d "included_expectations" then
         let included_expectations := item d "included_expectations" in
         let included_expectations :=
           if in_False_None_empty included_expectations then CNone
           else included_expectations in
         lift (_check_that_expectations_are_available included_expectations);;;
         ret included_expectations
       else ret (CList []));;
    excluded_expectations <-
      (if has_key d "excluded_expectations" then
         let excluded_expectations := item d "excluded_expectations" in
         lift (_check_that_expectations_are_available excluded_expectations);;;
         ret excluded_expectations
       else ret (CList []));;
    ret (included_expectations, excluded_expectations).

(** [set(existing_columns) - set(excluded_columns)], listed in the order
    in which the set is iterated. *)
Definition columns_without (existing_columns excluded_columns : list string)
  : list string :=
  elements ((list_to_set existing_columns : gset string)
              ∖ list_to_set excluded_columns).

(** Lines 410 to 423: the two column keys. The result is
    [selected_columns]. *)
Definition read_column_keys (d : gmap string cfgval)
  (existing_columns : list string) : M cfgval :=
  if has_key d "included_columns" && has_key d "excluded_columns" then
    raise (ProfilerError
      "Please specify either `excluded_columns` or `included_columns`.")
  else if has_key d "included_columns" then
    ret (item d "included_columns")
  else if has_key d "excluded_columns" then
    let excluded_columns := item d "excluded_columns" in
    let excluded_columns :=
      if in_False_None_empty excluded_columns then CList []
      else excluded_columns in
    if iterable excluded_columns then
      ret (CList (columns_without existing_columns (cfg_items excluded_columns)))
    else raise TypeError
  else ret (CList existing_columns).

(** The body of the loop over [selected_columns], lines 440 to 475. *)
Definition profile_column (column : string) : M unit :=
  cardinality <- _get_column_cardinality_with_caching column;;
  column_type <- _get_column_type_with_caching column;;
  if py_in cardinality [TWO; VERY_FEW; FEW] then
    _create_expectations_for_low_card_column column
  else if py_in cardinality [MANY; VERY_MANY; UNIQUE] then
    expect "expect_column_values_to_be_unique" [("column", column_arg column)];;;
    if py_in column_type [INT; FLOAT] then
      _create_expectations_for_numeric_column column
    else if py_in column_type [DATETIME] then
      _create_expectations_for_datetime_column column
    else if py_in column_type [STRING] then
      _create_expectations_for_string_column column
    else ret tt
  else ret tt.

(** [kwargs.get("column", None)] of a stored expectation. *)
Definition kwargs_column (e : Expectation) : arg :=
  default none_arg (kwargs e !! "column").

(** Lines 480 to 493: keep only the included expectation types. *)
Definition keep_included (included_expectations : list string) : M unit :=
  made <- get_events;;
  for_each (expectations (get_expectation_suite dataset made true))
    (λ expectation,
       if negb (py_in (expectation_type expectation) included_expectations) then
         except_ValueError_pass
           (remove_expectation (expectation_type expectation)
                               (kwargs_column expectation)
                               (Some (kwargs expectation)) true)
       else ret tt).

Definition _profile (configuration : Configuration) : M ExpectationSuite :=
  match configuration with
  | Demo => _demo_profile
  | _ =>
      let existing_columns := get_table_columns dataset in
      settings <-
        (match configuration with
         | Mapping d =>
             if configuration_truthy configuration then
               expectation_keys <- read_expectation_keys d;;
               selected_columns <- read_column_keys d existing_columns;;
               ret (selected_columns, expectation_keys)
             else ret (CList existing_columns, (CList [], CList []))
         | _ => ret (CList existing_columns, (CList [], CList []))
         end);;
      let '(selected_columns, (included_expectations, excluded_expectations)) :=
        settings in
      lift (_check_that_columns_exist selected_columns);;;
      if cfg_is_None included_expectations then
        suite <- _build_column_description_metadata;;
        ret {| expectations := []; meta := meta suite |}
      else
        set_default_expectation_argument "catch_exceptions" false;;;
        _build_table_row_count_expectation default_tolerance;;;
        set_config_value "interactive_evaluation" true;;;
        _build_table_column_expectations;;;
        set_cache ∅;;;
        (if cfg_truthy selected_columns
         then for_each (cfg_items selected_columns) profile_column
         else ret tt);;;
        (if cfg_truthy excluded_expectations then
           _remove_table_expectations (cfg_items excluded_expectations);;;
           _remove_column_expectations (cfg_items excluded_expectations)
         else ret dataset);;;
        (if cfg_truthy included_expectations
         then keep_included (cfg_items included_expectations)
         else ret tt);;;
        _build_column_description_metadata
  end.

End WithDataset.

(** ** Sample datasets *)

(** What [exception_info] holds when no exception was caught. *)
Definition no_exception : option ExceptionInfo :=
  Some {| exception_traceback := PNone; exception_message := PNone |}.

(** A table with the columns [a] and [b], both of the numeric type [type]
    with unique values, whose max and mean are [max] and [mean] and whose
    quantile values are [values]. *)
Definition numeric_table (type : ProfilerDataType) (max mean : value)
  (values : list value) : Dataset := {|
  get_table_columns := ["a"; "b"];
  list_available_expectation_types :=
    ["expect_column_values_to_not_be_null"; "expect_column_values_to_be_unique";
     "expect_column_min_to_be_between"; "expect_column_max_to_be_between";
     "expect_column_mean_to_be_between"; "expect_column_median_to_be_between";
     "expect_column_quantile_values_to_be_between";
     "expect_table_row_count_to_be_between"];
  observed_row_count := 100;
  not_null_success := λ _, true;
  unexpected_percent := λ _, 0%Q;
  observed_distinct_values := λ _, [];
  observed_min := λ _, VNum 1;
  observed_max := λ _, max;
  observed_mean := λ _, mean;
  observed_median := λ _, VNum (101 # 2);
  quantile_result := λ _,
    {| exception_info := no_exception;
       observed_quantiles := probe_quantiles;
       observed_values := values |};
  _get_column_cardinality := λ _, UNIQUE;
  _get_column_type := λ _, type;
  build_categorical_partition_object := λ _,
    {| partition_values := []; partition_weights := [] |};
  get_expectation_suite := λ _ _, {| expectations := []; meta := ∅ |};
  get_table_expectations := λ _, [];
  get_column_expectations := λ _, [];
  remove_expectation_raises := λ _ _, false;
  dateutil_parse := λ _, inl ValueError
|}.

(** The integers 1 to 100 in both columns. *)
Definition sample_table : Dataset :=
  numeric_table INT (VNum 100) (VNum (101 # 2))
                [VNum 5; VNum 25; VNum 50; VNum 75; VNum 95].


(** The state before a run: no call recorded, an empty cache. *)
Definition initial_state : State := {| events := []; column_cache := ∅ |}.

(** The calls a computation adds to those already made. *)
Definition emitted {A} (m : M A) (s : State) : list Event :=
  drop (length (events s)) (events (snd (m s))).

(** A configuration value the two checks accept without [TypeError]: a
    falsy one, which is not iterated, or a list. *)
Definition checkable (v : cfgval) : bool := negb (cfg_truthy v) || iterable v.

(** One of the two expectation keys of [d] holds a truthy value that is no
    list. *)
Definition uncheckable_expectations (d : gmap string cfgval) : Prop :=
  exists key v,
    (key = "included_expectations" \/ key = "excluded_expectations")
    /\ d !! key = Some v /\ checkable v = false.

(** A computation that only reads: it leaves the state alone and fails, if
    at all, with a [ProfilerError], or with a [TypeError] when [bad]
    holds. *)
Definition checks_only {A} (bad : Prop) (m : M A) : Prop :=
  forall s, (exists msg, m s = (inl (ProfilerError msg), s))
            \/ (m s = (inl TypeError, s) /\ bad)
            \/ (exists a, m s = (inr a, s)).

(** Every call [m] adds satisfies [P], whether [m] returns or raises. *)
Definition emits {A} (P : Event -> Prop) (m : M A) : Prop :=
  forall s, exists new, events (snd (m s)) = events s ++ new /\ Forall P new.

(** A Python float: a number or [nan]. *)
Definition is_float (v : value) : Prop :=
  match v with VNum _ | VNaN => True | _ => False end.

(** A computation that returns, from every state. *)
Definition succeeds {A} (m : M A) : Prop :=
  forall s, exists a s', m s = (inr a, s').

(** The column an expectation call is about, if it names one. *)
Definition event_column (e : Event) : option string :=
  match e with
  | Expect _ kwargs =>
      match kwargs !! "column" with
      | Some (AVal (VStr column)) => Some column
      | _ => None
      end
  | _ => None
  end.

(** ** Reading the ranges of emitted checks *)

(** [a <= b] as Python evaluates it on floats: false as soon as one side
    is [nan]. Values that are not numbers are not compared here. *)
Definition value_leb (a b : value) : bool :=
  match a, b with
  | VNum x, VNum y => Qle_bool x y
  | _, _ => false
  end.

(** [lo <= v <= hi]: the range contains [v]. *)
Definition in_range (lo hi v : value) : bool :=
  value_leb lo v && value_leb v hi.

(** The statistic each of the four aggregate checks is about. *)
Definition observed_aggregate (dataset : Dataset) (expectation_type column : string)
  : option value :=
  if String.eqb expectation_type "expect_column_min_to_be_between"
  then Some (observed_min dataset column)
  else if String.eqb expectation_type "expect_column_max_to_be_between"
  then Some (observed_max dataset column)
  else if String.eqb expectation_type "expect_column_mean_to_be_between"
  then Some (observed_mean dataset column)
  else if String.eqb expectation_type "expect_column_median_to_be_between"
  then Some (observed_median dataset column)
  else None.

(** The [min_value] and [max_value] of a call, when both are observed
    values. *)
Definition bounds_of (kwargs : gmap string arg) : option (value * value) :=
  match kwargs !! "min_value", kwargs !! "max_value" with
  | Some (AVal lo), Some (AVal hi) => Some (lo, hi)
  | _, _ => None
  end.

(** [lo] and [hi] are [v - 1] and [v + 1]. *)
Definition loose_around (v lo hi : value) : Prop :=
  value_sub v 1 = inr lo /\ value_add v 1 = inr hi.

(** A min, max, mean or median call on [column] either asks for the
    observed value (both bounds [None]) or is bounded by
    [observed - 1] and [observed + 1], a range that contains the observed
    value. *)
Definition aggregate_check_ok (dataset : Dataset) (column : string) (e : Event)
  : Prop :=
  match e with
  | Expect t kwargs =>
      match observed_aggregate dataset t column, bounds_of kwargs with
      | Some observed, Some (lo, hi) =>
          (lo = VNone /\ hi = VNone)
          \/ (loose_around observed lo hi /\ in_range lo hi observed = true)
      | _, _ => True
      end
  | _ => True
  end.

(** A quantile call on [column] either asks for the observed values (the
    five ranges [[None, None]]) or gives each observed value [v] the
    range [[v - 1, v + 1]], which contains [v] when [v] is a number. *)
Definition quantile_check_ok (dataset : Dataset) (column : string) (e : Event)
  : Prop :=
  match e with
  | Expect t kwargs =>
      if String.eqb t "expect_column_quantile_values_to_be_between" then
        match kwargs !! "quantile_ranges" with
        | Some (AQuantileRanges _ value_ranges) =>
            value_ranges = probe_value_ranges
            \/ Forall2 (λ v r, loose_around v r.1 r.2
                               /\ (v <> VNaN -> in_range r.1 r.2 v = true))
                       (observed_values (quantile_result dataset column))
                       value_ranges
        | _ => True
        end
      else True
  | _ => True
  end.

(** A table of floats with [nan] among the largest values: the max, the
    mean and the 0.95 quantile are [nan]. *)
Definition nan_quantile_table : Dataset :=
  numeric_table FLOAT VNaN VNaN [VNum 5; VNum 25; VNum 50; VNum 75; VNaN].

(** The bounded quantile check built from those values on column [a]. *)
Definition nan_quantile_check : Event :=
  Expect "expect_column_quantile_values_to_be_between"
    (kw [("column", column_arg "a");
         ("quantile_ranges",
          AQuantileRanges probe_quantiles
            [ (VNum (5 - 1), VNum (5 + 1)); (VNum (25 - 1), VNum (25 + 1));
              (VNum (50 - 1), VNum (50 + 1)); (VNum (75 - 1), VNum (75 + 1));
              (VNaN, VNaN) ]);
         ("catch_exceptions", ABool true)]).

(** ** Statements about a computation's calls, result and final state *)

(** From a state satisfying [pre], every call [m] adds satisfies [each],
    and the outcome and final state satisfy [post]. *)
Definition hoare {A} (pre : State -> Prop) (m : M A) (each : Event -> Prop)
  (post : result A -> State -> Prop) : Prop :=
  forall s, pre s ->
    exists new,
      events (snd (m s)) = events s ++ new
      /\ Forall each new
      /\ post (fst (m s)) (snd (m s)).

(** What a cache entry holds is what the dataset reports for the column. *)
Definition entry_consistent (dataset : Dataset) (column : string) (e : CacheEntry)
  : Prop :=
  (forall t, cached_type e = Some t -> t = _get_column_type dataset column)
  /\ (forall k, cached_cardinality e = Some k ->
                k = _get_column_cardinality dataset column).

Definition cache_consistent (dataset : Dataset) (s : State) : Prop :=
  forall column e, column_cache s !! column = Some e ->
                   entry_consistent dataset column e.

(** The cardinalities of the [MANY], [VERY_MANY], [UNIQUE] branch. *)
Definition high_cardinality (k : ProfilerCardinality) : Prop :=
  k = MANY \/ k = VERY_MANY \/ k = UNIQUE.

(** The cardinalities of the [TWO], [VERY_FEW], [FEW] branch. *)
Definition low_cardinality (k : ProfilerCardinality) : Prop :=
  k = TWO \/ k = VERY_FEW \/ k = FEW.

Definition is_Expect (e : Event) : Prop :=
  match e with Expect _ _ => True | _ => False end.

(** The expectation type of an [expect_...] call. *)
Definition event_type (e : Event) : option string :=
  match e with Expect t _ => Some t | _ => None end.

(** The expectation type a [remove_expectation] call names. *)
Definition removed_type (e : Event) : option string :=
  match e with RemoveExpectation t _ _ _ => Some t | _ => None end.

(** [hoare] with a consistent cache before and after, and [Q] of the
    value returned. *)
Definition keeps_cache (dataset : Dataset) {A} (each : Event -> Prop) (m : M A)
  (Q : A -> Prop) : Prop :=
  hoare (cache_consistent dataset) m each
        (λ r s, cache_consistent dataset s /\ forall a, r = inr a -> Q a).

(** [remove_expectation] always finds what it is asked to remove. *)
Definition removals_succeed (dataset : Dataset) : Prop :=
  forall made e, remove_expectation_raises dataset made e = false.

(** A table described column by column, for examples. *)
Definition custom_table (columns : list string)
  (cardinality : string -> ProfilerCardinality) (type : string -> ProfilerDataType)
  (min max : string -> value) (not_null : bool) (percent : Q)
  (suite : ExpectationSuite) (raises : bool) (parse : string -> result Z)
  : Dataset := {|
  get_table_columns := columns;
  list_available_expectation_types :=
    list_available_expectation_types sample_table;
  observed_row_count := 100;
  not_null_success := λ _, not_null;
  unexpected_percent := λ _, percent;
  observed_distinct_values := λ _, [];
  observed_min := min;
  observed_max := max;
  observed_mean := λ _, VNum (101 # 2);
  observed_median := λ _, VNum (101 # 2);
  quantile_result := quantile_result sample_table;
  _get_column_cardinality := cardinality;
  _get_column_type := type;
  build_categorical_partition_object :=
    build_categorical_partition_object sample_table;
  get_expectation_suite := λ _ _, suite;
  get_table_expectations := λ suite, expectations suite;
  get_column_expectations := λ suite, expectations suite;
  remove_expectation_raises := λ _ _, raises;
  dateutil_parse := parse
|}.

(** ** Which expectations a column can get *)

Definition not_null_type : string := "expect_column_values_to_not_be_null".
Definition unique_type : string := "expect_column_values_to_be_unique".

(** The expectation types each per-kind function creates. *)
Definition set_types : list string :=
  [ not_null_type; "expect_column_distinct_values_to_be_in_set" ].
Definition numeric_types : list string :=
  [ not_null_type; "expect_column_min_to_be_between"; "expect_column_max_to_be_between";
    "expect_column_mean_to_be_between"; "expect_column_median_to_be_between";
    "expect_column_quantile_values_to_be_between" ].
Definition datetime_types : list string :=
  [ not_null_type; "expect_column_min_to_be_between"; "expect_column_max_to_be_between";
    "expect_column_values_to_be_between" ].
Definition string_types : list string :=
  [ not_null_type; "expect_column_value_lengths_to_be_between" ].
Definition table_types : list string :=
  [ "expect_table_row_count_to_be_between"; "expect_table_column_count_to_equal";
    "expect_table_columns_to_match_ordered_list" ].

(** The expectation types a column of cardinality [k] and type [t] can
    get from the loop of [_profile]. *)
Definition expectation_types_for (k : ProfilerCardinality) (t : ProfilerDataType)
  : list string :=
  match k with
  | TWO | VERY_FEW => set_types ++ ["expect_column_kl_divergence_to_be_less_than"]
  | FEW => set_types
  | MANY | VERY_MANY | UNIQUE =>
      unique_type ::
      match t with
      | INT | FLOAT => numeric_types
      | DATETIME => datetime_types
      | STRING => string_types
      | UNKNOWN | OTHER_TYPE => []
      end
  | OTHER_CARDINALITY => []
  end.

(** An [expect_...] call is about [column] and of one of the types
    [allowed]; other calls are not constrained. *)
Definition column_event (column : string) (allowed : list string) (e : Event) : Prop :=
  forall t kwargs, e = Expect t kwargs ->
    kwargs !! "column" = Some (column_arg column) /\ t ∈ allowed.

(** An [expect_...] call of a run with the configuration dict [d] is a
    table-level one, or is about a table column that the dict selects and
    of a type that column can get. *)
Definition profile_event (dataset : Dataset) (d : gmap string cfgval) (e : Event)
  : Prop :=
  forall t kwargs, e = Expect t kwargs ->
    (kwargs !! "column" = None /\ t ∈ table_types)
    \/ (exists column,
          kwargs !! "column" = Some (column_arg column)
          /\ column ∈ get_table_columns dataset
          /\ (forall v, d !! "included_columns" = Some v -> column ∈ cfg_items v)
          /\ (forall v, d !! "included_columns" = None ->
                        d !! "excluded_columns" = Some v -> column ∉ cfg_items v)
          /\ t ∈ expectation_types_for (_get_column_cardinality dataset column)
                                       (_get_column_type dataset column)).

(** What the dict [d] allows of the items of [selected_columns]. *)
Definition selected_ok (d : gmap string cfgval) (existing : list string)
  (selected : cfgval) : Prop :=
  forall c, c ∈ cfg_items selected ->
    (forall v, d !! "included_columns" = Some v -> c ∈ cfg_items v)
    /\ (forall v, d !! "included_columns" = None ->
                  d !! "excluded_columns" = Some v -> c ∉ cfg_items v).

(** The columns each [_find_next_..._column] is looking for, as the
    dataset reports them. *)
Definition low_card_candidate (dataset : Dataset) (profiled : list string)
  (column : string) : bool :=
  negb (py_in column profiled)
  && py_in (_get_column_cardinality dataset column) [TWO; VERY_FEW; FEW].

Definition numeric_candidate (dataset : Dataset) (profiled : list string)
  (column : string) : bool :=
  negb (py_in column profiled) && negb (looks_like_id column)
  && py_in (_get_column_cardinality dataset column) [MANY; VERY_MANY; UNIQUE]
  && py_in (_get_column_type dataset column) [INT; FLOAT].

Definition string_candidate (dataset : Dataset) (profiled : list string)
  (column : string) : bool :=
  negb (py_in column profiled)
  && py_in (_get_column_cardinality dataset column) [MANY; VERY_MANY; UNIQUE]
  && py_in (_get_column_type dataset column) [STRING; UNKNOWN].

Definition datetime_candidate (dataset : Dataset) (profiled : list string)
  (column : string) : bool :=
  negb (py_in column profiled)
  && py_in (_get_column_cardinality dataset column) [MANY; VERY_MANY; UNIQUE]
  && py_in (_get_column_type dataset column) [DATETIME].

(** ** What a run may call and raise *)

(** An [expect_...] call of the demo run is a table-level one, or is about
    the first column of its kind in the table: nothing is profiled yet
    when each search runs. *)
Definition demo_event (dataset : Dataset) (e : Event) : Prop :=
  forall t kwargs, e = Expect t kwargs ->
    (kwargs !! "column" = None /\ t ∈ table_types)
    \/ (exists column,
          kwargs !! "column" = Some (column_arg column)
          /\ let columns := get_table_columns dataset in
             (List.find (low_card_candidate dataset []) columns = Some column
              /\ t ∈ set_types ++ ["expect_column_kl_divergence_to_be_less_than"])
             \/ (List.find (numeric_candidate dataset []) columns = Some column
                 /\ t ∈ numeric_types)
             \/ (List.find (string_candidate dataset []) columns = Some column
                 /\ t ∈ string_types)
             \/ (List.find (datetime_candidate dataset []) columns = Some column
                 /\ t ∈ datetime_types)).

(** An exception other than [ProfilerError]. *)
Definition not_ProfilerError (e : exn) : Prop :=
  match e with ProfilerError _ => False | _ => True end.

(** A result, and a computation, that is never a [ProfilerError]. *)
Definition no_ProfilerError {A} (r : result A) : Prop :=
  forall e, r = inl e -> not_ProfilerError e.

Definition never_ProfilerError {A} (m : M A) : Prop :=
  forall s, no_ProfilerError (fst (m s)).

End Profiler.

(** * Properties of the Databricks generator *)

Module DatabricksFacts.
Import Py Databricks.

Lemma dict_get_lookup (kwargs : gmap string pyval) key v :
  kwargs !! key = Some v -> dict_get kwargs key = v.
Proof. unfold dict_get. intros ->. reflexivity. Qed.

Lemma dict_get_missing (kwargs : gmap string pyval) key :
  kwargs !! key = None -> dict_get kwargs key = PNone.
Proof. unfold dict_get. intros ->. reflexivity. Qed.

(** The guard of [_get_iterator], in general form: a truthy [partition]
    with a falsy or missing [date_field] raises. *)
Lemma get_iterator_guard self generator_asset (kwargs : gmap string pyval) :
  truthy (dict_get kwargs "partition") = true ->
  truthy (dict_get kwargs "date_field") = false ->
  _get_iterator self generator_asset kwargs
  = inl (Exception "Must specify date_field when using partition.").
Proof. unfold _get_iterator. intros -> ->. reflexivity. Qed.

(** A falsy or missing [partition] never raises, whatever [date_field]. *)
Lemma get_iterator_falsy_partition self generator_asset (kwargs : gmap string pyval) :
  truthy (dict_get kwargs "partition") = false ->
  _get_iterator self generator_asset kwargs
  = inr [ {[ "query" := "select * from " +:+ database self +:+ "."
                           +:+ generator_asset ]} ].
Proof. unfold _get_iterator. intros ->. reflexivity. Qed.

(** C4, as stated, fails: [partition=None] is a supplied [partition]
    keyword with no [date_field], and the call returns the plain query. *)
Lemma get_iterator_partition_None_returns :
  let self := {| name := "default"; database := "db"; spark := None |} in
  let kwargs : gmap string pyval := {[ "partition" := PNone ]} in
  is_Some (kwargs !! "partition") /\
  kwargs !! "date_field" = None /\
  _get_iterator self "events" kwargs
  = inr [ {[ "query" := "select * from db.events" ]} ].
Proof.
  cbn zeta. split; [ | split ].
  - rewrite lookup_singleton_eq. eauto.
  - apply lookup_singleton_ne. discriminate.
  - apply get_iterator_falsy_partition.
    rewrite (dict_get_lookup _ _ PNone); [ reflexivity | apply lookup_singleton_eq ].
Qed.

(** C4, amended: a call with a truthy [partition] keyword argument and no
    [date_field] keyword argument raises the generic [Exception]. *)
Theorem get_iterator_partition_needs_date_field
  self generator_asset (kwargs : gmap string pyval) P :
  kwargs !! "partition" = Some P ->
  truthy P = true ->
  kwargs !! "date_field" = None ->
  _get_iterator self generator_asset kwargs
  = inl (Exception "Must specify date_field when using partition.").
Proof.
  intros HP Ht HF. apply get_iterator_guard.
  - rewrite (dict_get_lookup _ _ _ HP). exact Ht.
  - rewrite (dict_get_missing _ _ HF). reflexivity.
Qed.

Lemma get_iterator_partition_needs_date_field_witness :
  let self := {| name := "default"; database := "db"; spark := None |} in
  let kwargs : gmap string pyval := {[ "partition" := PStr "2020-01-01" ]} in
  _get_iterator self "events" kwargs
  = inl (Exception "Must specify date_field when using partition.").
Proof.
  cbn zeta.
  apply (get_iterator_partition_needs_date_field _ _ _ (PStr "2020-01-01")).
  - apply lookup_singleton_eq.
  - reflexivity.
  - apply lookup_singleton_ne. discriminate.
Defined.

(** C5: without a Spark session, [get_available_data_asset_names] returns
    the dict with an empty list of names, and logs one warning. *)
Theorem get_available_data_asset_names_without_spark self :
  spark self = None ->
  get_available_data_asset_names self
  = ([LogWarning "No sparkSession available to query for tables."],
     inr {[ "names" := [] ]}).
Proof. unfold get_available_data_asset_names. intros ->. reflexivity. Qed.

Lemma get_available_data_asset_names_without_spark_witness :
  get_available_data_asset_names
    {| name := "default"; database := "default"; spark := None |}
  = ([LogWarning "No sparkSession available to query for tables."],
     inr {[ "names" := [] ]}).
Proof.
  apply get_available_data_asset_names_without_spark. reflexivity.
Defined.

(** A generator built while [getOrCreate] raises has no session, so its
    listing is empty. *)
Lemma init_without_spark name database e :
  snd (get_available_data_asset_names (snd (init name database (inl e))))
  = inr {[ "names" := [] ]}.
Proof. reflexivity. Qed.

(** With a session, the listing has one pair per row of [show tables]. *)
Lemma get_available_data_asset_names_with_spark self session tables :
  spark self = Some session ->
  sql_collect session ("show tables in " +:+ database self) = inr tables ->
  snd (get_available_data_asset_names self)
  = inr {[ "names" := (λ row, (tableName row, "table")) <$> tables ]}.
Proof.
  unfold get_available_data_asset_names. intros -> ->. reflexivity.
Qed.

(** C6: with a truthy [date_field] F and a truthy [partition] P the
    iterator holds exactly the query filtered by [F = "P"]; with no
    [partition] it holds exactly the plain query. *)
Theorem get_iterator_query self generator_asset (kwargs : gmap string pyval) :
  (forall F P,
      kwargs !! "date_field" = Some F -> truthy F = true ->
      kwargs !! "partition" = Some P -> truthy P = true ->
      _get_iterator self generator_asset kwargs
      = inr [ {[ "query" := ("select * from " +:+ database self +:+ "."
                                +:+ generator_asset)
                               +:+ " where " +:+ py_str F
                               +:+ " = " +:+ dquote +:+ py_str P +:+ dquote ]} ])
  /\ (kwargs !! "partition" = None ->
      _get_iterator self generator_asset kwargs
      = inr [ {[ "query" := "select * from " +:+ database self +:+ "."
                               +:+ generator_asset ]} ]).
Proof.
  split.
  - intros F P HF HFt HP HPt. unfold _get_iterator.
    rewrite (dict_get_lookup _ _ _ HP), (dict_get_lookup _ _ _ HF), HPt, HFt.
    reflexivity.
  - intros HP. apply get_iterator_falsy_partition.
    rewrite (dict_get_missing _ _ HP). reflexivity.
Qed.

Lemma get_iterator_query_witness :
  let self := {| name := "default"; database := "db"; spark := None |} in
  let kwargs : gmap string pyval :=
    {[ "date_field" := PStr "day"; "partition" := PInt 20200101 ]} in
  _get_iterator self "events" kwargs
  = inr [ {[ "query" := "select * from db.events where day = " +:+ dquote
                           +:+ "20200101" +:+ dquote ]} ].
Proof.
  cbn zeta. etrans.
  - apply (proj1 (get_iterator_query _ "events" _) (PStr "day") (PInt 20200101));
      reflexivity.
  - vm_compute. reflexivity.
Defined.

End DatabricksFacts.

(** * Binary64 arithmetic: the error of a rounding *)

Module Binary64Facts.
Import Py Binary64.
Local Open Scope Z_scope.

(** ** Digits *)



(** ** Shifting right *)






(** ** One rounding *)





(** ** The value of a float, and the error of one rounding *)

Local Open Scope Q_scope.


Lemma pow2_pos (e : Z) : 0 < 2 ^ e.
Proof. apply Qpower_0_lt. reflexivity. Qed.


Lemma F2Q_le (m m' e : Z) : (m <= m')%Z -> F2Q m e <= F2Q m' e.
Proof.
  intros H. unfold F2Q. apply Qmult_le_compat_r.
  - rewrite <- Zle_Qle. exact H.
  - apply Qlt_le_weak, pow2_pos.
Qed.


(** ** From an integer to a float *)

Local Open Scope Z_scope.





(** ** The product of two normal floats *)


(** ** From a float to an integer *)



(** ** The two products of the row-count expectation *)





End Binary64Facts.

(** * Properties of the suite-builder profiler *)

Module ProfilerFacts.
Import Py Profiler.
Local Open Scope py_scope.

(** ** The monad *)

Lemma bind_inr {A B} (m : M A) (k : A -> M B) s a s' :
  m s = (inr a, s') -> bind m k s = k a s'.
Proof. unfold bind. intros ->. reflexivity. Qed.

Lemma bind_inl {A B} (m : M A) (k : A -> M B) s e s' :
  m s = (inl e, s') -> bind m k s = (inl e, s').
Proof. unfold bind. intros ->. reflexivity. Qed.

Lemma lift_inr {A} (r : result A) a s : r = inr a -> lift r s = (inr a, s).
Proof. intros ->. reflexivity. Qed.

Lemma lift_inl {A} (r : result A) e s : r = inl e -> lift r s = (inl e, s).
Proof. intros ->. reflexivity. Qed.

Lemma checks_only_ret {A} bad (a : A) : checks_only bad (ret a).
Proof. intros s. right. right. eexists. reflexivity. Qed.

Lemma checks_only_raise {A} bad msg :
  checks_only bad (raise (A := A) (ProfilerError msg)).
Proof. intros s. left. eexists. reflexivity. Qed.

Lemma checks_only_bind {A B} bad (m : M A) (k : A -> M B) :
  checks_only bad m -> (forall a, checks_only bad (k a)) ->
  checks_only bad (bind m k).
Proof.
  intros Hm Hk s. destruct (Hm s) as [[msg E] | [[E Hbad] | [a E]]].
  - left. exists msg. apply bind_inl, E.
  - right. left. split; [ apply bind_inl, E | exact Hbad ].
  - rewrite (bind_inr _ _ _ _ _ E). apply Hk.
Qed.

Lemma checks_only_weaken {A} (bad bad' : Prop) (m : M A) :
  checks_only bad m -> (bad -> bad') -> checks_only bad' m.
Proof.
  intros Hm Hbad s. destruct (Hm s) as [H | [[E H] | H]]; auto.
Qed.

(** ** Configuration keys *)

Lemma has_key_true (d : gmap string cfgval) key :
  is_Some (d !! key) -> has_key d key = true.
Proof. intros H. unfold has_key. apply bool_decide_eq_true_2, H. Qed.

Lemma has_key_false (d : gmap string cfgval) key :
  d !! key = None -> has_key d key = false.
Proof.
  intros H. unfold has_key. apply bool_decide_eq_false_2.
  rewrite H. intros [v Hv]. discriminate.
Qed.

Lemma item_lookup (d : gmap string cfgval) key v :
  d !! key = Some v -> item d key = v.
Proof. unfold item. intros ->. reflexivity. Qed.

Lemma configuration_truthy_has_key (d : gmap string cfgval) key :
  is_Some (d !! key) -> configuration_truthy (Mapping d) = true.
Proof.
  intros [v Hv]. cbn. apply negb_true_iff, bool_decide_eq_false_2.
  intros Hsize. apply map_size_empty_iff in Hsize. subst d.
  rewrite lookup_empty in Hv. discriminate.
Qed.

(** ** The availability and existence checks *)

Lemma py_in_true {A} `{EqDecision A} (x : A) l : py_in x l = true <-> x ∈ l.
Proof. unfold py_in. apply bool_decide_eq_true. Qed.

Lemma py_in_false {A} `{EqDecision A} (x : A) l : py_in x l = false <-> x ∉ l.
Proof. unfold py_in. apply bool_decide_eq_false. Qed.

Lemma check_expectations_cases dataset l :
  check_expectations dataset l = inr tt
  \/ exists msg, check_expectations dataset l = inl (ProfilerError msg).
Proof.
  induction l as [| e l IH]; cbn.
  - left. reflexivity.
  - destruct (py_in e _); cbn; [ exact IH | right; eexists; reflexivity ].
Qed.

Lemma check_expectations_ok dataset l :
  check_expectations dataset l = inr tt
  <-> Forall (λ e, e ∈ list_available_expectation_types dataset) l.
Proof.
  induction l as [| e l IH]; cbn.
  - split; [ constructor | reflexivity ].
  - destruct (py_in e _) eqn:E; cbn.
    + apply py_in_true in E. rewrite IH. split.
      * intros H. constructor; assumption.
      * intros H. inversion H. assumption.
    + apply py_in_false in E. split; [ discriminate | ].
      intros H. inversion H. contradiction.
Qed.

Lemma check_expectations_unavailable dataset l e :
  e ∈ l -> e ∉ list_available_expectation_types dataset ->
  exists msg, check_expectations dataset l = inl (ProfilerError msg).
Proof.
  intros Hin Hna.
  destruct (check_expectations_cases dataset l) as [Hok | Hko]; [ | exact Hko ].
  apply check_expectations_ok in Hok.
  rewrite Forall_forall in Hok. exfalso. apply Hna, Hok, Hin.
Qed.

Lemma check_columns_cases dataset l :
  check_columns dataset l = inr tt
  \/ exists msg, check_columns dataset l = inl (ProfilerError msg).
Proof.
  induction l as [| c l IH]; cbn.
  - left. reflexivity.
  - destruct (py_in c _); cbn; [ exact IH | right; eexists; reflexivity ].
Qed.

Lemma check_columns_ok dataset l :
  check_columns dataset l = inr tt
  <-> Forall (λ c, c ∈ get_table_columns dataset) l.
Proof.
  induction l as [| c l IH]; cbn.
  - split; [ constructor | reflexivity ].
  - destruct (py_in c _) eqn:E; cbn.
    + apply py_in_true in E. rewrite IH. split.
      * intros H. constructor; assumption.
      * intros H. inversion H. assumption.
    + apply py_in_false in E. split; [ discriminate | ].
      intros H. inversion H. contradiction.
Qed.

Lemma check_columns_missing dataset l c :
  c ∈ l -> c ∉ get_table_columns dataset ->
  exists msg, check_columns dataset l = inl (ProfilerError msg).
Proof.
  intros Hin Hna.
  destruct (check_columns_cases dataset l) as [Hok | Hko]; [ | exact Hko ].
  apply check_columns_ok in Hok.
  rewrite Forall_forall in Hok. exfalso. apply Hna, Hok, Hin.
Qed.

Lemma cfg_truthy_elem l (x : string) : x ∈ l -> cfg_truthy (CList l) = true.
Proof. destruct l; [ intros H; inversion H | reflexivity ]. Qed.

Lemma checks_only_lift_available dataset v :
  checks_only (checkable v = false)
    (lift (_check_that_expectations_are_available dataset v)).
Proof.
  intros s. unfold _check_that_expectations_are_available, checkable.
  destruct (cfg_truthy v); [ | right; right; eexists; reflexivity ].
  destruct (iterable v).
  - destruct (check_expectations_cases dataset (cfg_items v)) as [-> | [msg ->]].
    + right. right. eexists. reflexivity.
    + left. eexists. reflexivity.
  - right. left. split; reflexivity.
Qed.

Lemma checks_only_lift_columns dataset v :
  checks_only (checkable v = false) (lift (_check_that_columns_exist dataset v)).
Proof.
  intros s. unfold _check_that_columns_exist, checkable.
  destruct (cfg_truthy v); [ | right; right; eexists; reflexivity ].
  destruct (iterable v).
  - destruct (check_columns_cases dataset (cfg_items v)) as [-> | [msg ->]].
    + right. right. eexists. reflexivity.
    + left. eexists. reflexivity.
  - right. left. split; reflexivity.
Qed.

(** What [included_expectations] becomes before its check is [None] or
    the value itself. *)
Lemma checkable_normalised v :
  checkable (if in_False_None_empty v then CNone else v) = false ->
  checkable v = false.
Proof. destruct (in_False_None_empty v); [ discriminate | trivial ]. Qed.

(** Reading the two expectation keys raises [TypeError] only on a truthy
    value that is no list. *)
Lemma checks_only_read_expectation_keys dataset d :
  checks_only (uncheckable_expectations d) (read_expectation_keys dataset d).
Proof.
  unfold read_expectation_keys.
  destruct (_ && _); [ apply checks_only_raise | ].
  apply checks_only_bind.
  - destruct (d !! "included_expectations") as [v |] eqn:Hv.
    + rewrite (has_key_true d "included_expectations") by eauto.
      rewrite (item_lookup _ _ _ Hv).
      apply checks_only_bind; [ | intros _; apply checks_only_ret ].
      eapply checks_only_weaken; [ apply checks_only_lift_available | ].
      intros Hbad. exists "included_expectations", v.
      split; [ left; reflexivity | ]. split; [ exact Hv | ].
      apply checkable_normalised, Hbad.
    + rewrite (has_key_false _ _ Hv). apply checks_only_ret.
  - intros inc. apply checks_only_bind; [ | intros exc; apply checks_only_ret ].
    destruct (d !! "excluded_expectations") as [v |] eqn:Hv.
    + rewrite (has_key_true d "excluded_expectations") by eauto.
      rewrite (item_lookup _ _ _ Hv).
      apply checks_only_bind; [ | intros _; apply checks_only_ret ].
      eapply checks_only_weaken; [ apply checks_only_lift_available | ].
      intros Hbad. exists "excluded_expectations", v.
      split; [ right; reflexivity | ]. split; [ exact Hv | exact Hbad ].
    + rewrite (has_key_false _ _ Hv). apply checks_only_ret.
Qed.

(** Reading the two column keys raises [TypeError] only when
    [excluded_columns] stands alone and cannot be turned into a set. *)
Lemma checks_only_read_column_keys d existing :
  checks_only (d !! "included_columns" = None) (read_column_keys d existing).
Proof.
  unfold read_column_keys.
  destruct (_ && _); [ apply checks_only_raise | ].
  destruct (d !! "included_columns") as [v |] eqn:Hv.
  - rewrite (has_key_true d "included_columns") by eauto. apply checks_only_ret.
  - rewrite (has_key_false _ _ Hv).
    destruct (has_key d "excluded_columns"); [ | apply checks_only_ret ].
    destruct (iterable _); [ apply checks_only_ret | ].
    intros s. right. left. split; reflexivity.
Qed.

(** Reading the configuration leaves the state alone, whatever it
    raises. *)
Lemma checks_only_settings dataset (d : gmap string cfgval) existing :
  checks_only True
    (bind (read_expectation_keys dataset d)
       (λ expectation_keys,
          bind (read_column_keys d existing)
            (λ selected_columns, ret (selected_columns, expectation_keys)))).
Proof.
  apply checks_only_bind.
  { eapply checks_only_weaken; [ apply checks_only_read_expectation_keys | auto ]. }
  intros keys. apply checks_only_bind; [ | intros selected; apply checks_only_ret ].
  eapply checks_only_weaken; [ apply checks_only_read_column_keys | auto ].
Qed.

(** ** Conflicting and unknown configuration entries *)

(** C1: a configuration with both [included_expectations] and
    [excluded_expectations] makes [_profile] raise [ProfilerError], whatever
    the two values are; the dataset is only read ([get_table_columns]),
    not changed. *)
Theorem profile_rejects_both_expectation_keys dataset (d : gmap string cfgval) s :
  is_Some (d !! "included_expectations") ->
  is_Some (d !! "excluded_expectations") ->
  _profile dataset (Mapping d) s
  = (inl (ProfilerError
       "Please specify either `included_expectations` or `excluded_expectations`."),
     s).
Proof.
  intros Hinc Hexc. unfold _profile.
  rewrite (configuration_truthy_has_key _ _ Hinc).
  unfold read_expectation_keys.
  rewrite (has_key_true _ _ Hinc), (has_key_true _ _ Hexc).
  reflexivity.
Qed.

Lemma profile_rejects_both_expectation_keys_witness :
  let d : gmap string cfgval :=
    {[ "included_expectations" := CList ["expect_column_values_to_be_unique"];
       "excluded_expectations" := CNone ]} in
  _profile sample_table (Mapping d) initial_state
  = (inl (ProfilerError
       "Please specify either `included_expectations` or `excluded_expectations`."),
     initial_state).
Proof.
  cbn zeta. apply profile_rejects_both_expectation_keys.
  - eexists. reflexivity.
  - eexists. reflexivity.
Defined.

Lemma read_column_keys_both (d : gmap string cfgval) existing s :
  is_Some (d !! "included_columns") -> is_Some (d !! "excluded_columns") ->
  read_column_keys d existing s
  = (inl (ProfilerError
       "Please specify either `excluded_columns` or `included_columns`."), s).
Proof.
  intros Hinc Hexc. unfold read_column_keys.
  rewrite (has_key_true _ _ Hinc), (has_key_true _ _ Hexc). reflexivity.
Qed.

(** C2 fails as stated: the expectation keys are read before the column
    keys, and [True] under one of them makes their check raise
    [TypeError], not [ProfilerError]. *)
Theorem profile_both_column_keys_TypeError :
  let d : gmap string cfgval :=
    {[ "included_columns" := CList ["a"]; "excluded_columns" := CList ["b"];
       "excluded_expectations" := CTrue ]} in
  is_Some (d !! "included_columns") /\ is_Some (d !! "excluded_columns")
  /\ _profile sample_table (Mapping d) initial_state = (inl TypeError, initial_state).
Proof.
  cbn zeta. split; [ eexists; reflexivity | ]. split; [ eexists; reflexivity | ].
  vm_compute. reflexivity.
Qed.

(** C2, amended: a configuration with both [included_columns] and
    [excluded_columns] makes [_profile] raise, whatever the two values
    are: a [ProfilerError], or else a [TypeError], and this only if a
    value under [included_expectations] or [excluded_expectations] is
    truthy and no list. Either way the dataset has only been read. *)
Theorem profile_rejects_both_column_keys dataset (d : gmap string cfgval) s :
  is_Some (d !! "included_columns") ->
  is_Some (d !! "excluded_columns") ->
  (exists msg, _profile dataset (Mapping d) s = (inl (ProfilerError msg), s))
  \/ (_profile dataset (Mapping d) s = (inl TypeError, s)
      /\ uncheckable_expectations d).
Proof.
  intros Hinc Hexc. unfold _profile.
  rewrite (configuration_truthy_has_key _ _ Hinc).
  destruct (checks_only_read_expectation_keys dataset d s)
    as [[msg E] | [[E Hbad] | [keys E]]].
  - left. exists msg. apply bind_inl, bind_inl, E.
  - right. split; [ apply bind_inl, bind_inl, E | exact Hbad ].
  - left. eexists. apply bind_inl. rewrite (bind_inr _ _ _ _ _ E).
    apply bind_inl, read_column_keys_both; assumption.
Qed.

Lemma profile_rejects_both_column_keys_witness :
  let d : gmap string cfgval :=
    {[ "included_columns" := CList ["a"]; "excluded_columns" := CList ["b"] ]} in
  exists msg,
    _profile sample_table (Mapping d) initial_state
    = (inl (ProfilerError msg), initial_state).
Proof.
  cbn zeta.
  destruct (profile_rejects_both_column_keys sample_table
              {[ "included_columns" := CList ["a"]; "excluded_columns" := CList ["b"] ]}
              initial_state) as [H | [H _]].
  - eexists. reflexivity.
  - eexists. reflexivity.
  - exact H.
  - vm_compute in H. discriminate H.
Defined.

Lemma available_check_raises dataset l e :
  e ∈ l -> e ∉ list_available_expectation_types dataset ->
  exists msg,
    _check_that_expectations_are_available dataset (CList l)
    = inl (ProfilerError msg).
Proof.
  intros Hin Hna. unfold _check_that_expectations_are_available.
  rewrite (cfg_truthy_elem _ _ Hin). cbn [cfg_items].
  eapply check_expectations_unavailable; eassumption.
Qed.

Lemma in_False_None_empty_elem l (x : string) :
  x ∈ l -> in_False_None_empty (CList l) = false.
Proof. destruct l; [ intros H; inversion H | reflexivity ]. Qed.

(** An unavailable name under either expectation key stops
    [read_expectation_keys]. *)
Lemma read_expectation_keys_unavailable dataset (d : gmap string cfgval) s key l e :
  key = "included_expectations" \/ key = "excluded_expectations" ->
  d !! key = Some (CList l) ->
  e ∈ l -> e ∉ list_available_expectation_types dataset ->
  exists msg, read_expectation_keys dataset d s = (inl (ProfilerError msg), s).
Proof.
  intros Hkey Hd Hin Hna.
  destruct (available_check_raises dataset l e Hin Hna) as [msg Hmsg].
  unfold read_expectation_keys.
  destruct (has_key d "included_expectations") eqn:Hi;
    destruct (has_key d "excluded_expectations") eqn:He; cbn [andb].
  - eexists. reflexivity.
  - destruct Hkey as [-> | ->].
    + exists msg. apply bind_inl, bind_inl.
      rewrite (item_lookup _ _ _ Hd), (in_False_None_empty_elem _ _ Hin).
      apply lift_inl, Hmsg.
    + apply bool_decide_eq_false in He. exfalso. apply He. eauto.
  - destruct Hkey as [-> | ->].
    + apply bool_decide_eq_false in Hi. exfalso. apply Hi. eauto.
    + exists msg. rewrite (bind_inr _ _ _ (CList []) s) by reflexivity.
      apply bind_inl, bind_inl.
      rewrite (item_lookup _ _ _ Hd). apply lift_inl, Hmsg.
  - destruct Hkey as [-> | ->].
    + apply bool_decide_eq_false in Hi. exfalso. apply Hi. eauto.
    + apply bool_decide_eq_false in He. exfalso. apply He. eauto.
Qed.

(** Every column that survives the exclusion is a table column. *)
Lemma columns_without_existing existing excluded c :
  c ∈ columns_without existing excluded -> c ∈ existing.
Proof.
  unfold columns_without. rewrite elem_of_elements, elem_of_difference.
  intros [H _]. apply elem_of_list_to_set in H. exact H.
Qed.

Lemma columns_without_excluded existing excluded c :
  c ∈ columns_without existing excluded <-> c ∈ existing /\ c ∉ excluded.
Proof.
  unfold columns_without.
  rewrite elem_of_elements, elem_of_difference, !elem_of_list_to_set.
  reflexivity.
Qed.

(** With [excluded_columns] alone, the selected columns are the table
    columns that are not excluded. *)
Lemma read_column_keys_excluded (d : gmap string cfgval) existing s v :
  d !! "included_columns" = None ->
  d !! "excluded_columns" = Some v ->
  checkable v = true ->
  read_column_keys d existing s
  = (inr (CList (columns_without existing (cfg_items v))), s).
Proof.
  intros Hinc Hexc Hv. unfold read_column_keys.
  rewrite (has_key_false _ _ Hinc), (has_key_true d "excluded_columns") by eauto.
  cbn [andb]. rewrite (item_lookup _ _ _ Hexc).
  destruct v as [| | | n | [| c l]]; try reflexivity; try discriminate Hv.
  unfold checkable in Hv. cbn in Hv. rewrite orb_false_r in Hv.
  apply negb_true_iff, negb_false_iff in Hv. cbn. rewrite Hv. reflexivity.
Qed.

(** C3 fails as stated: with a column that does not exist under
    [included_columns] and [True] under [included_expectations], the check
    of the expectation names comes first and raises [TypeError]. *)
Theorem profile_unknown_column_TypeError :
  let d : gmap string cfgval :=
    {[ "included_columns" := CList ["missing"];
       "included_expectations" := CTrue ]} in
  (exists l c, d !! "included_columns" = Some (CList l)
               /\ c ∈ l /\ c ∉ get_table_columns sample_table)
  /\ _profile sample_table (Mapping d) initial_state = (inl TypeError, initial_state).
Proof.
  cbn zeta. split; [ | vm_compute; reflexivity ].
  exists ["missing"], "missing". split; [ reflexivity | ].
  split; [ apply list_elem_of_here | ].
  cbn. rewrite !elem_of_cons, elem_of_nil. intros [H | [H | []]]; discriminate.
Qed.

(** C3, amended: an unavailable expectation type under
    [included_expectations] or [excluded_expectations], or a selected
    column that is not a table column, makes [_profile] raise: a
    [ProfilerError], or else a [TypeError], and this only if a value under
    [included_expectations] or [excluded_expectations] is truthy and no
    list. Either way the dataset has only been read. The columns that
    survive [excluded_columns] are table columns, so the last case never
    arises. *)
Theorem profile_rejects_unknown_names dataset (d : gmap string cfgval) s :
  (exists l e, d !! "included_expectations" = Some (CList l)
               /\ e ∈ l /\ e ∉ list_available_expectation_types dataset)
  \/ (exists l e, d !! "excluded_expectations" = Some (CList l)
                  /\ e ∈ l /\ e ∉ list_available_expectation_types dataset)
  \/ (exists l c, d !! "included_columns" = Some (CList l)
                  /\ c ∈ l /\ c ∉ get_table_columns dataset)
  \/ (exists excluded c, d !! "included_columns" = None
                  /\ d !! "excluded_columns" = Some excluded
                  /\ c ∈ columns_without (get_table_columns dataset)
                                         (cfg_items excluded)
                  /\ c ∉ get_table_columns dataset) ->
  (exists msg, _profile dataset (Mapping d) s = (inl (ProfilerError msg), s))
  \/ (_profile dataset (Mapping d) s = (inl TypeError, s)
      /\ uncheckable_expectations d).
Proof.
  intros [(l & e & Hd & Hin & Hna) | [(l & e & Hd & Hin & Hna)
         | [(l & c & Hd & Hin & Hna) | (ex & c & _ & _ & Hin & Hna)]]].
  - left. unfold _profile.
    rewrite (configuration_truthy_has_key _ "included_expectations") by eauto.
    destruct (read_expectation_keys_unavailable dataset d s _ l e (or_introl eq_refl)
                Hd Hin Hna) as [msg E].
    exists msg. apply bind_inl, bind_inl, E.
  - left. unfold _profile.
    rewrite (configuration_truthy_has_key _ "excluded_expectations") by eauto.
    destruct (read_expectation_keys_unavailable dataset d s _ l e (or_intror eq_refl)
                Hd Hin Hna) as [msg E].
    exists msg. apply bind_inl, bind_inl, E.
  - unfold _profile. rewrite (configuration_truthy_has_key _ "included_columns") by eauto.
    destruct (checks_only_read_expectation_keys dataset d s)
      as [[msg E] | [[E Hbad] | [keys E]]].
    { left. exists msg. apply bind_inl, bind_inl, E. }
    { right. split; [ apply bind_inl, bind_inl, E | exact Hbad ]. }
    left.
    destruct (checks_only_read_column_keys d (get_table_columns dataset) s)
      as [[msg E'] | [[_ Hnone] | [selected E']]].
    { exists msg. apply bind_inl. rewrite (bind_inr _ _ _ _ _ E).
      apply bind_inl, E'. }
    { congruence. }
    assert (selected = CList l) as ->.
    { revert E'. unfold read_column_keys.
      rewrite (has_key_true d "included_columns") by eauto.
      destruct (has_key d "excluded_columns"); cbn [andb]; [ discriminate | ].
      rewrite (item_lookup _ _ _ Hd). cbv [ret]. congruence. }
    destruct (check_columns_missing dataset l c Hin Hna) as [msg Hmsg].
    exists msg.
    erewrite bind_inr
      by (rewrite (bind_inr _ _ _ _ _ E); rewrite (bind_inr _ _ _ _ _ E');
          reflexivity).
    destruct keys as [inc exc]. apply bind_inl, lift_inl.
    unfold _check_that_columns_exist. rewrite (cfg_truthy_elem _ _ Hin).
    exact Hmsg.
  - exfalso. apply Hna. eapply columns_without_existing, Hin.
Qed.

Lemma profile_rejects_unknown_names_witness :
  let d : gmap string cfgval := {[ "included_columns" := CList ["a"; "c"] ]} in
  exists msg,
    _profile sample_table (Mapping d) initial_state
    = (inl (ProfilerError msg), initial_state).
Proof.
  cbn zeta.
  destruct (profile_rejects_unknown_names sample_table
              {[ "included_columns" := CList ["a"; "c"] ]} initial_state)
    as [H | [H _]].
  - right. right. left. exists ["a"; "c"], "c". split; [ reflexivity | ].
    split; [ set_solver | ].
    cbn. rewrite !elem_of_cons, elem_of_nil. intros [H | [H | []]]; discriminate.
  - exact H.
  - vm_compute in H. discriminate H.
Defined.

(** ** The degenerate [included_expectations] *)

(** Each table column, and nothing else, gets the description [""]. *)
Lemma meta_columns_lookup columns column :
  meta_columns columns !! column
  = if bool_decide (column ∈ columns) then Some {[ "description" := "" ]} else None.
Proof.
  unfold meta_columns.
  induction columns as [| c columns IH] using rev_ind.
  - cbn. rewrite lookup_empty. reflexivity.
  - rewrite foldl_app. cbn [foldl].
    destruct (decide (c = column)) as [-> | Hne].
    + rewrite lookup_insert_eq, bool_decide_eq_true_2; [ reflexivity | ].
      apply elem_of_app. right. apply list_elem_of_singleton. reflexivity.
    + rewrite lookup_insert_ne by exact Hne. rewrite IH.
      apply (f_equal (λ b : bool, if b then _ else _)).
      apply bool_decide_ext. rewrite elem_of_app, list_elem_of_singleton.
      split; [ auto | intros [H | H]; [ exact H | congruence ] ].
Qed.

(** [_build_column_description_metadata] only reads the dataset and
    returns the dataset's suite with [meta["columns"]] rewritten; the other
    entries of [meta] are kept, and a suite without metadata, and only
    such a suite, gets the entry ["notes"] with the set [{""}]. *)
Lemma build_column_description_metadata_spec dataset s :
  let suite0 := get_expectation_suite dataset (events s) false in
  exists suite,
    _build_column_description_metadata dataset s = (inr suite, s)
    /\ expectations suite = expectations suite0
    /\ meta suite !! "columns"
       = Some (MetaColumns (meta_columns (get_table_columns dataset)))
    /\ (forall key, key <> "columns" -> key <> "notes" ->
          meta suite !! key = meta suite0 !! key)
    /\ (size (meta suite0) = 0%nat ->
        meta suite !! "notes" = Some (MetaNotesSet {[ "" ]}))
    /\ (size (meta suite0) <> 0%nat ->
        meta suite !! "notes" = meta suite0 !! "notes").
Proof.
  cbn zeta.
  unfold _build_column_description_metadata, bind, get_events.
  destruct (bool_decide _) eqn:Hsize; eexists; (split; [ reflexivity | ]);
    (split; [ reflexivity | ]); cbn [meta].
  - apply bool_decide_eq_true in Hsize.
    split; [ | split; [ | split ] ].
    + rewrite lookup_insert_ne by discriminate. apply lookup_singleton_eq.
    + intros key Hc Hn. rewrite lookup_insert_ne by congruence.
      rewrite lookup_singleton_ne by congruence.
      apply map_size_empty_iff in Hsize. rewrite Hsize, lookup_empty. reflexivity.
    + intros _. apply lookup_insert_eq.
    + intros Hne. contradiction.
  - apply bool_decide_eq_false in Hsize.
    split; [ | split; [ | split ] ].
    + apply lookup_insert_eq.
    + intros key Hc Hn. apply lookup_insert_ne. congruence.
    + intros Hempty. contradiction.
    + intros _. apply lookup_insert_ne. discriminate.
Qed.

Lemma check_columns_table dataset :
  check_columns dataset (get_table_columns dataset) = inr tt.
Proof. apply check_columns_ok, Forall_forall. auto. Qed.

Lemma check_columns_without dataset excluded :
  check_columns dataset (columns_without (get_table_columns dataset) excluded)
  = inr tt.
Proof.
  apply check_columns_ok, Forall_forall. intros c.
  apply columns_without_existing.
Qed.

(** C9 fails as stated: with [included_expectations] empty, a selected
    column that does not exist still raises. *)
Lemma profile_empty_included_expectations_raises :
  let d : gmap string cfgval :=
    {[ "included_expectations" := CList [];
       "included_columns" := CList ["missing"] ]} in
  d !! "included_expectations" = Some (CList [])
  /\ _profile sample_table (Mapping d) initial_state
     = (inl (ProfilerError "Column missing does not exist."), initial_state).
Proof. cbn zeta. split; reflexivity. Qed.

(** The same with [None] under [included_expectations] and an
    [excluded_expectations] key next to it. *)
Lemma profile_None_included_expectations_raises :
  let d : gmap string cfgval :=
    {[ "included_expectations" := CNone; "excluded_expectations" := CList [] ]} in
  exists msg,
    _profile sample_table (Mapping d) initial_state
    = (inl (ProfilerError msg), initial_state).
Proof. cbn zeta. eexists. reflexivity. Qed.

(** C9, amended: when [included_expectations] is the empty list, [False],
    [None] (or [0], which equals [False]), [excluded_expectations] is
    absent, [included_columns] and [excluded_columns] are not both
    present, the value under either of them is falsy or a list, and every
    column listed under [included_columns] is a table column, [_profile]
    raises nothing, changes nothing on the dataset and returns a suite
    with no expectation; its metadata is that of the dataset's suite with
    the column descriptions written under ["columns"], and the set [{""}]
    under ["notes"] exactly when there was no metadata at all (the notes
    of the dataset's suite are kept otherwise). *)
Theorem profile_without_included_expectations dataset (d : gmap string cfgval) s v :
  d !! "included_expectations" = Some v ->
  in_False_None_empty v = true ->
  d !! "excluded_expectations" = None ->
  d !! "included_columns" = None \/ d !! "excluded_columns" = None ->
  (forall w, d !! "included_columns" = Some w ->
             checkable w = true
             /\ Forall (λ c, c ∈ get_table_columns dataset) (cfg_items w)) ->
  (forall w, d !! "excluded_columns" = Some w -> checkable w = true) ->
  let suite0 := get_expectation_suite dataset (events s) false in
  exists suite,
    _profile dataset (Mapping d) s = (inr suite, s)
    /\ expectations suite = []
    /\ meta suite !! "columns"
       = Some (MetaColumns (meta_columns (get_table_columns dataset)))
    /\ (forall key, key <> "columns" -> key <> "notes" ->
          meta suite !! key = meta suite0 !! key)
    /\ (size (meta suite0) = 0%nat ->
        meta suite !! "notes" = Some (MetaNotesSet {[ "" ]}))
    /\ (size (meta suite0) <> 0%nat ->
        meta suite !! "notes" = meta suite0 !! "notes").
Proof.
  intros Hinc Hv Hexc Hcols Hexist Hexcl suite0.
  destruct (build_column_description_metadata_spec dataset s)
    as (suite & Hsuite & _ & Hmeta).
  exists {| expectations := []; meta := meta suite |}.
  split; [ | split; [ reflexivity | exact Hmeta ] ].
  unfold _profile.
  rewrite (configuration_truthy_has_key _ "included_expectations") by eauto.
  assert (read_expectation_keys dataset d s = (inr (CNone, CList []), s)) as Hkeys.
  { unfold read_expectation_keys.
    rewrite (has_key_true d "included_expectations") by eauto.
    rewrite (has_key_false _ _ Hexc). cbn [andb].
    rewrite (item_lookup _ _ _ Hinc), Hv. reflexivity. }
  assert (exists selected,
             read_column_keys d (get_table_columns dataset) s = (inr selected, s)
             /\ _check_that_columns_exist dataset selected = inr tt)
    as (selected & Hsel & Hcheck).
  { destruct (d !! "included_columns") as [w |] eqn:Hic.
    - destruct Hcols as [Hcols | Hcols]; [ discriminate | ].
      destruct (Hexist w eq_refl) as [Hw Hall].
      unfold read_column_keys, _check_that_columns_exist.
      rewrite (has_key_true d "included_columns") by eauto.
      rewrite (has_key_false _ _ Hcols). cbn [andb].
      exists w. rewrite (item_lookup _ _ _ Hic). split; [ reflexivity | ].
      unfold checkable in Hw.
      destruct (cfg_truthy w); [ | reflexivity ].
      cbn [negb orb] in Hw. rewrite Hw. apply check_columns_ok, Hall.
    - destruct (d !! "excluded_columns") as [w |] eqn:Hec.
      + eexists. split.
        * apply (read_column_keys_excluded d _ s w Hic Hec), Hexcl. reflexivity.
        * unfold _check_that_columns_exist. cbn [iterable cfg_items].
          destruct (cfg_truthy _); [ | reflexivity ].
          apply check_columns_without.
      + unfold read_column_keys, _check_that_columns_exist.
        rewrite (has_key_false _ _ Hic), (has_key_false _ _ Hec). cbn [andb].
        eexists. split; [ reflexivity | ]. cbn [iterable cfg_items].
        destruct (cfg_truthy _); [ | reflexivity ].
        apply check_columns_table. }
  erewrite bind_inr
    by (rewrite (bind_inr _ _ _ _ _ Hkeys); rewrite (bind_inr _ _ _ _ _ Hsel);
        reflexivity).
  cbn beta iota zeta.
  rewrite (bind_inr _ _ _ tt s) by (apply lift_inr, Hcheck).
  cbn [cfg_is_None].
  rewrite (bind_inr _ _ _ _ _ Hsuite). reflexivity.
Qed.

Lemma profile_without_included_expectations_witness :
  let d : gmap string cfgval :=
    {[ "included_expectations" := CList []; "included_columns" := CList ["a"] ]} in
  exists suite,
    _profile sample_table (Mapping d) initial_state = (inr suite, initial_state)
    /\ expectations suite = []
    /\ meta suite !! "columns"
       = Some (MetaColumns (meta_columns (get_table_columns sample_table)))
    /\ meta suite !! "notes" = Some (MetaNotesSet {[ "" ]}).
Proof.
  cbn zeta.
  destruct (profile_without_included_expectations sample_table
              {[ "included_expectations" := CList [];
                 "included_columns" := CList ["a"] ]}
              initial_state (CList []))
    as (suite & Hrun & Hnone & Hmeta & _ & Hnotes & _).
  - reflexivity.
  - reflexivity.
  - reflexivity.
  - right. reflexivity.
  - intros w Hw. assert (w = CList ["a"]) as -> by (vm_compute in Hw; congruence).
    split; [ reflexivity | ].
    constructor; [ cbn; left | constructor ].
  - intros w Hw. vm_compute in Hw. discriminate Hw.
  - exists suite. split; [ exact Hrun | ]. split; [ exact Hnone | ].
    split; [ exact Hmeta | ]. apply Hnotes. reflexivity.
Defined.

(** ** What a computation adds to the calls made *)

Lemma emits_emitted {A} P (m : M A) s : emits P m -> Forall P (emitted m s).
Proof.
  intros H. destruct (H s) as (new & E & Hnew). unfold emitted.
  rewrite E, drop_app_length. exact Hnew.
Qed.

Lemma emits_ret {A} P (a : A) : emits P (ret a).
Proof. intros s. exists []. cbn. rewrite app_nil_r. auto. Qed.

Lemma emits_raise {A} P e : emits P (raise (A := A) e).
Proof. intros s. exists []. cbn. rewrite app_nil_r. auto. Qed.

Lemma emits_lift {A} P (r : result A) : emits P (lift r).
Proof. intros s. exists []. cbn. rewrite app_nil_r. auto. Qed.

Lemma emits_emit P e : P e -> emits P (emit e).
Proof. intros H s. exists [e]. cbn. auto. Qed.

Lemma emits_bind {A B} P (m : M A) (k : A -> M B) :
  emits P m ->
  (forall a s s', m s = (inr a, s') -> emits P (k a)) ->
  emits P (bind m k).
Proof.
  intros Hm Hk s. destruct (Hm s) as (new & E & Hnew). unfold bind.
  destruct (m s) as [[e | a] s'] eqn:Hms; cbn in E.
  - exists new. auto.
  - destruct (Hk a s s' Hms s') as (new' & E' & Hnew').
    exists (new ++ new'). rewrite E', E, app_assoc. split; [ reflexivity | ].
    apply Forall_app. auto.
Qed.

Lemma emits_seq {A B} P (m : M A) (k : M B) :
  emits P m -> emits P k -> emits P (bind m (λ _, k)).
Proof. intros Hm Hk. apply emits_bind; auto. Qed.

(** ** Loose ranges around the observed statistics *)

Lemma value_sub_num v lo :
  _is_nan v = false -> value_sub v 1 = inr lo ->
  exists q, v = VNum q /\ lo = VNum (q - 1)%Q.
Proof.
  destruct v; cbn; intros Hnan H; try discriminate.
  injection H as <-. eauto.
Qed.

Lemma in_range_loose q : in_range (VNum (q - 1)%Q) (VNum (q + 1)%Q) (VNum q) = true.
Proof.
  unfold in_range, value_leb. apply andb_true_iff.
  split; apply Qle_bool_iff; lra.
Qed.

Lemma loose_value_ranges_spec values ranges :
  loose_value_ranges values = inr ranges ->
  Forall2 (λ v r, loose_around v r.1 r.2 /\ (v <> VNaN -> in_range r.1 r.2 v = true))
          values ranges.
Proof.
  revert ranges. induction values as [| v values IH]; cbn; intros ranges H.
  - injection H as <-. constructor.
  - destruct (value_sub v 1) as [e | lo] eqn:Hlo; [ discriminate | ].
    destruct (value_add v 1) as [e | hi] eqn:Hhi; [ discriminate | ].
    destruct (loose_value_ranges values) as [e | rest]; [ discriminate | ].
    injection H as <-. constructor; [ | apply IH; reflexivity ].
    split; [ split; assumption | ]. cbn [fst snd].
    destruct v; cbn in Hlo, Hhi; try discriminate.
    + intros Hn. contradiction.
    + injection Hlo as <-. injection Hhi as <-. intros _. apply in_range_loose.
Qed.

Section NumericColumn.
Variable dataset : Dataset.
Variable column : string.

Let ok (e : Event) : Prop :=
  aggregate_check_ok dataset column e /\ quantile_check_ok dataset column e.

Lemma non_nullity_emits : emits ok (_create_non_nullity_expectations dataset column).
Proof.
  unfold _create_non_nullity_expectations.
  apply emits_seq; [ apply emits_emit; split; exact I | ].
  destruct (negb _); [ apply emits_emit; split; exact I | apply emits_ret ].
Qed.

Lemma between_observed_emits t observed :
  observed_aggregate dataset t column = Some observed ->
  String.eqb t "expect_column_quantile_values_to_be_between" = false ->
  emits ok (between_observed t column observed).
Proof.
  intros Hobs Hq. unfold between_observed.
  apply emits_seq.
  { apply emits_emit. split; cbn.
    - rewrite Hobs. left. split; reflexivity.
    - rewrite Hq. exact I. }
  destruct (_is_nan observed) eqn:Hnan; cbn [negb]; [ apply emits_ret | ].
  apply emits_bind; [ apply emits_lift | ]. intros lo s s' Hlo.
  apply emits_bind; [ apply emits_lift | ]. intros hi s1 s1' Hhi.
  apply emits_emit.
  assert (value_sub observed 1 = inr lo) as Elo
    by (unfold lift in Hlo; congruence).
  assert (value_add observed 1 = inr hi) as Ehi
    by (unfold lift in Hhi; congruence).
  split; cbn.
  - rewrite Hobs. right. split; [ split; assumption | ].
    destruct (value_sub_num _ _ Hnan Elo) as (q & -> & ->).
    cbn in Ehi. injection Ehi as <-. apply in_range_loose.
  - rewrite Hq. exact I.
Qed.

(** Every call [_create_expectations_for_numeric_column] makes passes
    [aggregate_check_ok] and [quantile_check_ok]. *)
Lemma numeric_column_emits :
  emits ok (_create_expectations_for_numeric_column dataset column).
Proof.
  unfold _create_expectations_for_numeric_column.
  apply emits_seq; [ apply non_nullity_emits | ].
  do 4 (apply emits_seq; [ apply between_observed_emits; reflexivity | ]).
  apply emits_seq.
  { apply emits_emit. split; [ exact I | ]. cbn. left. reflexivity. }
  destruct (quantile_exception _); [ apply emits_ret | ].
  apply emits_seq; [ apply emits_emit; split; exact I | ].
  apply emits_bind; [ apply emits_lift | ]. intros ranges s s' Hr.
  apply emits_seq; [ | apply emits_emit; split; exact I ].
  apply emits_emit. split; [ exact I | ]. cbn. right.
  apply loose_value_ranges_spec. unfold lift in Hr. congruence.
Qed.

Lemma emits_remove_expectation t c k b :
  emits ok (remove_expectation dataset t c k b).
Proof.
  intros s. eexists [_]. unfold remove_expectation.
  destruct (remove_expectation_raises _ _ _); cbn;
    (split; [ reflexivity | repeat constructor ]).
Qed.

Lemma emits_get_cache : emits ok get_cache.
Proof. intros s. exists []. cbn. rewrite app_nil_r. auto. Qed.

Lemma emits_set_cache c : emits ok (set_cache c).
Proof. intros s. exists []. cbn. rewrite app_nil_r. auto. Qed.

Lemma type_with_caching_emits name :
  emits ok (_get_column_type_with_caching dataset name).
Proof.
  unfold _get_column_type_with_caching.
  apply emits_bind; [ apply emits_get_cache | ]. intros cache _ _ _.
  apply emits_seq.
  { destruct (entry_falsy _); [ apply emits_set_cache | apply emits_ret ]. }
  destruct (cached_type _); [ apply emits_ret | ].
  apply emits_seq; [ apply emits_emit; split; exact I | ].
  apply emits_bind; [ apply emits_get_cache | ]. intros cache' _ _ _.
  apply emits_seq; [ apply emits_set_cache | ].
  apply emits_seq; [ apply emits_remove_expectation | ].
  apply emits_seq; [ apply emits_emit; split; exact I | apply emits_ret ].
Qed.

Lemma cardinality_with_caching_emits name :
  emits ok (_get_column_cardinality_with_caching dataset name).
Proof.
  unfold _get_column_cardinality_with_caching.
  apply emits_bind; [ apply emits_get_cache | ]. intros cache _ _ _.
  apply emits_seq.
  { destruct (entry_falsy _); [ apply emits_set_cache | apply emits_ret ]. }
  destruct (cached_cardinality _); [ apply emits_ret | ].
  apply emits_seq; [ apply emits_emit; split; exact I | ].
  apply emits_bind; [ apply emits_get_cache | ]. intros cache' _ _ _.
  apply emits_seq; [ apply emits_set_cache | ].
  do 2 (apply emits_seq; [ apply emits_remove_expectation | ]).
  apply emits_seq; [ apply emits_emit; split; exact I | apply emits_ret ].
Qed.

Lemma low_card_column_emits :
  emits ok (_create_expectations_for_low_card_column dataset column).
Proof.
  unfold _create_expectations_for_low_card_column.
  apply emits_seq; [ apply non_nullity_emits | ].
  do 2 (apply emits_seq; [ apply emits_emit; split; exact I | ]).
  apply emits_bind; [ apply cardinality_with_caching_emits | ].
  intros cardinality _ _ _.
  destruct (py_in _ _); [ | apply emits_ret ].
  apply emits_seq; apply emits_emit; split; exact I.
Qed.

Lemma string_column_emits :
  emits ok (_create_expectations_for_string_column dataset column).
Proof.
  unfold _create_expectations_for_string_column.
  apply emits_seq; [ apply non_nullity_emits | ].
  apply emits_emit; split; exact I.
Qed.

(** A datetime column only asks for its min and max; its range check is
    [expect_column_values_to_be_between], none of the four aggregates. *)
Lemma datetime_column_emits :
  emits ok (_create_expectations_for_datetime_column dataset column).
Proof.
  unfold _create_expectations_for_datetime_column.
  apply emits_seq; [ apply non_nullity_emits | ].
  apply emits_seq.
  { apply emits_emit. split; [ cbn; left; split; reflexivity | exact I ]. }
  apply emits_bind.
  { destruct (negb _); [ | apply emits_ret ].
    apply emits_seq; [ apply emits_remove_expectation | apply emits_lift ]. }
  intros min_value _ _ _.
  apply emits_seq.
  { apply emits_emit. split; [ cbn; left; split; reflexivity | exact I ]. }
  apply emits_bind.
  { destruct (negb _); [ | apply emits_ret ].
    apply emits_seq; [ apply emits_remove_expectation | apply emits_lift ]. }
  intros max_value _ _ _.
  destruct (_ || _); [ apply emits_emit; split; exact I | apply emits_ret ].
Qed.

(** The loop body of [_profile]: whatever the kind of the column, the
    aggregate and quantile checks it makes are the loose ones. *)
Lemma profile_column_emits : emits ok (profile_column dataset column).
Proof.
  unfold profile_column.
  apply emits_bind; [ apply cardinality_with_caching_emits | ].
  intros cardinality _ _ _.
  apply emits_bind; [ apply type_with_caching_emits | ].
  intros column_type _ _ _.
  destruct (py_in cardinality [TWO; VERY_FEW; FEW]);
    [ apply low_card_column_emits | ].
  destruct (py_in cardinality [MANY; VERY_MANY; UNIQUE]); [ | apply emits_ret ].
  apply emits_seq; [ apply emits_emit; split; exact I | ].
  destruct (py_in column_type [INT; FLOAT]); [ apply numeric_column_emits | ].
  destruct (py_in column_type [DATETIME]); [ apply datetime_column_emits | ].
  destruct (py_in column_type [STRING]);
    [ apply string_column_emits | apply emits_ret ].
Qed.

End NumericColumn.

(** On the sample table the numeric checks of column [a] are all made:
    the probe and the bounded check of each aggregate, then the two
    quantile calls. *)
Example numeric_column_sample :
  _create_expectations_for_numeric_column sample_table "a" initial_state
  = (inr tt,
     {| events :=
          [ Expect "expect_column_values_to_not_be_null" (kw [("column", column_arg "a")]);
            Expect "expect_column_min_to_be_between"
              (kw [("column", column_arg "a"); ("min_value", none_arg);
                   ("max_value", none_arg); ("result_format", SUMMARY)]);
            Expect "expect_column_min_to_be_between"
              (kw [("column", column_arg "a"); ("min_value", AVal (VNum (1 - 1)));
                   ("max_value", AVal (VNum (1 + 1)))]);
            Expect "expect_column_max_to_be_between"
              (kw [("column", column_arg "a"); ("min_value", none_arg);
                   ("max_value", none_arg); ("result_format", SUMMARY)]);
            Expect "expect_column_max_to_be_between"
              (kw [("column", column_arg "a"); ("min_value", AVal (VNum (100 - 1)));
                   ("max_value", AVal (VNum (100 + 1)))]);
            Expect "expect_column_mean_to_be_between"
              (kw [("column", column_arg "a"); ("min_value", none_arg);
                   ("max_value", none_arg); ("result_format", SUMMARY)]);
            Expect "expect_column_mean_to_be_between"
              (kw [("column", column_arg "a");
                   ("min_value", AVal (VNum ((101 # 2) - 1)));
                   ("max_value", AVal (VNum ((101 # 2) + 1)))]);
            Expect "expect_column_median_to_be_between"
              (kw [("column", column_arg "a"); ("min_value", none_arg);
                   ("max_value", none_arg); ("result_format", SUMMARY)]);
            Expect "expect_column_median_to_be_between"
              (kw [("column", column_arg "a");
                   ("min_value", AVal (VNum ((101 # 2) - 1)));
                   ("max_value", AVal (VNum ((101 # 2) + 1)))]);
            Expect "expect_column_quantile_values_to_be_between"
              (kw [("column", column_arg "a");
                   ("quantile_ranges",
                    AQuantileRanges probe_quantiles probe_value_ranges);
                   ("result_format", SUMMARY); ("catch_exceptions", ABool true)]);
            SetConfigValue "interactive_evaluation" false;
            Expect "expect_column_quantile_values_to_be_between"
              (kw [("column", column_arg "a");
                   ("quantile_ranges",
                    AQuantileRanges probe_quantiles
                      [ (VNum (5 - 1), VNum (5 + 1)); (VNum (25 - 1), VNum (25 + 1));
                        (VNum (50 - 1), VNum (50 + 1)); (VNum (75 - 1), VNum (75 + 1));
                        (VNum (95 - 1), VNum (95 + 1)) ]);
                   ("catch_exceptions", ABool true)]);
            SetConfigValue "interactive_evaluation" true ];
        column_cache := ∅ |}).
Proof. vm_compute. reflexivity. Qed.

(** C8 at a failing input: on a column whose max, mean and 0.95 quantile
    are [nan], the max and mean checks are skipped but the quantile check
    is made, and the range of the [nan] quantile value is
    [[nan - 1, nan + 1]], which does not contain it. A plain [_profile]
    run on the table makes that call. *)
Theorem numeric_column_nan_quantile_range :
  _create_expectations_for_numeric_column nan_quantile_table "a" initial_state
  = (inr tt,
     {| events :=
          [ Expect "expect_column_values_to_not_be_null" (kw [("column", column_arg "a")]);
            Expect "expect_column_min_to_be_between"
              (kw [("column", column_arg "a"); ("min_value", none_arg);
                   ("max_value", none_arg); ("result_format", SUMMARY)]);
            Expect "expect_column_min_to_be_between"
              (kw [("column", column_arg "a"); ("min_value", AVal (VNum (1 - 1)));
                   ("max_value", AVal (VNum (1 + 1)))]);
            Expect "expect_column_max_to_be_between"
              (kw [("column", column_arg "a"); ("min_value", none_arg);
                   ("max_value", none_arg); ("result_format", SUMMARY)]);
            Expect "expect_column_mean_to_be_between"
              (kw [("column", column_arg "a"); ("min_value", none_arg);
                   ("max_value", none_arg); ("result_format", SUMMARY)]);
            Expect "expect_column_median_to_be_between"
              (kw [("column", column_arg "a"); ("min_value", none_arg);
                   ("max_value", none_arg); ("result_format", SUMMARY)]);
            Expect "expect_column_median_to_be_between"
              (kw [("column", column_arg "a");
                   ("min_value", AVal (VNum ((101 # 2) - 1)));
                   ("max_value", AVal (VNum ((101 # 2) + 1)))]);
            Expect "expect_column_quantile_values_to_be_between"
              (kw [("column", column_arg "a");
                   ("quantile_ranges",
                    AQuantileRanges probe_quantiles probe_value_ranges);
                   ("result_format", SUMMARY); ("catch_exceptions", ABool true)]);
            SetConfigValue "interactive_evaluation" false;
            nan_quantile_check;
            SetConfigValue "interactive_evaluation" true ];
        column_cache := ∅ |})
  /\ nan_quantile_check
       ∈ emitted (_profile nan_quantile_table NoConfiguration) initial_state
  /\ observed_values (quantile_result nan_quantile_table "a") !! 4%nat = Some VNaN
  /\ in_range VNaN VNaN VNaN = false.
Proof.
  split; [ vm_compute; reflexivity | ].
  split; [ | split; reflexivity ].
  apply list_elem_of_lookup. exists 23%nat. vm_compute. reflexivity.
Qed.

Lemma succeeds_ret {A} (a : A) : succeeds (ret a).
Proof. intros s. eexists _, _. reflexivity. Qed.

Lemma succeeds_emit e : succeeds (emit e).
Proof. intros s. eexists _, _. reflexivity. Qed.

Lemma succeeds_bind {A B} (m : M A) (k : A -> M B) :
  succeeds m -> (forall a, succeeds (k a)) -> succeeds (bind m k).
Proof.
  intros Hm Hk s. destruct (Hm s) as (a & s' & E).
  rewrite (bind_inr _ _ _ _ _ E). apply Hk.
Qed.

Lemma between_observed_succeeds t column observed :
  is_float observed -> succeeds (between_observed t column observed).
Proof.
  intros H s. destruct observed; cbn in H; try contradiction;
    eexists _, _; reflexivity.
Qed.

Lemma loose_value_ranges_returns values :
  Forall is_float values -> exists ranges, loose_value_ranges values = inr ranges.
Proof.
  induction 1 as [| v values Hv _ [ranges IH]]; cbn.
  - eexists. reflexivity.
  - destruct v; cbn in Hv; try contradiction; cbn; rewrite IH; eexists; reflexivity.
Qed.

(** X8: a numeric column whose four aggregates are numbers or [nan], and
    whose quantile values are too, is profiled without an exception. *)
Lemma numeric_column_succeeds dataset column :
  is_float (observed_min dataset column) ->
  is_float (observed_max dataset column) ->
  is_float (observed_mean dataset column) ->
  is_float (observed_median dataset column) ->
  Forall is_float (observed_values (quantile_result dataset column)) ->
  succeeds (_create_expectations_for_numeric_column dataset column).
Proof.
  intros Hmin Hmax Hmean Hmedian Hq.
  unfold _create_expectations_for_numeric_column.
  apply succeeds_bind.
  { unfold _create_non_nullity_expectations.
    apply succeeds_bind; [ apply succeeds_emit | ]. intros _.
    destruct (negb _); [ apply succeeds_emit | apply succeeds_ret ]. }
  intros _.
  do 4 (apply succeeds_bind;
        [ apply between_observed_succeeds; assumption | intros _ ]).
  apply succeeds_bind; [ apply succeeds_emit | ]. intros _.
  destruct (quantile_exception _); [ apply succeeds_ret | ].
  apply succeeds_bind; [ apply succeeds_emit | ]. intros _.
  destruct (loose_value_ranges_returns _ Hq) as [ranges Hr].
  apply succeeds_bind.
  { intros s. eexists _, _. apply lift_inr, Hr. }
  intros value_ranges.
  apply succeeds_bind; [ apply succeeds_emit | ]. intros _.
  apply succeeds_emit.
Qed.

(** X7: what does hold of the ranges: every bounded check emitted for the min,
    max, mean and median of a numeric column has the bounds
    [observed - 1] and [observed + 1] and contains the observed value;
    every emitted quantile range is [[v - 1, v + 1]] around the observed
    quantile value [v] and contains [v] when [v] is a number (not [nan]).
    This holds of the calls [_create_expectations_for_numeric_column]
    makes, and so of all the calls the loop of [_profile] makes for a
    column. *)
Theorem numeric_column_ranges_are_loose dataset column s :
  Forall (λ e, aggregate_check_ok dataset column e
               /\ quantile_check_ok dataset column e)
         (emitted (_create_expectations_for_numeric_column dataset column) s)
  /\ Forall (λ e, aggregate_check_ok dataset column e
                  /\ quantile_check_ok dataset column e)
            (emitted (profile_column dataset column) s).
Proof.
  split.
  - apply emits_emitted, numeric_column_emits.
  - apply emits_emitted, profile_column_emits.
Qed.

(** ** The row-count expectation *)

(** Every call of [_build_table_row_count_expectation] is one of
    [expect_table_row_count_to_be_between] with the two bounds only. *)
Lemma row_count_expectation_emits dataset (P : Event -> Prop) tolerance :
  (forall lo hi,
      P (Expect "expect_table_row_count_to_be_between"
           (kw [("min_value", lo); ("max_value", hi)]))) ->
  emits P (_build_table_row_count_expectation dataset tolerance).
Proof.
  intros HP. unfold _build_table_row_count_expectation.
  destruct (negb _); [ apply emits_raise | ].
  apply emits_seq; [ apply emits_emit, HP | ].
  apply emits_bind; [ apply emits_lift | ]. intros lo _ _ _.
  apply emits_bind; [ apply emits_lift | ]. intros hi _ _ _.
  apply emits_seq; [ apply emits_emit, HP | apply emits_ret ].
Qed.





(** X5: a negative tolerance (any float below zero, minus infinity
    included) trips the assertion before any call is made on the dataset;
    the message speaks of a tolerance greater than zero. *)
Lemma build_table_row_count_expectation_assert dataset tolerance s :
  SFltb tolerance Binary64.zero = true ->
  _build_table_row_count_expectation dataset tolerance s
  = (inl (AssertionError "Tolerance must be greater than zero"), s).
Proof.
  intros H. unfold _build_table_row_count_expectation, Binary64.ge_zero.
  destruct tolerance as [[] | [] | | [] mantissa e];
    try discriminate H; reflexivity.
Qed.

(** ** The [columns] key *)

Lemma has_key_insert_other (d : gmap string cfgval) key other v :
  other <> key -> has_key (<[other := v]> d) key = has_key d key.
Proof. intros H. unfold has_key. rewrite lookup_insert_ne by exact H. reflexivity. Qed.

Lemma item_insert_other (d : gmap string cfgval) key other v :
  other <> key -> item (<[other := v]> d) key = item d key.
Proof. intros H. unfold item. rewrite lookup_insert_ne by exact H. reflexivity. Qed.

Lemma has_key_empty_map (d : gmap string cfgval) key :
  size d = 0%nat -> has_key d key = false.
Proof.
  intros H. apply map_size_empty_iff in H. subst d.
  apply has_key_false, lookup_empty.
Qed.

(** X25: [_profile] never reads the [columns] key: adding it to a
    configuration dict changes nothing, neither the calls made nor the
    outcome. *)
Lemma profile_ignores_columns_key dataset (d : gmap string cfgval) v s :
  _profile dataset (Mapping (<["columns" := v]> d)) s
  = _profile dataset (Mapping d) s.
Proof.
  unfold _profile.
  rewrite (configuration_truthy_has_key (<["columns" := v]> d) "columns")
    by (rewrite lookup_insert_eq; eauto).
  assert (read_expectation_keys dataset (<["columns" := v]> d)
          = read_expectation_keys dataset d) as ->.
  { unfold read_expectation_keys.
    rewrite !has_key_insert_other, !item_insert_other by discriminate.
    reflexivity. }
  assert (read_column_keys (<["columns" := v]> d) (get_table_columns dataset)
          = read_column_keys d (get_table_columns dataset)) as ->.
  { unfold read_column_keys.
    rewrite !has_key_insert_other, !item_insert_other by discriminate.
    reflexivity. }
  destruct (configuration_truthy (Mapping d)) eqn:Ht; [ reflexivity | ].
  cbn in Ht. apply negb_false_iff, bool_decide_eq_true in Ht.
  unfold read_expectation_keys, read_column_keys.
  rewrite !(has_key_empty_map d) by exact Ht. reflexivity.
Qed.

(** C7 at a failing input: on a table with the columns [a] and [b], the
    configuration [{"columns": ["a"]}] still has expectations created on
    [b], as many as with no configuration at all. *)
Theorem profile_columns_key_not_applied :
  let d : gmap string cfgval := {[ "columns" := CList ["a"] ]} in
  "b" ∈ omap event_column
          (emitted (_profile sample_table (Mapping d)) initial_state)
  /\ _profile sample_table (Mapping d) initial_state
     = _profile sample_table NoConfiguration initial_state.
Proof.
  cbn zeta. split.
  - apply list_elem_of_lookup. exists 12%nat. vm_compute. reflexivity.
  - vm_compute. reflexivity.
Qed.

(** By contrast [included_columns] does restrict the columns profiled. *)
Example profile_included_columns_applied :
  let d : gmap string cfgval := {[ "included_columns" := CList ["a"] ]} in
  remove_dups (omap event_column
                 (emitted (_profile sample_table (Mapping d)) initial_state))
  = ["a"].
Proof. vm_compute. reflexivity. Qed.

End ProfilerFacts.

(** * Further properties of the Databricks generator *)

Module DatabricksBehaviour.
Import Py Databricks.

Lemma prefix_append s t : String.prefix s (s +:+ t) = true.
Proof.
  induction s as [| c s IH]; simpl.
  - destruct t; reflexivity.
  - destruct (Ascii.ascii_dec c c) as [_ | Hne]; [ exact IH | congruence ].
Qed.

Lemma prefix_refl s : String.prefix s s = true.
Proof.
  induction s as [| c s IH]; simpl; [ reflexivity | ].
  destruct (Ascii.ascii_dec c c) as [_ | Hne]; [ exact IH | congruence ].
Qed.

(** X1: [_get_iterator] raises exactly when [partition] is truthy and
    [date_field] is missing or falsy, and what it raises is the generic
    [Exception] about [date_field]; a [date_field] on its own is ignored. *)
Theorem get_iterator_raises_iff self generator_asset (kwargs : gmap string pyval) :
  ((exists e, _get_iterator self generator_asset kwargs = inl e)
   <-> truthy (dict_get kwargs "partition") = true
       /\ truthy (dict_get kwargs "date_field") = false)
  /\ (forall e, _get_iterator self generator_asset kwargs = inl e ->
        e = Exception "Must specify date_field when using partition.").
Proof.
  unfold _get_iterator.
  destruct (truthy (dict_get kwargs "partition"));
    destruct (truthy (dict_get kwargs "date_field")); cbn [negb];
    (split; [ split | ]).
  all: try (intros [e He]; discriminate).
  all: try (intros [H1 H2]; discriminate).
  all: try (intros e He; congruence).
  - intros _. split; reflexivity.
  - intros _. eexists. reflexivity.
Qed.

(** X2: whenever [_get_iterator] returns, the iterator holds exactly one
    dict, whose only key is ["query"], and the query starts with
    [select * from <database>.<asset>]. *)
Theorem get_iterator_single_query self generator_asset (kwargs : gmap string pyval) l :
  _get_iterator self generator_asset kwargs = inr l ->
  exists query,
    l = [ {[ "query" := query ]} ]
    /\ String.prefix ("select * from " +:+ database self +:+ "." +:+ generator_asset)
                     query = true.
Proof.
  unfold _get_iterator.
  destruct (truthy (dict_get kwargs "partition"));
    [ destruct (negb _); [ discriminate | ] | ];
    intros H; injection H as <-; eexists; (split; [ reflexivity | ]).
  - apply prefix_append.
  - apply prefix_refl.
Qed.

Lemma get_iterator_single_query_witness :
  let self := {| name := "default"; database := "db"; spark := None |} in
  let kwargs : gmap string pyval :=
    {[ "date_field" := PStr "day"; "partition" := PStr "2020-01-01" ]} in
  exists query,
    _get_iterator self "events" kwargs
    = inr [ ({[ "query" := query ]} : gmap string string) ]
    /\ String.prefix "select * from db.events" query = true.
Proof.
  cbn zeta.
  edestruct (get_iterator_single_query
               {| name := "default"; database := "db"; spark := None |} "events"
               {[ "date_field" := PStr "day"; "partition" := PStr "2020-01-01" ]})
    as (query & Hl & Hprefix); [ vm_compute; reflexivity | ].
  exists query. split; [ | exact Hprefix ].
  rewrite <- Hl. vm_compute. reflexivity.
Defined.

(** X3: [get_available_data_asset_names] raises exactly when there is a
    session and its [show tables in <database>] query raises, and then
    with the exception of the query; when it returns, the dict has the
    single key ["names"] and every pair in it is tagged ["table"]. *)
Theorem get_available_data_asset_names_raises_iff self :
  (forall e,
      snd (get_available_data_asset_names self) = inl e
      <-> (exists session,
             spark self = Some session
             /\ sql_collect session ("show tables in " +:+ database self) = inl e))
  /\ (forall d,
        snd (get_available_data_asset_names self) = inr d ->
        exists names, d = {[ "names" := names ]}
                      /\ Forall (λ pair, pair.2 = "table") names).
Proof.
  unfold get_available_data_asset_names.
  destruct (spark self) as [session |]; [ | split ].
  - destruct (sql_collect session _) as [e' | tables] eqn:Hq; split.
    + intros e. split.
      * intros [= <-]. exists session. split; [ reflexivity | exact Hq ].
      * intros (session' & [= <-] & He). cbn. congruence.
    + intros d. discriminate.
    + intros e. split; [ discriminate | ].
      intros (session' & [= <-] & He). congruence.
    + intros d [= <-]. eexists. split; [ reflexivity | ].
      apply Forall_fmap, Forall_true. reflexivity.
  - intros e. split; [ discriminate | ].
    intros (session & Hs & _). discriminate.
  - intros d [= <-]. exists []. split; [ reflexivity | constructor ].
Qed.

End DatabricksBehaviour.

(** * Further properties of the suite-builder profiler *)

Module ProfilerBehaviour.
Import Py Profiler ProfilerFacts.
Local Open Scope py_scope.

(** ** Rules for [hoare] *)

Lemma hoare_ret {A} (pre : State -> Prop) (a : A) each (post : result A -> State -> Prop) :
  (forall s, pre s -> post (inr a) s) -> hoare pre (ret a) each post.
Proof. intros H s Hs. exists []. cbn. rewrite app_nil_r. auto. Qed.

Lemma hoare_raise {A} (pre : State -> Prop) e each (post : result A -> State -> Prop) :
  (forall s, pre s -> post (inl e) s) -> hoare pre (raise e) each post.
Proof. intros H s Hs. exists []. cbn. rewrite app_nil_r. auto. Qed.

Lemma hoare_lift {A} (pre : State -> Prop) (r : result A) each
  (post : result A -> State -> Prop) :
  (forall s, pre s -> post r s) -> hoare pre (lift r) each post.
Proof. intros H s Hs. exists []. cbn. rewrite app_nil_r. auto. Qed.

Lemma hoare_emit (pre : State -> Prop) e (each : Event -> Prop)
  (post : result unit -> State -> Prop) :
  each e ->
  (forall s, pre s ->
     post (inr tt) {| events := events s ++ [e]; column_cache := column_cache s |}) ->
  hoare pre (emit e) each post.
Proof. intros He H s Hs. exists [e]. cbn. auto. Qed.

Lemma hoare_bind {A B} (pre : State -> Prop) (m : M A) (k : A -> M B) each
  (mid : result A -> State -> Prop) (post : result B -> State -> Prop) :
  hoare pre m each mid ->
  (forall e s, mid (inl e) s -> post (inl e) s) ->
  (forall a, hoare (mid (inr a)) (k a) each post) ->
  hoare pre (bind m k) each post.
Proof.
  intros Hm Hraise Hk s Hs. destruct (Hm s Hs) as (new & E & Hnew & Hmid).
  unfold bind. destruct (m s) as [[e | a] s1]; cbn in E, Hmid |- *.
  - exists new. auto.
  - destruct (Hk a s1 Hmid) as (new' & E' & Hnew' & Hpost).
    exists (new ++ new'). rewrite E', E, app_assoc.
    split; [ reflexivity | ]. split; [ apply Forall_app; auto | exact Hpost ].
Qed.

Lemma hoare_weaken {A} (pre pre' : State -> Prop) (m : M A)
  (each each' : Event -> Prop) (post post' : result A -> State -> Prop) :
  hoare pre m each post ->
  (forall s, pre' s -> pre s) ->
  (forall e, each e -> each' e) ->
  (forall r s, post r s -> post' r s) ->
  hoare pre' m each' post'.
Proof.
  intros H Hpre Heach Hpost s Hs.
  destruct (H s (Hpre s Hs)) as (new & E & Hnew & Hp).
  exists new. split; [ exact E | ]. split; [ | auto ].
  eapply Forall_impl; eauto.
Qed.

(** [emits] is [hoare] with nothing asked before or after. *)
Lemma emits_hoare {A} (m : M A) each :
  emits each m <-> hoare (λ _, True) m each (λ _ _, True).
Proof.
  split.
  - intros H s _. destruct (H s) as (new & E & Hnew). exists new. auto.
  - intros H s. destruct (H s I) as (new & E & Hnew & _). exists new. auto.
Qed.

Lemma emits_mono {A} (m : M A) (P Q : Event -> Prop) :
  emits P m -> (forall e, P e -> Q e) -> emits Q m.
Proof.
  intros H HPQ s. destruct (H s) as (new & E & Hnew).
  exists new. split; [ exact E | ]. eapply Forall_impl; eauto.
Qed.

Lemma emits_for_each {A} P (l : list A) (body : A -> M unit) :
  (forall x, x ∈ l -> emits P (body x)) -> emits P (for_each l body).
Proof.
  induction l as [| x l IH]; intros H; cbn.
  - apply emits_ret.
  - apply emits_seq.
    + apply H. left.
    + apply IH. intros y Hy. apply H. right. exact Hy.
Qed.

Lemma emits_except P (m : M unit) : emits P m -> emits P (except_ValueError_pass m).
Proof.
  intros H s. destruct (H s) as (new & E & Hnew). exists new.
  split; [ | exact Hnew ]. unfold except_ValueError_pass.
  destruct (m s) as [[[] | []] s']; exact E.
Qed.

Lemma emits_remove dataset P t c k b :
  P (RemoveExpectation t c k b) -> emits P (remove_expectation dataset t c k b).
Proof.
  intros H s. eexists [_]. unfold remove_expectation.
  destruct (remove_expectation_raises _ _ _); cbn;
    (split; [ reflexivity | repeat constructor; exact H ]).
Qed.

Lemma emits_state_read {A} P (f : State -> A) : emits P (λ s, (inr (f s), s)).
Proof. intros s. exists []. cbn. rewrite app_nil_r. auto. Qed.

Lemma emits_set_cache_any P c : emits P (set_cache c).
Proof. intros s. exists []. cbn. rewrite app_nil_r. auto. Qed.

(** ** The row-count expectation *)

Lemma build_table_row_count_expectation_assert_witness :
  _build_table_row_count_expectation sample_table
    (S754_finite true 7205759403792794 (-56)) initial_state
  = (inl (AssertionError "Tolerance must be greater than zero"), initial_state).
Proof.
  apply build_table_row_count_expectation_assert. reflexivity.
Defined.

Lemma int_of_product_raises n x e :
  Binary64.int_of_product n x = inl e -> e = OverflowError \/ e = ValueError.
Proof.
  unfold Binary64.int_of_product, Binary64.of_int, Binary64.to_int.
  destruct (binary_normalize _ _ _ _ _) as [? | ? | | ? ? ?];
    try (intros [= <-]; auto);
    destruct (Binary64.mul _ _) as [? | ? | | ? ? ?];
    intros [= <-]; auto.
Qed.

(** X4: what [_build_table_row_count_expectation] does for any float
    tolerance that passes the assertion and any row count [n]. It first
    makes the probe call (min 0, max [None]). Then either both products
    [int(n * (1 - tolerance))] and [int(n * (1 + tolerance))] are
    computed, and it makes one more call, with the bounds
    [max(0, int(n * (1 - tolerance)))], which is not negative, and
    [int(n * (1 + tolerance))], and returns the dataset; or a product
    raises [OverflowError] or [ValueError] (it is not a finite float) and
    the probe stays the only call. The column cache is left alone. *)
Theorem row_count_expectation_outcomes dataset tolerance s :
  Binary64.ge_zero tolerance = true ->
  let n := observed_row_count dataset in
  let probe :=
    Expect "expect_table_row_count_to_be_between"
      (kw [("min_value", AInt 0); ("max_value", none_arg)]) in
  let run := _build_table_row_count_expectation dataset tolerance in
  column_cache (snd (run s)) = column_cache s
  /\ ((exists lo hi,
         Binary64.int_of_product n (Binary64.sub Binary64.one tolerance) = inr lo
         /\ Binary64.int_of_product n (Binary64.add Binary64.one tolerance) = inr hi
         /\ fst (run s) = inr dataset
         /\ emitted run s
            = [ probe;
                Expect "expect_table_row_count_to_be_between"
                  (kw [("min_value", AInt (Z.max 0 lo)); ("max_value", AInt hi)]) ]
         /\ 0 <= Z.max 0 lo)
      \/ (exists e, (e = OverflowError \/ e = ValueError)
                    /\ fst (run s) = inl e /\ emitted run s = [probe])).
Proof.
  intros Hge n probe run. subst run n.
  unfold emitted, _build_table_row_count_expectation. rewrite Hge. cbn [negb].
  destruct (Binary64.int_of_product _ (Binary64.sub _ _)) as [e | lo] eqn:Hlo.
  { unfold bind, expect, emit, lift. cbn [fst snd events column_cache].
    split; [ reflexivity | ]. right. exists e.
    split; [ eapply int_of_product_raises, Hlo | ].
    split; [ reflexivity | apply drop_app_length ]. }
  destruct (Binary64.int_of_product _ (Binary64.add _ _)) as [e | hi] eqn:Hhi.
  { unfold bind, expect, emit, lift, ret. cbn [fst snd events column_cache].
    split; [ reflexivity | ]. right. exists e.
    split; [ eapply int_of_product_raises, Hhi | ].
    split; [ reflexivity | apply drop_app_length ]. }
  unfold bind, expect, emit, lift, ret. cbn [fst snd events column_cache].
  split; [ reflexivity | ]. left. exists lo, hi.
  split; [ reflexivity | ]. split; [ reflexivity | ]. split; [ reflexivity | ].
  split; [ | lia ].
  rewrite <- app_assoc. apply drop_app_length.
Qed.

Lemma row_count_expectation_outcomes_witness :
  let half := S754_finite false 4503599627370496 (-53) in
  emitted (_build_table_row_count_expectation sample_table half) initial_state
  = [ Expect "expect_table_row_count_to_be_between"
        (kw [("min_value", AInt 0); ("max_value", none_arg)]);
      Expect "expect_table_row_count_to_be_between"
        (kw [("min_value", AInt 50); ("max_value", AInt 150)]) ].
Proof.
  cbv zeta.
  destruct (row_count_expectation_outcomes sample_table
              (S754_finite false 4503599627370496 (-53)) initial_state)
    as [_ [(lo & hi & Hlo & Hhi & _ & Hemitted & _) | (e & _ & Hraise & _)]].
  - reflexivity.
  - vm_compute in Hlo, Hhi. injection Hlo as <-. injection Hhi as <-.
    exact Hemitted.
  - vm_compute in Hraise. discriminate Hraise.
Defined.

(** ** The relaxed not-null expectation *)

(** X6: when the plain not-null check fails and the unexpected percentage
    is between 0 and 100, [_create_non_nullity_expectations] makes a second
    call whose [mostly] is between 0.001 and 0.9; as long as at least
    0.1 percent of the values are not null, [mostly] does not exceed the
    observed fraction of non-null values, so the relaxed expectation holds
    of the data it was built from. *)
Theorem non_nullity_mostly_bounds dataset column s :
  not_null_success dataset column = false ->
  (0 <= unexpected_percent dataset column <= 100)%Q ->
  exists mostly,
    emitted (_create_non_nullity_expectations dataset column) s
    = [ Expect "expect_column_values_to_not_be_null" (kw [("column", column_arg column)]);
        Expect "expect_column_values_to_not_be_null"
          (kw [("column", column_arg column); ("mostly", AVal (VNum mostly))]) ]
    /\ (1 # 1000 <= mostly <= 9 # 10)%Q
    /\ ((unexpected_percent dataset column <= 999 # 10)%Q ->
        (mostly <= (100 - unexpected_percent dataset column) / 100)%Q).
Proof.
  intros Hfail [Hlo Hhi].
  eexists. split; [ | split ].
  - unfold emitted, _create_non_nullity_expectations. rewrite Hfail. cbn [negb].
    unfold bind, expect, emit. cbn [snd events].
    rewrite <- app_assoc, drop_app_length. reflexivity.
  - unfold py_max. destruct (Qle_bool _ _) eqn:E.
    + split; [ apply Qle_refl | unfold Qle; cbn; lia ].
    + assert (~ ((100 - unexpected_percent dataset column - 10) / 100 <= 1 # 1000)%Q)
        as Hgt by (rewrite <- Qle_bool_iff, E; discriminate).
      apply Qnot_le_lt in Hgt. split; [ apply Qlt_le_weak, Hgt | ].
      unfold Qdiv. change (/ 100)%Q with (1 # 100). lra.
  - intros Hnn. unfold py_max, Qdiv. change (/ 100)%Q with (1 # 100).
    destruct (Qle_bool _ _); lra.
Qed.

Lemma non_nullity_mostly_bounds_witness :
  let dataset :=
    custom_table ["a"] (λ _, UNIQUE) (λ _, INT) (λ _, VNum 1) (λ _, VNum 9)
                 false 25 {| expectations := []; meta := ∅ |} false
                 (λ _, inl ValueError) in
  exists mostly,
    emitted (_create_non_nullity_expectations dataset "a") initial_state
    = [ Expect "expect_column_values_to_not_be_null" (kw [("column", column_arg "a")]);
        Expect "expect_column_values_to_not_be_null"
          (kw [("column", column_arg "a"); ("mostly", AVal (VNum mostly))]) ]
    /\ (1 # 1000 <= mostly <= 9 # 10)%Q
    /\ ((25 <= 999 # 10)%Q -> (mostly <= (100 - 25) / 100)%Q).
Proof.
  cbn zeta.
  apply (non_nullity_mostly_bounds
           (custom_table ["a"] (λ _, UNIQUE) (λ _, INT) (λ _, VNum 1) (λ _, VNum 9)
                         false 25 {| expectations := []; meta := ∅ |} false
                         (λ _, inl ValueError)) "a" initial_state).
  - reflexivity.
  - cbn. split; unfold Qle; cbn; lia.
Defined.

(** ** Numeric columns: when the checks are made and when they raise *)

Lemma numeric_column_succeeds_witness :
  succeeds (_create_expectations_for_numeric_column sample_table "a").
Proof.
  apply numeric_column_succeeds; cbn; try exact I.
  repeat constructor.
Defined.

Lemma non_nullity_succeeds dataset column :
  succeeds (_create_non_nullity_expectations dataset column).
Proof.
  unfold _create_non_nullity_expectations.
  apply succeeds_bind; [ apply succeeds_emit | ]. intros _.
  destruct (negb _); [ apply succeeds_emit | apply succeeds_ret ].
Qed.

(** [between_observed] returns on a float and raises [TypeError] on
    anything else. *)
Lemma between_observed_cases t column observed s :
  (is_float observed
   /\ exists s', between_observed t column observed s = (inr tt, s'))
  \/ (~ is_float observed
      /\ exists s', between_observed t column observed s = (inl TypeError, s')).
Proof.
  destruct observed; cbn; first [ left; split; [ exact I | eexists; reflexivity ]
                                | right; split; [ tauto | eexists; reflexivity ] ].
Qed.

(** X9: if the observed min, max, mean or median of the column is not a
    float ([None], a string, a datetime), [_is_nan] answers [False] and
    the subtraction raises: [_create_expectations_for_numeric_column] ends
    in [TypeError]. *)
Theorem numeric_column_non_float_aggregate dataset column s :
  ~ is_float (observed_min dataset column)
  \/ ~ is_float (observed_max dataset column)
  \/ ~ is_float (observed_mean dataset column)
  \/ ~ is_float (observed_median dataset column) ->
  fst (_create_expectations_for_numeric_column dataset column s) = inl TypeError.
Proof.
  intros H. unfold _create_expectations_for_numeric_column.
  destruct (non_nullity_succeeds dataset column s) as ([] & s0 & E0).
  rewrite (bind_inr _ _ _ _ _ E0).
  destruct (between_observed_cases "expect_column_min_to_be_between" column
              (observed_min dataset column) s0) as [[F1 (s1 & E1)] | [_ (s1 & E1)]];
    [ rewrite (bind_inr _ _ _ _ _ E1) | rewrite (bind_inl _ _ _ _ _ E1); reflexivity ].
  destruct (between_observed_cases "expect_column_max_to_be_between" column
              (observed_max dataset column) s1) as [[F2 (s2 & E2)] | [_ (s2 & E2)]];
    [ rewrite (bind_inr _ _ _ _ _ E2) | rewrite (bind_inl _ _ _ _ _ E2); reflexivity ].
  destruct (between_observed_cases "expect_column_mean_to_be_between" column
              (observed_mean dataset column) s2) as [[F3 (s3 & E3)] | [_ (s3 & E3)]];
    [ rewrite (bind_inr _ _ _ _ _ E3) | rewrite (bind_inl _ _ _ _ _ E3); reflexivity ].
  destruct (between_observed_cases "expect_column_median_to_be_between" column
              (observed_median dataset column) s3) as [[F4 (s4 & E4)] | [_ (s4 & E4)]];
    [ | rewrite (bind_inl _ _ _ _ _ E4); reflexivity ].
  tauto.
Qed.

Lemma numeric_column_non_float_aggregate_witness :
  let dataset :=
    custom_table ["a"] (λ _, UNIQUE) (λ _, INT) (λ _, VNone) (λ _, VNum 9)
                 true 0 {| expectations := []; meta := ∅ |} false
                 (λ _, inl ValueError) in
  fst (_create_expectations_for_numeric_column dataset "a" initial_state)
  = inl TypeError.
Proof.
  cbn zeta. apply numeric_column_non_float_aggregate. left. cbn. tauto.
Defined.

(** ** The column cache *)

Lemma cache_insert_consistent dataset (cache : gmap string CacheEntry) ev column e :
  (forall c e', cache !! c = Some e' -> entry_consistent dataset c e') ->
  entry_consistent dataset column e ->
  cache_consistent dataset
    {| events := ev; column_cache := <[column := e]> cache |}.
Proof.
  intros H He c e'. cbn. destruct (decide (column = c)) as [<- | Hne].
  - rewrite lookup_insert_eq. intros [= <-]. exact He.
  - rewrite lookup_insert_ne by exact Hne. apply H.
Qed.

Lemma cache_insert_twice dataset (cache : gmap string CacheEntry) ev column e0 e :
  (forall c e', cache !! c = Some e' -> entry_consistent dataset c e') ->
  entry_consistent dataset column e ->
  cache_consistent dataset
    {| events := ev; column_cache := <[column := e]> (<[column := e0]> cache) |}.
Proof.
  intros H He. rewrite insert_insert_eq. apply cache_insert_consistent; assumption.
Qed.

Ltac events_split :=
  cbn [events snd fst column_cache];
  rewrite <- ?app_assoc; cbn [app];
  first [ rewrite <- (app_nil_r (events _)) at 1; reflexivity | reflexivity ].

Lemma keeps_cache_type dataset column (each : Event -> Prop) :
  (forall e, ~ is_Expect e -> each e) ->
  keeps_cache dataset each (_get_column_type_with_caching dataset column)
              (λ t, t = _get_column_type dataset column).
Proof.
  intros Heach s Hs. unfold _get_column_type_with_caching.
  unfold bind, get_cache, set_cache, ret, emit, set_config_value, remove_expectation.
  cbn.
  pose proof (Hs column) as Hcol.
  destruct (column_cache s !! column) as [[[t |] [k |]] |] eqn:Hfound; cbn.
  1, 2: exists []; rewrite app_nil_r;
        (split; [ reflexivity | split; [ constructor | split; [ exact Hs | ] ] ]);
        intros a [= <-]; apply (Hcol _ eq_refl); reflexivity.
  all: destruct (remove_expectation_raises _ _ _); cbn;
       eexists; (split; [ events_split | ]);
       (split; [ repeat constructor; apply Heach; cbn; tauto | ]);
       (split; [ | intros a Ha; congruence ]).
  all: first [ apply cache_insert_twice | apply cache_insert_consistent ];
       try exact Hs; split; cbn; intros x Hx; try discriminate;
       try (injection Hx as <-; reflexivity).
  all: apply (Hcol _ eq_refl); exact Hx.
Qed.

Lemma keeps_cache_cardinality dataset column (each : Event -> Prop) :
  (forall e, ~ is_Expect e -> each e) ->
  keeps_cache dataset each (_get_column_cardinality_with_caching dataset column)
              (λ k, k = _get_column_cardinality dataset column).
Proof.
  intros Heach s Hs. unfold _get_column_cardinality_with_caching.
  unfold bind, get_cache, set_cache, ret, emit, set_config_value, remove_expectation.
  cbn.
  pose proof (Hs column) as Hcol.
  destruct (column_cache s !! column) as [[[t |] [k |]] |] eqn:Hfound; cbn.
  1, 3: exists []; rewrite app_nil_r;
        (split; [ reflexivity | split; [ constructor | split; [ exact Hs | ] ] ]);
        intros a [= <-]; apply (Hcol _ eq_refl); reflexivity.
  all: repeat (destruct (remove_expectation_raises _ _ _); cbn);
       eexists; (split; [ events_split | ]);
       (split; [ repeat constructor; apply Heach; cbn; tauto | ]);
       (split; [ | intros a Ha; congruence ]).
  all: first [ apply cache_insert_twice | apply cache_insert_consistent ];
       try exact Hs; split; cbn; intros x Hx; try discriminate;
       try (injection Hx as <-; reflexivity).
  all: apply (Hcol _ eq_refl); exact Hx.
Qed.

Lemma type_second_call dataset column s :
  let s1 := snd (_get_column_type_with_caching dataset column s) in
  exists t,
    _get_column_type_with_caching dataset column s1 = (inr t, s1)
    /\ (forall r, fst (_get_column_type_with_caching dataset column s) = inr r -> r = t).
Proof.
  cbn zeta. unfold _get_column_type_with_caching.
  unfold bind, get_cache, set_cache, ret, emit, set_config_value, remove_expectation.
  cbn.
  destruct (column_cache s !! column) as [[[t |] [k |]] |] eqn:Hfound; cbn.
  1, 2: rewrite Hfound; cbn; eexists; split; [ reflexivity | congruence ].
  all: destruct (remove_expectation_raises _ _ _); cbn;
       rewrite ?insert_insert_eq, lookup_insert_eq; cbn;
       eexists; (split; [ reflexivity | congruence ]).
Qed.

Lemma cardinality_second_call dataset column s :
  let s1 := snd (_get_column_cardinality_with_caching dataset column s) in
  exists k,
    _get_column_cardinality_with_caching dataset column s1 = (inr k, s1)
    /\ (forall r, fst (_get_column_cardinality_with_caching dataset column s) = inr r ->
                  r = k).
Proof.
  cbn zeta. unfold _get_column_cardinality_with_caching.
  unfold bind, get_cache, set_cache, ret, emit, set_config_value, remove_expectation.
  cbn.
  destruct (column_cache s !! column) as [[[t |] [k |]] |] eqn:Hfound; cbn.
  1, 3: rewrite Hfound; cbn; eexists; split; [ reflexivity | congruence ].
  all: repeat (destruct (remove_expectation_raises _ _ _); cbn);
       rewrite ?insert_insert_eq, lookup_insert_eq; cbn;
       eexists; (split; [ reflexivity | congruence ]).
Qed.

(** ** Rules for [keeps_cache] *)

Lemma keeps_cache_ret dataset {A} each (a : A) (Q : A -> Prop) :
  Q a -> keeps_cache dataset each (ret a) Q.
Proof.
  intros H. apply hoare_ret. intros s Hs. split; [ exact Hs | ].
  intros a' [= <-]. exact H.
Qed.

Lemma keeps_cache_raise dataset {A} each e (Q : A -> Prop) :
  keeps_cache dataset each (raise e) Q.
Proof. apply hoare_raise. intros s Hs. split; [ exact Hs | discriminate ]. Qed.

Lemma keeps_cache_lift dataset {A} each (r : result A) (Q : A -> Prop) :
  (forall a, r = inr a -> Q a) -> keeps_cache dataset each (lift r) Q.
Proof. intros H. apply hoare_lift. intros s Hs. split; [ exact Hs | exact H ]. Qed.

Lemma keeps_cache_emit dataset (each : Event -> Prop) e (Q : unit -> Prop) :
  each e -> Q tt -> keeps_cache dataset each (emit e) Q.
Proof.
  intros He HQ. apply hoare_emit; [ exact He | ].
  intros s Hs. split; [ exact Hs | ]. intros [] _. exact HQ.
Qed.

Lemma keeps_cache_remove dataset (each : Event -> Prop) t c k b (Q : unit -> Prop) :
  each (RemoveExpectation t c k b) -> Q tt ->
  keeps_cache dataset each (remove_expectation dataset t c k b) Q.
Proof.
  intros He HQ s Hs. eexists [_]. unfold remove_expectation.
  destruct (remove_expectation_raises _ _ _); cbn;
    (split; [ reflexivity | split; [ repeat constructor; exact He | ] ]);
    (split; [ exact Hs | ]); intros [] _; exact HQ.
Qed.

Lemma keeps_cache_bind dataset {A B} each (m : M A) (k : A -> M B)
  (Q1 : A -> Prop) (Q2 : B -> Prop) :
  keeps_cache dataset each m Q1 ->
  (forall a, Q1 a -> keeps_cache dataset each (k a) Q2) ->
  keeps_cache dataset each (bind m k) Q2.
Proof.
  intros Hm Hk. eapply hoare_bind; [ exact Hm | | ].
  - intros e s [Hs _]. split; [ exact Hs | discriminate ].
  - intros a s [Hs Ha]. apply (Hk a (Ha a eq_refl) s Hs).
Qed.

Lemma keeps_cache_weaken dataset {A} (each each' : Event -> Prop) (m : M A)
  (Q Q' : A -> Prop) :
  keeps_cache dataset each m Q ->
  (forall e, each e -> each' e) -> (forall a, Q a -> Q' a) ->
  keeps_cache dataset each' m Q'.
Proof.
  intros H He HQ. eapply hoare_weaken; [ exact H | auto | exact He | ].
  intros r s [Hs Hr]. split; [ exact Hs | ]. intros a Ha. apply HQ, Hr, Ha.
Qed.

Lemma keeps_cache_for_each dataset {A} each (l : list A) (body : A -> M unit) :
  (forall x, x ∈ l -> keeps_cache dataset each (body x) (λ _, True)) ->
  keeps_cache dataset each (for_each l body) (λ _, True).
Proof.
  induction l as [| x l IH]; intros H; cbn.
  - apply keeps_cache_ret. exact I.
  - eapply keeps_cache_bind; [ apply H; left | ].
    intros _ _. apply IH. intros y Hy. apply H. right. exact Hy.
Qed.

Lemma keeps_cache_except dataset each (m : M unit) :
  keeps_cache dataset each m (λ _, True) ->
  keeps_cache dataset each (except_ValueError_pass m) (λ _, True).
Proof.
  intros H s Hs. destruct (H s Hs) as (new & E & Hnew & Hc & _). exists new.
  unfold except_ValueError_pass.
  destruct (m s) as [[[] | []] s']; cbn in *; auto.
Qed.

(** ** Choosing the next column of a kind *)

Lemma find_next_numeric_keeps dataset columns profiled_columns :
  keeps_cache dataset (λ e, ~ is_Expect e)
    (_find_next_numeric_column dataset columns profiled_columns)
    (λ r, r = List.find (numeric_candidate dataset (profiled_numeric profiled_columns))
                        columns).
Proof.
  induction columns as [| c columns IH]; cbn [_find_next_numeric_column List.find].
  - apply keeps_cache_ret. reflexivity.
  - unfold numeric_candidate at 1.
    destruct (py_in c (profiled_numeric profiled_columns)); cbn [negb andb];
      [ exact IH | ].
    destruct (looks_like_id c); cbn [negb andb]; [ exact IH | ].
    eapply keeps_cache_bind; [ apply keeps_cache_cardinality; auto | ].
    intros k ->.
    eapply keeps_cache_bind; [ apply keeps_cache_type; auto | ].
    intros t ->.
    destruct (_ && _); [ apply keeps_cache_ret; reflexivity | exact IH ].
Qed.

(** ** The expectation types of a column *)

Lemma keeps_cache_seq dataset {A B} each (m : M A) (k : M B) (Q : B -> Prop) :
  keeps_cache dataset each m (λ _, True) ->
  keeps_cache dataset each k Q ->
  keeps_cache dataset each (bind m (λ _, k)) Q.
Proof. intros Hm Hk. eapply keeps_cache_bind; [ exact Hm | intros _ _; exact Hk ]. Qed.

Lemma keeps_cache_any_result dataset {A} each (m : M A) (Q : A -> Prop) :
  keeps_cache dataset each m Q -> keeps_cache dataset each m (λ _, True).
Proof. intros H. eapply keeps_cache_weaken; [ exact H | auto | auto ]. Qed.

Ltac column_event_solve :=
  let H := fresh in
  intros ? ? H;
  first
    [ discriminate H
    | injection H as <- <-; split;
      [ reflexivity
      | repeat first [ apply list_elem_of_here | apply list_elem_of_further ] ] ].

Ltac kc :=
  repeat first
    [ apply keeps_cache_seq
    | apply keeps_cache_ret; exact I
    | apply keeps_cache_emit; [ column_event_solve | exact I ]
    | apply keeps_cache_remove; [ column_event_solve | exact I ]
    | apply keeps_cache_lift; intros; exact I ].

Section PerColumn.
Variable dataset : Dataset.
Variable column : string.

Lemma non_nullity_keeps allowed :
  not_null_type ∈ allowed ->
  keeps_cache dataset (column_event column allowed)
    (_create_non_nullity_expectations dataset column) (λ _, True).
Proof.
  intros H. unfold _create_non_nullity_expectations.
  apply keeps_cache_seq.
  - apply keeps_cache_emit; [ | exact I ].
    intros ? ? [= <- <-]. split; [ reflexivity | exact H ].
  - destruct (negb _); [ | apply keeps_cache_ret; exact I ].
    apply keeps_cache_emit; [ | exact I ].
    intros ? ? [= <- <-]. split; [ reflexivity | exact H ].
Qed.

Lemma string_column_keeps :
  keeps_cache dataset
    (column_event column [not_null_type; "expect_column_value_lengths_to_be_between"])
    (_create_expectations_for_string_column dataset column) (λ _, True).
Proof.
  unfold _create_expectations_for_string_column.
  apply keeps_cache_seq; [ apply non_nullity_keeps; left | ].
  kc.
Qed.

Lemma numeric_column_keeps :
  keeps_cache dataset (column_event column numeric_types)
    (_create_expectations_for_numeric_column dataset column) (λ _, True).
Proof.
  unfold _create_expectations_for_numeric_column, between_observed.
  apply keeps_cache_seq; [ apply non_nullity_keeps; left | ].
  do 4 (apply keeps_cache_seq;
        [ apply keeps_cache_seq; [ kc | ];
          destruct (negb _); [ | kc ];
          eapply keeps_cache_bind; [ apply keeps_cache_lift; intros; exact I | ];
          intros lo _;
          eapply keeps_cache_bind; [ apply keeps_cache_lift; intros; exact I | ];
          intros hi _; kc | ]).
  apply keeps_cache_seq; [ kc | ].
  destruct (quantile_exception _); [ kc | ].
  apply keeps_cache_seq; [ kc | ].
  eapply keeps_cache_bind; [ apply keeps_cache_lift; intros; exact I | ].
  intros ranges _. kc.
Qed.

Lemma datetime_column_keeps :
  keeps_cache dataset (column_event column datetime_types)
    (_create_expectations_for_datetime_column dataset column) (λ _, True).
Proof.
  unfold _create_expectations_for_datetime_column.
  apply keeps_cache_seq; [ apply non_nullity_keeps; left | ].
  apply keeps_cache_seq; [ kc | ].
  eapply keeps_cache_bind.
  { destruct (negb _); [ kc | apply keeps_cache_ret; exact I ]. }
  intros min_value _.
  apply keeps_cache_seq; [ kc | ].
  eapply keeps_cache_bind.
  { destruct (negb _); [ kc | apply keeps_cache_ret; exact I ]. }
  intros max_value _.
  destruct (_ || _); kc.
Qed.

Lemma low_card_column_keeps :
  keeps_cache dataset
    (column_event column
       (set_types ++
        if py_in (_get_column_cardinality dataset column) [TWO; VERY_FEW]
        then ["expect_column_kl_divergence_to_be_less_than"] else []))
    (_create_expectations_for_low_card_column dataset column) (λ _, True).
Proof.
  unfold _create_expectations_for_low_card_column.
  destruct (py_in (_get_column_cardinality dataset column) [TWO; VERY_FEW]) eqn:Hkl;
    cbn [app set_types].
  all: apply keeps_cache_seq; [ apply non_nullity_keeps; left | ].
  all: do 2 (apply keeps_cache_seq; [ kc | ]).
  all: eapply keeps_cache_bind;
    [ apply keeps_cache_cardinality; intros e He; intros ? ? ->; elim He; exact I | ].
  all: intros k ->; rewrite Hkl; kc.
Qed.

Lemma column_event_mono c (l l' : list string) e :
  (forall t, t ∈ l -> t ∈ l') -> column_event c l e -> column_event c l' e.
Proof. intros Hl H t kwargs He. destruct (H t kwargs He). auto. Qed.

Ltac decide_membership :=
  repeat match goal with
  | |- context [py_in ?x ?l] =>
      let b := eval vm_compute in (py_in x l) in
      change (py_in x l) with b
  | H : context [py_in ?x ?l] |- _ =>
      let b := eval vm_compute in (py_in x l) in
      change (py_in x l) with b in H
  end.

Lemma profile_column_keeps :
  keeps_cache dataset
    (column_event column
       (expectation_types_for (_get_column_cardinality dataset column)
                              (_get_column_type dataset column)))
    (profile_column dataset column) (λ _, True).
Proof.
  unfold profile_column.
  eapply keeps_cache_bind;
    [ apply keeps_cache_cardinality; intros e He; intros ? ? ->; elim He; exact I | ].
  intros k ->.
  eapply keeps_cache_bind;
    [ apply keeps_cache_type; intros e He; intros ? ? ->; elim He; exact I | ].
  intros t ->.
  pose proof low_card_column_keeps as Hlow.
  destruct (_get_column_cardinality dataset column);
    destruct (_get_column_type dataset column);
    decide_membership; cbn [expectation_types_for].
  all: first
    [ exact Hlow
    | apply keeps_cache_ret; exact I
    | apply keeps_cache_seq;
      [ kc
      | first
          [ apply keeps_cache_ret; exact I
          | eapply keeps_cache_weaken;
            [ first [ apply numeric_column_keeps | apply datetime_column_keeps
                    | apply string_column_keeps ]
            | intros e; apply column_event_mono; intros x Hx; right; exact Hx
            | auto ] ] ] ].
Qed.
End PerColumn.

(** ** A whole run of [_profile] *)

Lemma keeps_cache_state_read dataset {A} each (f : State -> A) (Q : A -> Prop) :
  (forall s, Q (f s)) -> keeps_cache dataset each (λ s, (inr (f s), s)) Q.
Proof.
  intros H s Hs. exists []. cbn. rewrite app_nil_r.
  split; [ reflexivity | split; [ constructor | split; [ exact Hs | ] ] ].
  intros a [= <-]. apply H.
Qed.

Lemma keeps_cache_metadata dataset each :
  keeps_cache dataset each (_build_column_description_metadata dataset) (λ _, True).
Proof.
  intros s Hs. exists [].
  destruct (build_column_description_metadata_spec dataset s) as (suite & E & _).
  rewrite E. cbn. rewrite app_nil_r. auto.
Qed.

Lemma remove_table_keeps dataset each l :
  (forall e, ~ is_Expect e -> each e) ->
  keeps_cache dataset each (_remove_table_expectations dataset l) (λ _, True).
Proof.
  intros Heach. unfold _remove_table_expectations.
  eapply keeps_cache_bind; [ apply (keeps_cache_state_read _ _ events (λ _, True)); auto | ].
  intros made _. apply keeps_cache_seq; [ | apply keeps_cache_ret; exact I ].
  apply keeps_cache_for_each. intros x _. apply keeps_cache_except.
  apply keeps_cache_remove; [ apply Heach; cbn; tauto | exact I ].
Qed.

Lemma remove_column_keeps dataset each l :
  (forall e, ~ is_Expect e -> each e) ->
  keeps_cache dataset each (_remove_column_expectations dataset l) (λ _, True).
Proof.
  intros Heach. unfold _remove_column_expectations.
  eapply keeps_cache_bind; [ apply (keeps_cache_state_read _ _ events (λ _, True)); auto | ].
  intros made _. apply keeps_cache_seq; [ | apply keeps_cache_ret; exact I ].
  apply keeps_cache_for_each. intros c _.
  apply keeps_cache_for_each. intros x _. apply keeps_cache_except.
  apply keeps_cache_remove; [ apply Heach; cbn; tauto | exact I ].
Qed.

Lemma keep_included_keeps dataset each l :
  (forall e, ~ is_Expect e -> each e) ->
  keeps_cache dataset each (keep_included dataset l) (λ _, True).
Proof.
  intros Heach. unfold keep_included.
  eapply keeps_cache_bind; [ apply (keeps_cache_state_read _ _ events (λ _, True)); auto | ].
  intros made _.
  apply keeps_cache_for_each. intros x _.
  destruct (negb _); [ | apply keeps_cache_ret; exact I ].
  apply keeps_cache_except.
  apply keeps_cache_remove; [ apply Heach; cbn; tauto | exact I ].
Qed.

Lemma emits_after_reset dataset {A} each (k : M A) Q :
  keeps_cache dataset each k Q -> emits each (bind (set_cache ∅) (λ _, k)).
Proof.
  intros H s. unfold bind, set_cache.
  destruct (H {| events := events s; column_cache := ∅ |}) as (new & E & Hnew & _).
  - intros c e. cbn. rewrite lookup_empty. discriminate.
  - exists new. auto.
Qed.

Lemma bind_inr_inv {A B} (m : M A) (k : A -> M B) s b s' :
  bind m k s = (inr b, s') ->
  exists a s1, m s = (inr a, s1) /\ k a s1 = (inr b, s').
Proof.
  unfold bind. destruct (m s) as [[e | a] s1]; [ discriminate | ]. eauto.
Qed.

Lemma has_key_inv (d : gmap string cfgval) key :
  (has_key d key = true -> exists v, d !! key = Some v)
  /\ (has_key d key = false -> d !! key = None).
Proof.
  unfold has_key. split; intros H.
  - apply bool_decide_eq_true in H. exact H.
  - apply bool_decide_eq_false in H. apply eq_None_not_Some. exact H.
Qed.

Lemma read_column_keys_selected (d : gmap string cfgval) existing s selected s' :
  read_column_keys d existing s = (inr selected, s') ->
  selected_ok d existing selected.
Proof.
  unfold read_column_keys.
  destruct (has_key_inv d "included_columns") as [Hi1 Hi0].
  destruct (has_key_inv d "excluded_columns") as [He1 He0].
  destruct (has_key d "included_columns");
    destruct (has_key d "excluded_columns"); cbn [andb].
  - discriminate.
  - intros [= <- <-].
    destruct (Hi1 eq_refl) as [v0 Hv0]. intros c Hc. split.
    + intros v Hv. rewrite (item_lookup _ _ _ Hv0) in Hc. congruence.
    + intros v Hv. congruence.
  - destruct (He1 eq_refl) as [v0 Hv0]. rewrite (item_lookup _ _ _ Hv0).
    destruct (iterable _) eqn:Hit; [ | discriminate ].
    intros [= <- <-]. intros c Hc. split.
    + intros v Hv. rewrite Hi0 in Hv by reflexivity. discriminate.
    + intros v _ Hv. assert (v = v0) as -> by congruence.
      cbn [cfg_items] in Hc. apply columns_without_excluded in Hc.
      destruct v0 as [| | | n | [| x l]]; cbn in Hc, Hit |- *;
        try discriminate Hit; try tauto.
      destruct (n =? 0); [ | discriminate Hit ].
      intros H. inversion H.
  - intros [= <- <-]. intros c Hc. split.
    + intros v Hv. rewrite Hi0 in Hv by reflexivity. discriminate.
    + intros v _ Hv. rewrite He0 in Hv by reflexivity. discriminate.
Qed.

Lemma checks_only_emits {A} bad (m : M A) P : checks_only bad m -> emits P m.
Proof.
  intros H s. exists []. rewrite app_nil_r.
  destruct (H s) as [[msg ->] | [[-> _] | [a ->]]]; cbn; auto.
Qed.

Lemma metadata_emits dataset P : emits P (_build_column_description_metadata dataset).
Proof.
  intros s. exists [].
  destruct (build_column_description_metadata_spec dataset s) as (suite & E & _).
  rewrite E. cbn. rewrite app_nil_r. auto.
Qed.

Ltac table_event :=
  let H := fresh in
  intros ? ? H;
  first
    [ discriminate H
    | injection H as <- <-; left; split;
      [ reflexivity
      | repeat first [ apply list_elem_of_here | apply list_elem_of_further ] ] ].

Lemma profile_body_emits dataset (d : gmap string cfgval)
  (selected included excluded : cfgval) :
  selected_ok d (get_table_columns dataset) selected ->
  emits (profile_event dataset d)
    (lift (_check_that_columns_exist dataset selected);;;
     if cfg_is_None included then
       suite <- _build_column_description_metadata dataset;;
       ret {| expectations := []; meta := meta suite |}
     else
       set_default_expectation_argument "catch_exceptions" false;;;
       _build_table_row_count_expectation dataset default_tolerance;;;
       set_config_value "interactive_evaluation" true;;;
       _build_table_column_expectations dataset;;;
       set_cache ∅;;;
       (if cfg_truthy selected
        then for_each (cfg_items selected) (profile_column dataset)
        else ret tt);;;
       (if cfg_truthy excluded then
          _remove_table_expectations dataset (cfg_items excluded);;;
          _remove_column_expectations dataset (cfg_items excluded)
        else ret dataset);;;
       (if cfg_truthy included
        then keep_included dataset (cfg_items included)
        else ret tt);;;
       _build_column_description_metadata dataset).
Proof.
  intros Hsel.
  apply emits_bind; [ apply emits_lift | ]. intros [] s0 s0' Hcheck.
  assert (cfg_truthy selected = true ->
          Forall (λ c, c ∈ get_table_columns dataset) (cfg_items selected)) as Hex.
  { intros Ht. unfold lift, _check_that_columns_exist in Hcheck. rewrite Ht in Hcheck.
    destruct (iterable selected); [ | discriminate Hcheck ].
    apply check_columns_ok. congruence. }
  assert (forall e, ~ is_Expect e -> profile_event dataset d e) as Hne.
  { intros e He t kwargs ->. elim He. exact I. }
  destruct (cfg_is_None included).
  { apply emits_bind; [ apply metadata_emits | ]. intros. apply emits_ret. }
  apply emits_seq; [ apply emits_emit; table_event | ].
  apply emits_seq.
  { apply row_count_expectation_emits. intros lo hi. table_event. }
  apply emits_seq; [ apply emits_emit; table_event | ].
  apply emits_seq.
  { unfold _build_table_column_expectations.
    repeat first [ apply emits_seq | apply emits_ret | apply emits_emit; table_event ]. }
  eapply emits_after_reset with (Q := λ _, True).
  apply keeps_cache_seq.
  { destruct (cfg_truthy selected) eqn:Ht; [ | apply keeps_cache_ret; exact I ].
    apply keeps_cache_for_each. intros x Hx.
    eapply keeps_cache_weaken; [ apply profile_column_keeps | | auto ].
    intros e He t kwargs Heq. right. exists x.
    destruct (He t kwargs Heq) as [Hcol Htype].
    pose proof (Hex eq_refl) as Hall. rewrite Forall_forall in Hall.
    destruct (Hsel x Hx) as [Hinc Hexc].
    split; [ exact Hcol | ]. split; [ apply Hall, Hx | ]. auto. }
  apply keeps_cache_seq.
  { destruct (cfg_truthy excluded); [ | apply keeps_cache_ret; exact I ].
    apply keeps_cache_seq; [ apply remove_table_keeps, Hne | ].
    eapply keeps_cache_any_result. apply remove_column_keeps, Hne. }
  apply keeps_cache_seq.
  { destruct (cfg_truthy included); [ | apply keeps_cache_ret; exact I ].
    apply keep_included_keeps, Hne. }
  apply keeps_cache_metadata.
Qed.

(** ** What the cache guarantees *)

Lemma keeps_cache_emitted dataset {A} each (m : M A) Q s :
  keeps_cache dataset each m Q -> cache_consistent dataset s ->
  Forall each (emitted m s)
  /\ cache_consistent dataset (snd (m s))
  /\ (forall a, fst (m s) = inr a -> Q a).
Proof.
  intros H Hs. destruct (H s Hs) as (new & E & Hnew & Hc & HQ).
  unfold emitted. rewrite E, drop_app_length. auto.
Qed.

Lemma initial_state_consistent dataset : cache_consistent dataset initial_state.
Proof. intros c e. cbn. rewrite lookup_empty. discriminate. Qed.

(** X10: as long as the cache holds only what the dataset reports, the
    type and the cardinality the caching functions return are the ones
    the dataset reports for the column, and the cache stays that way,
    whether the call returns or raises. *)
Theorem caching_agrees_with_dataset dataset column s :
  cache_consistent dataset s ->
  (forall t, fst (_get_column_type_with_caching dataset column s) = inr t ->
             t = _get_column_type dataset column)
  /\ cache_consistent dataset (snd (_get_column_type_with_caching dataset column s))
  /\ (forall k, fst (_get_column_cardinality_with_caching dataset column s) = inr k ->
                k = _get_column_cardinality dataset column)
  /\ cache_consistent dataset
       (snd (_get_column_cardinality_with_caching dataset column s)).
Proof.
  intros Hs.
  destruct (keeps_cache_emitted dataset (λ _, True) _ _ s
              (keeps_cache_type dataset column _ (λ _ _, I)) Hs) as (_ & Hc1 & Ht).
  destruct (keeps_cache_emitted dataset (λ _, True) _ _ s
              (keeps_cache_cardinality dataset column _ (λ _ _, I)) Hs)
    as (_ & Hc2 & Hk).
  auto.
Qed.

Lemma caching_agrees_with_dataset_witness :
  (forall t, fst (_get_column_type_with_caching sample_table "a" initial_state) = inr t ->
             t = _get_column_type sample_table "a")
  /\ cache_consistent sample_table
       (snd (_get_column_type_with_caching sample_table "a" initial_state))
  /\ (forall k, fst (_get_column_cardinality_with_caching sample_table "a" initial_state)
                = inr k ->
                k = _get_column_cardinality sample_table "a")
  /\ cache_consistent sample_table
       (snd (_get_column_cardinality_with_caching sample_table "a" initial_state)).
Proof.
  apply caching_agrees_with_dataset, initial_state_consistent.
Defined.

(** X11: once a caching function has been called for a column, calling it
    again is free: it returns from the cache, makes no call on the dataset
    and changes nothing, even when the first call raised in
    [remove_expectation]; if the first call returned, the value is the
    same. *)
Theorem caching_second_call_is_free dataset column s :
  (let s1 := snd (_get_column_type_with_caching dataset column s) in
   exists t,
     _get_column_type_with_caching dataset column s1 = (inr t, s1)
     /\ (forall r, fst (_get_column_type_with_caching dataset column s) = inr r ->
                   r = t))
  /\ (let s1 := snd (_get_column_cardinality_with_caching dataset column s) in
      exists k,
        _get_column_cardinality_with_caching dataset column s1 = (inr k, s1)
        /\ (forall r,
              fst (_get_column_cardinality_with_caching dataset column s) = inr r ->
              r = k)).
Proof. split; [ apply type_second_call | apply cardinality_second_call ]. Qed.

(** ** Columns by kind *)

(** X14: from a consistent cache, the loop body of [_profile] only creates
    expectations about its own column, and only of the types listed for
    the column's cardinality and type: nothing for a column of another
    cardinality, the set checks (and the KL check only for [TWO] and
    [VERY_FEW]) for a low-cardinality column, the uniqueness check and the
    checks of its type for a high-cardinality one. *)
Theorem profile_column_expectation_types dataset column s :
  cache_consistent dataset s ->
  Forall (column_event column
            (expectation_types_for (_get_column_cardinality dataset column)
                                   (_get_column_type dataset column)))
         (emitted (profile_column dataset column) s).
Proof.
  intros Hs.
  apply (keeps_cache_emitted dataset _ _ _ s (profile_column_keeps dataset column) Hs).
Qed.

Lemma profile_column_expectation_types_witness :
  Forall (column_event "a"
            (expectation_types_for (_get_column_cardinality sample_table "a")
                                   (_get_column_type sample_table "a")))
         (emitted (profile_column sample_table "a") initial_state).
Proof.
  apply profile_column_expectation_types, initial_state_consistent.
Defined.

(** X15: in a run of [_profile] on a configuration dict, every expectation
    created is one of the three table-level expectations, or is about a
    table column that the dict selects (listed under [included_columns]
    when that key is present, not listed under [excluded_columns] when
    only that key is present) and of a type that column's cardinality and
    type allow. *)
Theorem profile_expectations_follow_selection dataset (d : gmap string cfgval) s :
  Forall (profile_event dataset d) (emitted (_profile dataset (Mapping d)) s).
Proof.
  apply emits_emitted. unfold _profile.
  apply emits_bind.
  { destruct (configuration_truthy _); [ | apply emits_ret ].
    eapply checks_only_emits, checks_only_settings. }
  intros [selected [included excluded]] s0 s1 Hsettings.
  apply profile_body_emits.
  destruct (configuration_truthy _) eqn:Ht.
  - apply bind_inr_inv in Hsettings as (keys & s2 & _ & Hsettings).
    apply bind_inr_inv in Hsettings as (selected' & s3 & Hread & Hret).
    injection Hret as -> _ _.
    eapply read_column_keys_selected, Hread.
  - injection Hsettings as <- _ _ _.
    cbn in Ht. apply negb_false_iff, bool_decide_eq_true, map_size_empty_iff in Ht.
    subst d. intros c Hc.
    split; intros v; rewrite lookup_empty; discriminate.
Qed.

(** With no configuration the run is the one of the empty dict. *)
Lemma profile_no_configuration dataset s :
  _profile dataset NoConfiguration s = _profile dataset (Mapping ∅) s.
Proof. reflexivity. Qed.

(** ** The next column of each kind *)

Lemma succeeds_remove dataset t c k b :
  removals_succeed dataset -> succeeds (remove_expectation dataset t c k b).
Proof.
  intros H s. unfold remove_expectation. rewrite H. eexists _, _. reflexivity.
Qed.

Lemma succeeds_state_read {A} (f : State -> A) : succeeds (λ s, (inr (f s), s)).
Proof. intros s. eexists _, _. reflexivity. Qed.

Lemma succeeds_set_cache c : succeeds (set_cache c).
Proof. intros s. eexists _, _. reflexivity. Qed.

Lemma type_caching_succeeds dataset column :
  removals_succeed dataset -> succeeds (_get_column_type_with_caching dataset column).
Proof.
  intros H. unfold _get_column_type_with_caching.
  apply succeeds_bind; [ apply (succeeds_state_read column_cache) | ]. intros cache.
  apply succeeds_bind.
  { destruct (entry_falsy _); [ apply succeeds_set_cache | apply succeeds_ret ]. }
  intros _. destruct (cached_type _); [ apply succeeds_ret | ].
  apply succeeds_bind; [ apply succeeds_emit | ]. intros _.
  apply succeeds_bind; [ apply (succeeds_state_read column_cache) | ]. intros cache'.
  apply succeeds_bind; [ apply succeeds_set_cache | ]. intros _.
  apply succeeds_bind; [ apply succeeds_remove, H | ]. intros _.
  apply succeeds_bind; [ apply succeeds_emit | ]. intros _. apply succeeds_ret.
Qed.

Lemma cardinality_caching_succeeds dataset column :
  removals_succeed dataset ->
  succeeds (_get_column_cardinality_with_caching dataset column).
Proof.
  intros H. unfold _get_column_cardinality_with_caching.
  apply succeeds_bind; [ apply (succeeds_state_read column_cache) | ]. intros cache.
  apply succeeds_bind.
  { destruct (entry_falsy _); [ apply succeeds_set_cache | apply succeeds_ret ]. }
  intros _. destruct (cached_cardinality _); [ apply succeeds_ret | ].
  apply succeeds_bind; [ apply succeeds_emit | ]. intros _.
  apply succeeds_bind; [ apply (succeeds_state_read column_cache) | ]. intros cache'.
  apply succeeds_bind; [ apply succeeds_set_cache | ]. intros _.
  do 2 (apply succeeds_bind; [ apply succeeds_remove, H | ]; intros _).
  apply succeeds_bind; [ apply succeeds_emit | ]. intros _. apply succeeds_ret.
Qed.

Lemma find_next_numeric_succeeds dataset columns profiled_columns :
  removals_succeed dataset ->
  succeeds (_find_next_numeric_column dataset columns profiled_columns).
Proof.
  intros H. induction columns as [| c columns IH]; cbn [_find_next_numeric_column].
  - apply succeeds_ret.
  - destruct (py_in c _); [ exact IH | ]. destruct (looks_like_id c); [ exact IH | ].
    apply succeeds_bind; [ apply cardinality_caching_succeeds, H | ]. intros k.
    apply succeeds_bind; [ apply type_caching_succeeds, H | ]. intros t.
    destruct (_ && _); [ apply succeeds_ret | exact IH ].
Qed.

Lemma value_when_succeeds dataset {A} each (m : M A) (Q : A -> Prop) s :
  keeps_cache dataset each m Q -> succeeds m -> cache_consistent dataset s ->
  exists a, fst (m s) = inr a /\ Q a.
Proof.
  intros Hk Hs Hc. destruct (Hs s) as (a & s' & E).
  destruct (keeps_cache_emitted dataset each m Q s Hk Hc) as (_ & _ & HQ).
  exists a. rewrite E in HQ |- *. split; [ reflexivity | apply HQ; reflexivity ].
Qed.

(** X12: when the cache is consistent and removals succeed,
    [_find_next_numeric_column] returns the first column of the list that
    is not yet profiled as numeric, does not look like an identifier
    ([id], or a name containing [_id], whatever the case and the
    surrounding blanks, the no-break space among them), has a high
    cardinality and is of type [INT] or [FLOAT]; [None] when there is
    none. Column names are made of characters with code points below
    256. *)
Theorem find_next_numeric_is_first_candidate dataset columns profiled_columns s :
  cache_consistent dataset s ->
  removals_succeed dataset ->
  fst (_find_next_numeric_column dataset columns profiled_columns s)
  = inr (List.find (numeric_candidate dataset (profiled_numeric profiled_columns))
                   columns).
Proof.
  intros Hc Hr.
  destruct (value_when_succeeds dataset _ _ _ s
              (find_next_numeric_keeps dataset columns profiled_columns)
              (find_next_numeric_succeeds dataset columns profiled_columns Hr) Hc)
    as (a & -> & ->).
  reflexivity.
Qed.

Lemma find_next_numeric_is_first_candidate_witness :
  fst (_find_next_numeric_column sample_table
         ["customer_ID"; " Id "; "id" +:+ String (Ascii.ascii_of_nat 160) ""; "b"; "a"]
         {| profiled_numeric := ["b"]; profiled_low_card := [];
            profiled_string := []; profiled_datetime := [] |} initial_state)
  = inr (Some "a").
Proof.
  etrans.
  - apply find_next_numeric_is_first_candidate.
    + apply initial_state_consistent.
    + intros made e. reflexivity.
  - vm_compute. reflexivity.
Defined.

Lemma find_next_low_card_keeps dataset columns profiled_columns :
  keeps_cache dataset (λ e, ~ is_Expect e)
    (_find_next_low_card_column dataset columns profiled_columns)
    (λ r, r = List.find (low_card_candidate dataset (profiled_low_card profiled_columns))
                        columns).
Proof.
  induction columns as [| c columns IH]; cbn [_find_next_low_card_column List.find].
  - apply keeps_cache_ret. reflexivity.
  - unfold low_card_candidate at 1.
    destruct (py_in c (profiled_low_card profiled_columns)); cbn [negb andb];
      [ exact IH | ].
    eapply keeps_cache_bind; [ apply keeps_cache_cardinality; auto | ].
    intros k ->.
    destruct (py_in _ _); [ apply keeps_cache_ret; reflexivity | exact IH ].
Qed.

Lemma find_next_string_keeps dataset columns profiled_columns :
  keeps_cache dataset (λ e, ~ is_Expect e)
    (_find_next_string_column dataset columns profiled_columns)
    (λ r, r = List.find (string_candidate dataset (profiled_string profiled_columns))
                        columns).
Proof.
  induction columns as [| c columns IH]; cbn [_find_next_string_column List.find].
  - apply keeps_cache_ret. reflexivity.
  - unfold string_candidate at 1.
    destruct (py_in c (profiled_string profiled_columns)); cbn [negb andb];
      [ exact IH | ].
    eapply keeps_cache_bind; [ apply keeps_cache_cardinality; auto | ].
    intros k ->.
    eapply keeps_cache_bind; [ apply keeps_cache_type; auto | ].
    intros t ->.
    destruct (_ && _); [ apply keeps_cache_ret; reflexivity | exact IH ].
Qed.

Lemma find_next_datetime_keeps dataset columns profiled_columns :
  keeps_cache dataset (λ e, ~ is_Expect e)
    (_find_next_datetime_column dataset columns profiled_columns)
    (λ r, r = List.find (datetime_candidate dataset (profiled_datetime profiled_columns))
                        columns).
Proof.
  induction columns as [| c columns IH]; cbn [_find_next_datetime_column List.find].
  - apply keeps_cache_ret. reflexivity.
  - unfold datetime_candidate at 1.
    destruct (py_in c (profiled_datetime profiled_columns)); cbn [negb andb];
      [ exact IH | ].
    eapply keeps_cache_bind; [ apply keeps_cache_cardinality; auto | ].
    intros k ->.
    eapply keeps_cache_bind; [ apply keeps_cache_type; auto | ].
    intros t ->.
    destruct (_ && _); [ apply keeps_cache_ret; reflexivity | exact IH ].
Qed.

Lemma find_next_low_card_succeeds dataset columns profiled_columns :
  removals_succeed dataset ->
  succeeds (_find_next_low_card_column dataset columns profiled_columns).
Proof.
  intros H. induction columns as [| c columns IH]; cbn [_find_next_low_card_column].
  - apply succeeds_ret.
  - destruct (py_in c _); [ exact IH | ].
    apply succeeds_bind; [ apply cardinality_caching_succeeds, H | ]. intros k.
    destruct (py_in _ _); [ apply succeeds_ret | exact IH ].
Qed.

Lemma find_next_string_succeeds dataset columns profiled_columns :
  removals_succeed dataset ->
  succeeds (_find_next_string_column dataset columns profiled_columns).
Proof.
  intros H. induction columns as [| c columns IH]; cbn [_find_next_string_column].
  - apply succeeds_ret.
  - destruct (py_in c _); [ exact IH | ].
    apply succeeds_bind; [ apply cardinality_caching_succeeds, H | ]. intros k.
    apply succeeds_bind; [ apply type_caching_succeeds, H | ]. intros t.
    destruct (_ && _); [ apply succeeds_ret | exact IH ].
Qed.

Lemma find_next_datetime_succeeds dataset columns profiled_columns :
  removals_succeed dataset ->
  succeeds (_find_next_datetime_column dataset columns profiled_columns).
Proof.
  intros H. induction columns as [| c columns IH]; cbn [_find_next_datetime_column].
  - apply succeeds_ret.
  - destruct (py_in c _); [ exact IH | ].
    apply succeeds_bind; [ apply cardinality_caching_succeeds, H | ]. intros k.
    apply succeeds_bind; [ apply type_caching_succeeds, H | ]. intros t.
    destruct (_ && _); [ apply succeeds_ret | exact IH ].
Qed.

(** X13: under the same conditions the three other searches return the
    first column of their kind not yet profiled: a low cardinality for
    [_find_next_low_card_column]; a high cardinality with type [STRING] or
    [UNKNOWN] for [_find_next_string_column], with type [DATETIME] for
    [_find_next_datetime_column]. *)
Theorem find_next_is_first_candidate dataset columns profiled_columns s :
  cache_consistent dataset s ->
  removals_succeed dataset ->
  fst (_find_next_low_card_column dataset columns profiled_columns s)
  = inr (List.find (low_card_candidate dataset (profiled_low_card profiled_columns))
                   columns)
  /\ fst (_find_next_string_column dataset columns profiled_columns s)
     = inr (List.find (string_candidate dataset (profiled_string profiled_columns))
                      columns)
  /\ fst (_find_next_datetime_column dataset columns profiled_columns s)
     = inr (List.find (datetime_candidate dataset (profiled_datetime profiled_columns))
                      columns).
Proof.
  intros Hc Hr.
  destruct (value_when_succeeds dataset _ _ _ s
              (find_next_low_card_keeps dataset columns profiled_columns)
              (find_next_low_card_succeeds dataset columns profiled_columns Hr) Hc)
    as (a1 & -> & ->).
  destruct (value_when_succeeds dataset _ _ _ s
              (find_next_string_keeps dataset columns profiled_columns)
              (find_next_string_succeeds dataset columns profiled_columns Hr) Hc)
    as (a2 & -> & ->).
  destruct (value_when_succeeds dataset _ _ _ s
              (find_next_datetime_keeps dataset columns profiled_columns)
              (find_next_datetime_succeeds dataset columns profiled_columns Hr) Hc)
    as (a3 & -> & ->).
  auto.
Qed.

Lemma find_next_is_first_candidate_witness :
  let table :=
    custom_table ["n"; "s"; "d"; "l"]
      (λ c, if String.eqb c "l" then FEW else MANY)
      (λ c, if String.eqb c "n" then INT
            else if String.eqb c "s" then UNKNOWN else DATETIME)
      (λ _, VNone) (λ _, VNone) true 0 {| expectations := []; meta := ∅ |} false
      (λ _, inl ValueError) in
  let none :=
    {| profiled_numeric := []; profiled_low_card := [];
       profiled_string := []; profiled_datetime := [] |} in
  fst (_find_next_low_card_column table ["n"; "s"; "d"; "l"] none initial_state)
  = inr (Some "l")
  /\ fst (_find_next_string_column table ["n"; "s"; "d"; "l"] none initial_state)
     = inr (Some "s")
  /\ fst (_find_next_datetime_column table ["n"; "s"; "d"; "l"] none initial_state)
     = inr (Some "d").
Proof.
  cbv zeta.
  lazymatch goal with
  | |- fst (_find_next_low_card_column ?t ?c ?p ?s) = _ /\ _ =>
      destruct (find_next_is_first_candidate t c p s) as (H1 & H2 & H3);
        [ apply initial_state_consistent | intros made e; reflexivity | ]
  end.
  rewrite H1, H2, H3. vm_compute. auto.
Defined.

(** ** Removing expectations *)

Lemma for_each_remove_run dataset {A} (l : list A) (remove : A -> bool)
  (t : A -> string) (c : A -> arg) (k : A -> option (gmap string arg))
  (b : A -> bool) s :
  for_each l
    (λ x, if remove x
          then except_ValueError_pass
                 (remove_expectation dataset (t x) (c x) (k x) (b x))
          else ret tt) s
  = (inr tt,
     {| events := events s
                  ++ ((λ x, RemoveExpectation (t x) (c x) (k x) (b x))
                        <$> filter (λ x, remove x = true) l);
        column_cache := column_cache s |}).
Proof.
  revert s. induction l as [| x l IH]; intros s; cbn [for_each].
  - cbn. rewrite app_nil_r. destruct s; reflexivity.
  - unfold bind at 1. rewrite filter_cons.
    destruct (remove x) eqn:Hk.
    + rewrite decide_True by reflexivity.
      unfold except_ValueError_pass, remove_expectation.
      destruct (remove_expectation_raises _ _ _); rewrite IH; cbn;
        rewrite <- app_assoc; reflexivity.
    + rewrite decide_False by discriminate. cbn [ret]. apply IH.
Qed.





(** X17: the loop that keeps the included expectations never raises
    either: it asks to remove, with [remove_multiple_matches=True], every
    expectation of the suite (failed ones discarded) whose type is not in
    [included_expectations], and nothing else. *)
Theorem keep_included_calls dataset included_expectations s :
  keep_included dataset included_expectations s
  = (inr tt,
     {| events :=
          events s
          ++ ((λ e, RemoveExpectation (expectation_type e) (kwargs_column e)
                                      (Some (kwargs e)) true)
                <$> filter
                      (λ e, negb (py_in (expectation_type e) included_expectations)
                            = true)
                      (expectations (get_expectation_suite dataset (events s) true)));
        column_cache := column_cache s |}).
Proof.
  unfold keep_included, bind, get_events.
  apply (for_each_remove_run dataset _
           (λ e, negb (py_in (expectation_type e) included_expectations))
           expectation_type kwargs_column (λ e, Some (kwargs e)) (λ _, true)).
Qed.

(** ** The two checks of the configuration *)

Lemma check_columns_first_missing dataset l e :
  check_columns dataset l = inl e
  <-> (exists before column after,
        l = before ++ column :: after
        /\ Forall (λ c, c ∈ get_table_columns dataset) before
        /\ (column ∉ get_table_columns dataset)
        /\ e = ProfilerError ("Column " +:+ column +:+ " does not exist.")).
Proof.
  induction l as [| c l IH]; cbn [check_columns].
  - split; [ discriminate | ].
    intros (before & column & after & E & _). destruct before; discriminate.
  - destruct (py_in c (get_table_columns dataset)) eqn:Hc; cbn [negb].
    + apply py_in_true in Hc. rewrite IH. split.
      * intros (before & column & after & -> & Hb & Hm & ->).
        exists (c :: before), column, after. auto.
      * intros (before & column & after & E & Hb & Hm & ->).
        destruct before as [| c' before]; cbn in E; injection E as -> ->.
        -- contradiction.
        -- inversion Hb; subst. exists before, column, after. auto.
    + apply py_in_false in Hc. split.
      * intros [= <-]. exists [], c, l. auto.
      * intros (before & column & after & E & Hb & Hm & ->).
        destruct before as [| c' before]; cbn in E; injection E as -> ->.
        -- reflexivity.
        -- inversion Hb; subst. contradiction.
Qed.

Lemma check_expectations_first_missing dataset l e :
  check_expectations dataset l = inl e
  <-> (exists before expectation after,
        l = before ++ expectation :: after
        /\ Forall (λ x, x ∈ list_available_expectation_types dataset) before
        /\ (expectation ∉ list_available_expectation_types dataset)
        /\ e = ProfilerError ("Expectation " +:+ expectation +:+ " is not available.")).
Proof.
  induction l as [| c l IH]; cbn [check_expectations].
  - split; [ discriminate | ].
    intros (before & column & after & E & _). destruct before; discriminate.
  - destruct (py_in c (list_available_expectation_types dataset)) eqn:Hc; cbn [negb].
    + apply py_in_true in Hc. rewrite IH. split.
      * intros (before & column & after & -> & Hb & Hm & ->).
        exists (c :: before), column, after. auto.
      * intros (before & column & after & E & Hb & Hm & ->).
        destruct before as [| c' before]; cbn in E; injection E as -> ->.
        -- contradiction.
        -- inversion Hb; subst. exists before, column, after. auto.
    + apply py_in_false in Hc. split.
      * intros [= <-]. exists [], c, l. auto.
      * intros (before & column & after & E & Hb & Hm & ->).
        destruct before as [| c' before]; cbn in E; injection E as -> ->.
        -- reflexivity.
        -- inversion Hb; subst. contradiction.
Qed.

Ltac check_cases first_missing :=
  match goal with
  | |- context [ (if cfg_truthy ?v then _ else _) = inl _ ] =>
      destruct v as [| | | n | [| c l]];
      unfold checkable; cbn [cfg_truthy iterable cfg_items negb orb];
      try (destruct (n =? 0); cbn [negb orb])
  end;
  try (split;
       [ discriminate
       | intros [(before & x & after & E & _) | [H _]];
         [ destruct before; discriminate | discriminate H ] ]);
  try (split;
       [ intros [= <-]; right; split; reflexivity
       | intros [(before & x & after & E & _) | [_ ->]];
         [ destruct before; discriminate | reflexivity ] ]);
  try (rewrite first_missing; split;
       [ intros H; left; exact H
       | intros [H | [H _]]; [ exact H | discriminate H ] ]).

(** X18: [_check_that_columns_exist] raises exactly in two cases: one of
    the columns it is given is not a column of the table, and the
    [ProfilerError] names the first such column; or the value it is given
    is truthy and no list, and the loop raises [TypeError]. [None],
    [False], [0] and the empty list pass. *)
Theorem check_that_columns_exist_first_missing dataset columns e :
  _check_that_columns_exist dataset columns = inl e
  <-> (exists before column after,
        cfg_items columns = before ++ column :: after
        /\ Forall (λ c, c ∈ get_table_columns dataset) before
        /\ (column ∉ get_table_columns dataset)
        /\ e = ProfilerError ("Column " +:+ column +:+ " does not exist."))
      \/ (checkable columns = false /\ e = TypeError).
Proof.
  unfold _check_that_columns_exist.
  check_cases (check_columns_first_missing dataset).
Qed.

(** X19: [_check_that_expectations_are_available] raises exactly in two
    cases: one of the expectation types it is given is not among the
    dataset's available types, and the [ProfilerError] names the first
    such type; or the value it is given is truthy and no list, and the
    loop raises [TypeError]. [None], [False], [0] and the empty list
    pass. *)
Theorem check_that_expectations_are_available_first_missing dataset expectations e :
  _check_that_expectations_are_available dataset expectations = inl e
  <-> (exists before expectation after,
        cfg_items expectations = before ++ expectation :: after
        /\ Forall (λ x, x ∈ list_available_expectation_types dataset) before
        /\ (expectation ∉ list_available_expectation_types dataset)
        /\ e = ProfilerError ("Expectation " +:+ expectation +:+ " is not available."))
      \/ (checkable expectations = false /\ e = TypeError).
Proof.
  unfold _check_that_expectations_are_available.
  check_cases (check_expectations_first_missing dataset).
Qed.

(** ** The range of a datetime column *)

Lemma datetime_add_days_cases t days :
  (t + days * microseconds_per_day < datetime_min
   /\ datetime_add_days t days = inl OverflowError)
  \/ (datetime_max < t + days * microseconds_per_day
      /\ datetime_add_days t days = inl OverflowError)
  \/ (datetime_min <= t + days * microseconds_per_day <= datetime_max
      /\ datetime_add_days t days = inr (t + days * microseconds_per_day)).
Proof.
  unfold datetime_add_days.
  generalize (t + days * microseconds_per_day). intros t'.
  generalize datetime_min datetime_max. intros lo hi.
  destruct (Z.ltb_spec t' lo); cbn [orb]; [ auto | ].
  destruct (Z.ltb_spec hi t'); [ auto | ].
  right. right. split; [ lia | reflexivity ].
Qed.

Lemma shift_days_back dataset a :
  datetime_min <= a <= datetime_max ->
  shift_days dataset (VDatetime a) (-365) datetime_min
  = inr (VDatetime (Z.max datetime_min (a - 365 * microseconds_per_day))).
Proof.
  intros H. unfold shift_days, value_add_days.
  assert (0 < microseconds_per_day) as Hday by reflexivity.
  destruct (datetime_add_days_cases a (-365)) as [[H1 ->] | [[H1 ->] | [H1 ->]]].
  - do 2 f_equal. lia.
  - lia.
  - do 2 f_equal. lia.
Qed.

Lemma shift_days_forth dataset b :
  datetime_min <= b <= datetime_max ->
  shift_days dataset (VDatetime b) 365 datetime_max
  = inr (VDatetime (Z.min datetime_max (b + 365 * microseconds_per_day))).
Proof.
  intros H. unfold shift_days, value_add_days.
  assert (0 < microseconds_per_day) as Hday by reflexivity.
  destruct (datetime_add_days_cases b 365) as [[H1 ->] | [[H1 ->] | [H1 ->]]].
  - lia.
  - do 2 f_equal. lia.
  - do 2 f_equal. lia.
Qed.

Lemma non_nullity_run dataset column s :
  exists s', _create_non_nullity_expectations dataset column s = (inr tt, s').
Proof.
  destruct (non_nullity_succeeds dataset column s) as ([] & s' & E). eauto.
Qed.

(** X20: on a column whose observed min and max are the datetimes [a]
    and [b], and when the two probes can be removed,
    [_create_expectations_for_datetime_column] returns and its last call
    is [expect_column_values_to_be_between] from one year before [a] to
    one year after [b], each bound clamped to [datetime.min] and
    [datetime.max]. The lower bound is at most [a] and the upper bound at
    least [b], so the range contains [a] and [b] as soon as [a <= b]. *)
Theorem datetime_column_range dataset column a b s :
  removals_succeed dataset ->
  observed_min dataset column = VDatetime a ->
  observed_max dataset column = VDatetime b ->
  datetime_min <= a <= datetime_max ->
  datetime_min <= b <= datetime_max ->
  let lo := Z.max datetime_min (a - 365 * microseconds_per_day) in
  let hi := Z.min datetime_max (b + 365 * microseconds_per_day) in
  fst (_create_expectations_for_datetime_column dataset column s) = inr tt
  /\ last (events (snd (_create_expectations_for_datetime_column dataset column s)))
     = Some (Expect "expect_column_values_to_be_between"
               (kw [("column", column_arg column);
                    ("min_value", AVal (VDatetime lo));
                    ("max_value", AVal (VDatetime hi));
                    ("parse_strings_as_datetimes", ABool true)]))
  /\ datetime_min <= lo <= a /\ b <= hi <= datetime_max
  /\ (a <= b -> lo <= a <= hi /\ lo <= b <= hi).
Proof.
  intros Hr Hmin Hmax Ha Hb lo hi.
  assert (0 < microseconds_per_day) as Hday by reflexivity.
  split; [ | split; [ | subst lo hi; lia ] ].
  all: unfold _create_expectations_for_datetime_column.
  all: rewrite Hmin, Hmax; cbn [is_None negb orb].
  all: unfold bind at 1; destruct (non_nullity_run dataset column s) as (s1 & ->).
  all: unfold bind, expect, emit, remove_expectation, lift.
  all: rewrite !Hr, shift_days_back, shift_days_forth by assumption.
  - reflexivity.
  - cbn [fst snd events]. apply last_snoc.
Qed.

Lemma datetime_column_range_witness :
  let table :=
    custom_table ["d"] (λ _, MANY) (λ _, DATETIME)
      (λ _, VDatetime (100 * microseconds_per_day))
      (λ _, VDatetime (datetime_max - 100 * microseconds_per_day))
      true 0 {| expectations := []; meta := ∅ |} false (λ _, inl ValueError) in
  last (events (snd (_create_expectations_for_datetime_column table "d"
                       initial_state)))
  = Some (Expect "expect_column_values_to_be_between"
            (kw [("column", column_arg "d");
                 ("min_value", AVal (VDatetime datetime_min));
                 ("max_value", AVal (VDatetime datetime_max));
                 ("parse_strings_as_datetimes", ABool true)]))
  /\ datetime_min <= 100 * microseconds_per_day <= datetime_max
  /\ datetime_min <= datetime_max - 100 * microseconds_per_day <= datetime_max.
Proof.
  cbv zeta.
  lazymatch goal with
  | |- last (events (snd (_create_expectations_for_datetime_column ?t ?c ?s))) = _ /\ _ =>
      destruct (datetime_column_range t c (100 * microseconds_per_day)
                  (datetime_max - 100 * microseconds_per_day) s)
        as (_ & -> & _ & _ & Hinside);
        [ intros made e; reflexivity | reflexivity | reflexivity
        | vm_compute; split; discriminate | vm_compute; split; discriminate | ]
  end.
  split; [ vm_compute; reflexivity | ].
  assert (100 * microseconds_per_day <= datetime_max - 100 * microseconds_per_day)
    as Hle by (vm_compute; discriminate).
  exact (Hinside Hle).
Defined.

(** X21: the clamping covers datetime values only. On a column whose
    observed min is a string that [dateutil] reads as a date of the first
    year, the subtraction of 365 days in the [TypeError] handler overflows
    and the [OverflowError] leaves
    [_create_expectations_for_datetime_column]. *)
Theorem datetime_column_string_overflow dataset column date t s :
  removals_succeed dataset ->
  observed_min dataset column = VStr date ->
  dateutil_parse dataset date = inr t ->
  t < datetime_min + 365 * microseconds_per_day ->
  fst (_create_expectations_for_datetime_column dataset column s) = inl OverflowError.
Proof.
  intros Hr Hmin Hparse Ht.
  unfold _create_expectations_for_datetime_column.
  rewrite Hmin. cbn [is_None negb orb].
  unfold bind at 1. destruct (non_nullity_run dataset column s) as (s1 & ->).
  unfold bind at 1. unfold expect at 1. unfold emit at 1.
  unfold bind at 1. unfold bind at 1. unfold remove_expectation at 1. rewrite Hr.
  unfold lift at 1, shift_days, value_add_days, parse. rewrite Hparse.
  destruct (datetime_add_days_cases t (-365)) as [[H1 ->] | [[H1 ->] | [H1 ->]]];
    [ reflexivity | reflexivity | lia ].
Qed.

Lemma datetime_column_string_overflow_witness :
  fst (_create_expectations_for_datetime_column
         (custom_table ["d"] (λ _, MANY) (λ _, DATETIME)
            (λ _, VStr "0001-03-01") (λ _, VStr "2020-01-01")
            true 0 {| expectations := []; meta := ∅ |} false
            (λ _, inr (59 * microseconds_per_day)))
         "d" initial_state)
  = inl OverflowError.
Proof.
  apply (datetime_column_string_overflow _ _ "0001-03-01" (59 * microseconds_per_day)).
  - intros made e. reflexivity.
  - reflexivity.
  - reflexivity.
  - reflexivity.
Defined.

(** ** The demo suite *)

Lemma found_column_Some r c : found_column r = Some c -> r = Some c.
Proof.
  destruct r as [c' |]; cbn; [ | discriminate ].
  destruct (String.eqb c' EmptyString); [ discriminate | trivial ].
Qed.

(** X22: the suite [_demo_profile] returns carries the markdown notes of
    the example suite in [meta["notes"]], one entry per table column in
    [meta["columns"]], and the expectations the dataset holds at the end
    of the run. *)
Theorem demo_profile_metadata dataset s suite s' :
  _demo_profile dataset s = (inr suite, s') ->
  meta suite !! "notes" = Some (MetaNotes "markdown" demo_notes)
  /\ meta suite !! "columns"
     = Some (MetaColumns (meta_columns (get_table_columns dataset)))
  /\ expectations suite
     = expectations (get_expectation_suite dataset (events s') false).
Proof.
  intros H. unfold _demo_profile in H. cbv zeta in H.
  do 13 (apply bind_inr_inv in H as (? & ? & _ & H)).
  apply bind_inr_inv in H as (suite0 & s2 & Hmeta & Hret).
  injection Hret as <- <-.
  lazymatch type of Hmeta with
  | _ _ ?s0 = _ =>
      destruct (build_column_description_metadata_spec dataset s0)
        as (suite1 & E & Hexp & Hcols & _)
  end.
  rewrite E in Hmeta. injection Hmeta as -> ->. cbn [meta expectations].
  split; [ apply lookup_insert_eq | ].
  split; [ rewrite lookup_insert_ne by discriminate; exact Hcols | exact Hexp ].
Qed.

Lemma demo_profile_metadata_witness :
  exists suite s',
    _demo_profile sample_table initial_state = (inr suite, s')
    /\ meta suite !! "notes" = Some (MetaNotes "markdown" demo_notes).
Proof.
  destruct (_demo_profile sample_table initial_state) as [[e | suite] s'] eqn:E.
  - vm_compute in E. discriminate E.
  - exists suite, s'. split; [ reflexivity | ].
    apply (demo_profile_metadata sample_table initial_state suite s' E).
Defined.

Ltac demo_table_event :=
  let H := fresh in
  intros ? ? H;
  first
    [ discriminate H
    | injection H as <- <-; left; split;
      [ reflexivity
      | repeat first [ apply list_elem_of_here | apply list_elem_of_further ] ] ].

(** X23: the demo run creates column expectations for at most one column
    of each kind, the first low-cardinality column of the table, the
    first numeric one whose name does not look like an identifier, the
    first string one and the first datetime one, and for each only
    expectations of the types of its kind. Column names are made of
    characters with code points below 256. *)
Theorem demo_profile_expectations dataset s :
  Forall (demo_event dataset) (emitted (_demo_profile dataset) s).
Proof.
  apply emits_emitted. unfold _demo_profile. cbv zeta.
  assert (forall e, ~ is_Expect e -> demo_event dataset e) as Hne.
  { intros e He t kwargs ->. elim He. exact I. }
  apply emits_seq; [ apply emits_emit; demo_table_event | ].
  apply emits_seq.
  { apply row_count_expectation_emits. intros lo hi. demo_table_event. }
  apply emits_seq; [ apply emits_emit; demo_table_event | ].
  apply emits_seq.
  { unfold _build_table_column_expectations.
    repeat first [ apply emits_seq | apply emits_ret
                 | apply emits_emit; demo_table_event ]. }
  eapply emits_after_reset with (Q := λ _, True).
  set (untouched := λ pc : ProfiledColumns,
         profiled_numeric pc = [] /\ profiled_string pc = []
         /\ profiled_datetime pc = []).
  eapply keeps_cache_bind;
    [ eapply keeps_cache_weaken;
      [ apply find_next_low_card_keeps | exact Hne | intros a Ha; exact Ha ] | ].
  cbn [profiled_low_card]. intros r ->.
  apply keeps_cache_bind with (Q1 := untouched).
  { destruct (found_column _) as [c |] eqn:Hc;
      [ | apply keeps_cache_ret; repeat split ].
    apply found_column_Some in Hc.
    apply keeps_cache_seq; [ | apply keeps_cache_ret; repeat split ].
    eapply keeps_cache_weaken; [ apply low_card_column_keeps | | auto ].
    intros e He t kwargs Heq. destruct (He t kwargs Heq) as [Hcol Ht].
    right. exists c. split; [ exact Hcol | ]. left. split; [ exact Hc | ].
    apply elem_of_app in Ht as [Ht | Ht]; apply elem_of_app; [ left; exact Ht | ].
    right. destruct (py_in _ _); [ exact Ht | inversion Ht ]. }
  intros pc (Hnum & Hstr & Hdt).
  eapply keeps_cache_bind;
    [ eapply keeps_cache_weaken;
      [ apply find_next_numeric_keeps | exact Hne | intros a Ha; exact Ha ] | ].
  rewrite Hnum. intros r ->.
  apply keeps_cache_bind with (Q1 := λ pc, profiled_string pc = []
                                          /\ profiled_datetime pc = []).
  { destruct (found_column _) as [c |] eqn:Hc;
      [ | apply keeps_cache_ret; auto ].
    apply found_column_Some in Hc.
    apply keeps_cache_seq; [ | apply keeps_cache_ret; auto ].
    eapply keeps_cache_weaken; [ apply numeric_column_keeps | | auto ].
    intros e He t kwargs Heq. destruct (He t kwargs Heq) as [Hcol Ht].
    right. exists c. split; [ exact Hcol | ]. right. left. auto. }
  clear pc Hnum Hstr Hdt. intros pc (Hstr & Hdt).
  eapply keeps_cache_bind;
    [ eapply keeps_cache_weaken;
      [ apply find_next_string_keeps | exact Hne | intros a Ha; exact Ha ] | ].
  rewrite Hstr. intros r ->.
  apply keeps_cache_bind with (Q1 := λ pc, profiled_datetime pc = []).
  { destruct (found_column _) as [c |] eqn:Hc;
      [ | apply keeps_cache_ret; auto ].
    apply found_column_Some in Hc.
    apply keeps_cache_seq; [ | apply keeps_cache_ret; auto ].
    eapply keeps_cache_weaken; [ apply string_column_keeps | | auto ].
    intros e He t kwargs Heq. destruct (He t kwargs Heq) as [Hcol Ht].
    right. exists c. split; [ exact Hcol | ]. right. right. left. auto. }
  clear pc Hstr Hdt. intros pc Hdt.
  eapply keeps_cache_bind;
    [ eapply keeps_cache_weaken;
      [ apply find_next_datetime_keeps | exact Hne | intros a Ha; exact Ha ] | ].
  rewrite Hdt. intros r ->.
  apply keeps_cache_seq.
  { destruct (found_column _) as [c |] eqn:Hc;
      [ | apply keeps_cache_ret; auto ].
    apply found_column_Some in Hc.
    eapply keeps_cache_weaken; [ apply datetime_column_keeps | | auto ].
    intros e He t kwargs Heq. destruct (He t kwargs Heq) as [Hcol Ht].
    right. exists c. split; [ exact Hcol | ]. right. right. right. auto. }
  eapply keeps_cache_bind; [ apply keeps_cache_metadata | ].
  intros suite _. apply keeps_cache_ret. exact I.
Qed.

(** ** Configuration errors come first *)

Lemma never_ret {A} (a : A) : never_ProfilerError (ret a).
Proof. intros s e. discriminate. Qed.

Lemma never_emit e : never_ProfilerError (emit e).
Proof. intros s e'. discriminate. Qed.

Lemma never_state_read {A} (f : State -> A) :
  never_ProfilerError (λ s, (inr (f s), s)).
Proof. intros s e. discriminate. Qed.

Lemma never_set_cache c : never_ProfilerError (set_cache c).
Proof. intros s e. discriminate. Qed.

Lemma never_lift {A} (r : result A) :
  no_ProfilerError r -> never_ProfilerError (lift r).
Proof. intros H s. exact H. Qed.

Lemma never_remove dataset t c k b :
  never_ProfilerError (remove_expectation dataset t c k b).
Proof.
  intros s e. unfold remove_expectation.
  destruct (remove_expectation_raises _ _ _); cbn; [ | discriminate ].
  intros [= <-]. exact I.
Qed.

Lemma never_bind {A B} (m : M A) (k : A -> M B) :
  never_ProfilerError m -> (forall a, never_ProfilerError (k a)) ->
  never_ProfilerError (bind m k).
Proof.
  intros Hm Hk s e. unfold bind. specialize (Hm s).
  destruct (m s) as [[e' | a] s1]; cbn in *.
  - intros [= <-]. apply Hm. reflexivity.
  - apply Hk.
Qed.

Lemma never_seq {A B} (m : M A) (k : M B) :
  never_ProfilerError m -> never_ProfilerError k ->
  never_ProfilerError (bind m (λ _, k)).
Proof. intros Hm Hk. apply never_bind; auto. Qed.

Lemma never_for_each {A} (l : list A) (body : A -> M unit) :
  (forall x, never_ProfilerError (body x)) -> never_ProfilerError (for_each l body).
Proof.
  intros H. induction l as [| x l IH]; cbn [for_each].
  - apply never_ret.
  - apply never_seq; auto.
Qed.

Lemma never_except (m : M unit) :
  never_ProfilerError m -> never_ProfilerError (except_ValueError_pass m).
Proof.
  intros H s e. unfold except_ValueError_pass. specialize (H s).
  destruct (m s) as [[[] | []] s1]; cbn in *; try discriminate;
    intros [= <-]; apply H; reflexivity.
Qed.

Lemma int_of_product_no_ProfilerError n x :
  no_ProfilerError (Binary64.int_of_product n x).
Proof.
  unfold Binary64.int_of_product, Binary64.of_int, Binary64.to_int.
  destruct (binary_normalize _ _ _ _ _) as [? | ? | | ? ? ?];
    try (intros err [= <-]; exact I);
    destruct (Binary64.mul _ _) as [? | ? | | ? ? ?];
    intros err [= <-]; exact I.
Qed.

Lemma value_sub_no_ProfilerError v k : no_ProfilerError (value_sub v k).
Proof. destruct v; intros e [= <-]; exact I. Qed.

Lemma value_add_no_ProfilerError v k : no_ProfilerError (value_add v k).
Proof. destruct v; intros e [= <-]; exact I. Qed.

Lemma loose_value_ranges_no_ProfilerError values :
  no_ProfilerError (loose_value_ranges values).
Proof.
  induction values as [| v values IH]; cbn [loose_value_ranges].
  - intros e. discriminate.
  - pose proof (value_sub_no_ProfilerError v 1) as Hs.
    pose proof (value_add_no_ProfilerError v 1) as Ha.
    destruct (value_sub v 1) as [e1 | lo];
      [ intros e [= <-]; apply (Hs _ eq_refl) | ].
    destruct (value_add v 1) as [e2 | hi];
      [ intros e [= <-]; apply (Ha _ eq_refl) | ].
    destruct (loose_value_ranges values) as [e3 | ranges];
      [ intros e [= <-]; apply (IH _ eq_refl) | ].
    intros e. discriminate.
Qed.

Lemma datetime_add_days_no_ProfilerError t days :
  no_ProfilerError (datetime_add_days t days).
Proof.
  destruct (datetime_add_days_cases t days) as [[_ ->] | [[_ ->] | [_ ->]]];
    intros e [= <-]; exact I.
Qed.

Lemma shift_days_no_ProfilerError dataset v days clamp :
  (forall date, no_ProfilerError (dateutil_parse dataset date)) ->
  no_ProfilerError (shift_days dataset v days clamp).
Proof.
  intros Hparse. unfold shift_days.
  destruct v as [| | q | t | date]; cbn [value_add_days parse];
    try (intros e [= <-]; exact I).
  - pose proof (datetime_add_days_no_ProfilerError t days) as H.
    destruct (datetime_add_days t days) as [[] | t']; intros e [= <-];
      try exact I; apply (H _ eq_refl).
  - pose proof (Hparse date) as H.
    destruct (dateutil_parse dataset date) as [e' | t];
      [ intros e [= <-]; apply (H _ eq_refl) | ].
    pose proof (datetime_add_days_no_ProfilerError t days) as H'.
    destruct (datetime_add_days t days) as [e' | t'];
      [ intros e [= <-]; apply (H' _ eq_refl) | ].
    intros e. discriminate.
Qed.

Ltac never :=
  repeat first
    [ apply never_seq
    | apply never_ret
    | apply never_emit
    | apply never_remove
    | apply never_set_cache
    | apply (never_state_read column_cache)
    | apply (never_state_read events) ].

Section NeverProfilerError.
Variable dataset : Dataset.
Hypothesis parse_errors :
  forall date, no_ProfilerError (dateutil_parse dataset date).

Lemma type_caching_never column :
  never_ProfilerError (_get_column_type_with_caching dataset column).
Proof.
  unfold _get_column_type_with_caching.
  apply never_bind; [ apply (never_state_read column_cache) | ]. intros cache.
  apply never_seq; [ destruct (entry_falsy _); never | ].
  destruct (cached_type _); [ never | ].
  apply never_seq; [ never | ].
  apply never_bind; [ apply (never_state_read column_cache) | ]. intros cache'.
  never.
Qed.

Lemma cardinality_caching_never column :
  never_ProfilerError (_get_column_cardinality_with_caching dataset column).
Proof.
  unfold _get_column_cardinality_with_caching.
  apply never_bind; [ apply (never_state_read column_cache) | ]. intros cache.
  apply never_seq; [ destruct (entry_falsy _); never | ].
  destruct (cached_cardinality _); [ never | ].
  apply never_seq; [ never | ].
  apply never_bind; [ apply (never_state_read column_cache) | ]. intros cache'.
  never.
Qed.

Lemma non_nullity_never column :
  never_ProfilerError (_create_non_nullity_expectations dataset column).
Proof.
  unfold _create_non_nullity_expectations.
  apply never_seq; [ apply never_emit | ]. destruct (negb _); never.
Qed.

Lemma low_card_column_never column :
  never_ProfilerError (_create_expectations_for_low_card_column dataset column).
Proof.
  unfold _create_expectations_for_low_card_column.
  apply never_seq; [ apply non_nullity_never | ].
  do 2 (apply never_seq; [ apply never_emit | ]).
  apply never_bind; [ apply cardinality_caching_never | ]. intros k.
  destruct (py_in _ _); never.
Qed.

Lemma between_observed_never t column observed :
  never_ProfilerError (between_observed t column observed).
Proof.
  unfold between_observed.
  apply never_seq; [ apply never_emit | ]. destruct (negb _); [ | never ].
  apply never_bind; [ apply never_lift, value_sub_no_ProfilerError | ]. intros lo.
  apply never_bind; [ apply never_lift, value_add_no_ProfilerError | ]. intros hi.
  apply never_emit.
Qed.

Lemma numeric_column_never column :
  never_ProfilerError (_create_expectations_for_numeric_column dataset column).
Proof.
  unfold _create_expectations_for_numeric_column.
  apply never_seq; [ apply non_nullity_never | ].
  do 4 (apply never_seq; [ apply between_observed_never | ]).
  apply never_seq; [ apply never_emit | ].
  destruct (quantile_exception _); [ never | ].
  apply never_seq; [ apply never_emit | ].
  apply never_bind; [ apply never_lift, loose_value_ranges_no_ProfilerError | ].
  intros ranges. never.
Qed.

Lemma string_column_never column :
  never_ProfilerError (_create_expectations_for_string_column dataset column).
Proof.
  unfold _create_expectations_for_string_column.
  apply never_seq; [ apply non_nullity_never | apply never_emit ].
Qed.

Lemma datetime_column_never column :
  never_ProfilerError (_create_expectations_for_datetime_column dataset column).
Proof using dataset parse_errors.
  unfold _create_expectations_for_datetime_column.
  apply never_seq; [ apply non_nullity_never | ].
  apply never_seq; [ apply never_emit | ].
  apply never_bind.
  { destruct (negb _); [ | never ].
    apply never_seq; [ apply never_remove | ].
    apply never_lift, shift_days_no_ProfilerError, parse_errors. }
  intros min_value.
  apply never_seq; [ apply never_emit | ].
  apply never_bind.
  { destruct (negb _); [ | never ].
    apply never_seq; [ apply never_remove | ].
    apply never_lift, shift_days_no_ProfilerError, parse_errors. }
  intros max_value. destruct (_ || _); never.
Qed.

Lemma profile_column_never column :
  never_ProfilerError (profile_column dataset column).
Proof using dataset parse_errors.
  unfold profile_column.
  apply never_bind; [ apply cardinality_caching_never | ]. intros k.
  apply never_bind; [ apply type_caching_never | ]. intros t.
  destruct (py_in k _); [ apply low_card_column_never | ].
  destruct (py_in k _); [ | never ].
  apply never_seq; [ apply never_emit | ].
  destruct (py_in t _); [ apply numeric_column_never | ].
  destruct (py_in t _); [ apply datetime_column_never | ].
  destruct (py_in t _); [ apply string_column_never | never ].
Qed.

Lemma metadata_never :
  never_ProfilerError (_build_column_description_metadata dataset).
Proof.
  intros s e.
  destruct (build_column_description_metadata_spec dataset s) as (suite & -> & _).
  discriminate.
Qed.

Lemma remove_table_never l :
  never_ProfilerError (_remove_table_expectations dataset l).
Proof.
  unfold _remove_table_expectations.
  apply never_bind; [ apply (never_state_read events) | ]. intros made.
  apply never_seq; [ | never ].
  apply never_for_each. intros x. apply never_except, never_remove.
Qed.

Lemma remove_column_never l :
  never_ProfilerError (_remove_column_expectations dataset l).
Proof.
  unfold _remove_column_expectations.
  apply never_bind; [ apply (never_state_read events) | ]. intros made.
  apply never_seq; [ | never ].
  apply never_for_each. intros c.
  apply never_for_each. intros x. apply never_except, never_remove.
Qed.

Lemma keep_included_never l : never_ProfilerError (keep_included dataset l).
Proof.
  unfold keep_included.
  apply never_bind; [ apply (never_state_read events) | ]. intros made.
  apply never_for_each. intros x.
  destruct (negb _); [ apply never_except, never_remove | never ].
Qed.

Lemma table_expectations_never :
  never_ProfilerError (_build_table_row_count_expectation dataset default_tolerance)
  /\ never_ProfilerError (_build_table_column_expectations dataset).
Proof.
  split.
  - unfold _build_table_row_count_expectation.
    destruct (negb _); [ intros s e [= <-]; exact I | ].
    apply never_seq; [ apply never_emit | ].
    apply never_bind; [ apply never_lift, int_of_product_no_ProfilerError | ].
    intros lo.
    apply never_bind; [ apply never_lift, int_of_product_no_ProfilerError | ].
    intros hi. never.
  - unfold _build_table_column_expectations.
    repeat first [ apply never_seq | apply never_ret | apply never_emit ].
Qed.

Lemma demo_profile_never : never_ProfilerError (_demo_profile dataset).
Proof using dataset parse_errors.
  unfold _demo_profile. cbv zeta.
  destruct table_expectations_never as [Hrow Hcol].
  apply never_seq; [ apply never_emit | ].
  apply never_seq; [ exact Hrow | ].
  apply never_seq; [ apply never_emit | ].
  apply never_seq; [ exact Hcol | ].
  apply never_seq; [ apply never_set_cache | ].
  assert (forall columns pc,
            never_ProfilerError (_find_next_low_card_column dataset columns pc)) as H1.
  { intros columns pc. induction columns as [| c columns IH];
      cbn [_find_next_low_card_column]; [ never | ].
    destruct (py_in c _); [ exact IH | ].
    apply never_bind; [ apply cardinality_caching_never | ]. intros k.
    destruct (py_in _ _); [ never | exact IH ]. }
  assert (forall columns pc,
            never_ProfilerError (_find_next_numeric_column dataset columns pc)) as H2.
  { intros columns pc. induction columns as [| c columns IH];
      cbn [_find_next_numeric_column]; [ never | ].
    destruct (py_in c _); [ exact IH | ]. destruct (looks_like_id c); [ exact IH | ].
    apply never_bind; [ apply cardinality_caching_never | ]. intros k.
    apply never_bind; [ apply type_caching_never | ]. intros t.
    destruct (_ && _); [ never | exact IH ]. }
  assert (forall columns pc,
            never_ProfilerError (_find_next_string_column dataset columns pc)) as H3.
  { intros columns pc. induction columns as [| c columns IH];
      cbn [_find_next_string_column]; [ never | ].
    destruct (py_in c _); [ exact IH | ].
    apply never_bind; [ apply cardinality_caching_never | ]. intros k.
    apply never_bind; [ apply type_caching_never | ]. intros t.
    destruct (_ && _); [ never | exact IH ]. }
  assert (forall columns pc,
            never_ProfilerError (_find_next_datetime_column dataset columns pc)) as H4.
  { intros columns pc. induction columns as [| c columns IH];
      cbn [_find_next_datetime_column]; [ never | ].
    destruct (py_in c _); [ exact IH | ].
    apply never_bind; [ apply cardinality_caching_never | ]. intros k.
    apply never_bind; [ apply type_caching_never | ]. intros t.
    destruct (_ && _); [ never | exact IH ]. }
  apply never_bind; [ apply H1 | ]. intros r1.
  apply never_bind.
  { destruct (found_column r1); [ | never ].
    apply never_seq; [ apply low_card_column_never | never ]. }
  intros pc1.
  apply never_bind; [ apply H2 | ]. intros r2.
  apply never_bind.
  { destruct (found_column r2); [ | never ].
    apply never_seq; [ apply numeric_column_never | never ]. }
  intros pc2.
  apply never_bind; [ apply H3 | ]. intros r3.
  apply never_bind.
  { destruct (found_column r3); [ | never ].
    apply never_seq; [ apply string_column_never | never ]. }
  intros pc3.
  apply never_bind; [ apply H4 | ]. intros r4.
  apply never_seq.
  { destruct (found_column r4); [ apply datetime_column_never | never ]. }
  apply never_bind; [ apply metadata_never | ]. intros suite. never.
Qed.

Lemma profile_body_never (selected included excluded : cfgval) :
  never_ProfilerError
    (if cfg_is_None included then
       suite <- _build_column_description_metadata dataset;;
       ret {| expectations := []; meta := meta suite |}
     else
       set_default_expectation_argument "catch_exceptions" false;;;
       _build_table_row_count_expectation dataset default_tolerance;;;
       set_config_value "interactive_evaluation" true;;;
       _build_table_column_expectations dataset;;;
       set_cache ∅;;;
       (if cfg_truthy selected
        then for_each (cfg_items selected) (profile_column dataset)
        else ret tt);;;
       (if cfg_truthy excluded then
          _remove_table_expectations dataset (cfg_items excluded);;;
          _remove_column_expectations dataset (cfg_items excluded)
        else ret dataset);;;
       (if cfg_truthy included
        then keep_included dataset (cfg_items included)
        else ret tt);;;
       _build_column_description_metadata dataset).
Proof using dataset parse_errors.
  destruct table_expectations_never as [Hrow Hcol].
  destruct (cfg_is_None included).
  { apply never_bind; [ apply metadata_never | ]. intros suite. never. }
  apply never_seq; [ apply never_emit | ].
  apply never_seq; [ exact Hrow | ].
  apply never_seq; [ apply never_emit | ].
  apply never_seq; [ exact Hcol | ].
  apply never_seq; [ apply never_set_cache | ].
  apply never_seq.
  { destruct (cfg_truthy selected); [ | never ].
    apply never_for_each, profile_column_never. }
  apply never_seq.
  { destruct (cfg_truthy excluded); [ | never ].
    apply never_seq; [ apply remove_table_never | apply remove_column_never ]. }
  apply never_seq.
  { destruct (cfg_truthy included); [ apply keep_included_never | never ]. }
  apply metadata_never.
Qed.

End NeverProfilerError.

(** X24: a [ProfilerError] is raised before anything is changed: when
    [_profile] raises one, whatever the configuration, the dataset has
    only been read ([get_table_columns],
    [list_available_expectation_types]): no expectation has been created
    or removed, no setting changed, no column measured, and the column
    cache is the one before the run. Here [dateutil] is taken to raise
    errors of its own only. *)
Theorem profile_error_before_any_call dataset configuration s msg :
  (forall date, no_ProfilerError (dateutil_parse dataset date)) ->
  fst (_profile dataset configuration s) = inl (ProfilerError msg) ->
  snd (_profile dataset configuration s) = s.
Proof.
  intros Hparse Hraise.
  destruct configuration as [| | d].
  2: { exfalso. apply (demo_profile_never dataset Hparse s _ Hraise). }
  all: unfold _profile in *.
  all: match goal with
       | H : fst (bind ?settings _ _) = _ |- _ =>
           assert (checks_only True settings) as Hsettings
       end.
  1: apply checks_only_ret.
  2: { destruct (configuration_truthy _); [ | apply checks_only_ret ].
       apply checks_only_settings. }
  all: unfold bind at 1 in Hraise; unfold bind at 1.
  all: destruct (Hsettings s)
         as [[msg' E] | [[E _] | [[selected [included excluded]] E]]];
    rewrite E in Hraise |- *; [ reflexivity | reflexivity | ].
  all: unfold bind at 1 in Hraise; unfold bind at 1; unfold lift in Hraise |- *.
  all: destruct (_check_that_columns_exist dataset selected) as [e | []];
    [ reflexivity | ].
  all: exfalso;
    apply (profile_body_never dataset Hparse selected included excluded s _ Hraise).
Qed.

Lemma profile_error_before_any_call_witness :
  snd (_profile sample_table
         (Mapping {[ "included_columns" := CList ["zz"] ]}) initial_state)
  = initial_state.
Proof.
  apply (profile_error_before_any_call _ _ _ "Column zz does not exist.").
  - intros date e [= <-]. exact I.
  - vm_compute. reflexivity.
Defined.

End ProfilerBehaviour.
